(** * Forecast dashboard: the data-preparation and forecasting pipeline

    A shallow embedding of [src/main.py], the Streamlit dashboard script:
    the HR data loader, the series extractor [get_forecast_data], the
    sanitising step applied to [forecast_data], the cached training entry
    point, the metric cards, the executive summary and the forecasting
    section of the script.

    Conventions.
    - A timestamp is an instant, counted in microseconds since
      1970-01-01 00:00 (the resolution of [datetime.today()]); [None] is
      NaT.
    - A number is a rational or NaN ([None]). What pandas and numpy
      compute in int64 and float64 (the sum of a group, the sum of a
      column, the conversion to float) is a parameter of the pipeline in
      the section on machine arithmetic; the definitions before it are the
      pipeline over exact arithmetic.
    - A Python exception is a value of [Exception]; a computation that can
      raise returns a [result].
    - The script writes to the page through Streamlit calls; the page is the
      list of [ui_event]s of the session, in the order they were emitted. *)

From Stdlib Require Import List ZArith QArith String Ascii Bool Lia Sorted.
From Stdlib Require Import Qround Qabs DecimalString Lqa Permutation SpecFloat.
Import ListNotations.

Local Open Scope string_scope.
Local Open Scope Z_scope.

(* ------------------------------------------------------------------ *)
(** ** Python values *)

Definition Timestamp := Z.

(** numpy's float64, with NaN as [None]. *)
Definition float64 := option Q.

Definition NaN : float64 := None.

(** A cell of an object or numeric column: a number (possibly NaN; Python's
    [None] is null in the same way) or a string. *)
Inductive cell : Type :=
| Flt (x : float64)
| Str (s : string).

Record Exception : Type := mkException {
  exc_type : string;
  exc_msg : string
}.

Inductive result (A : Type) : Type :=
| Ok (a : A)
| Raise (e : Exception).
Arguments Ok {A} a.
Arguments Raise {A} e.

Definition rbind {A B : Type} (r : result A) (k : A -> result B) : result B :=
  match r with
  | Ok a => k a
  | Raise e => Raise e
  end.

Declare Scope result_scope.
Delimit Scope result_scope with result.
Notation "x <- r ;; k" := (rbind r (fun x => k))
  (at level 61, r at next level, right associativity) : result_scope.

Definition KeyError (k : string) : Exception := mkException "KeyError" k.
Definition IndexError : Exception :=
  mkException "IndexError" "single positional indexer is out-of-bounds".
Definition ZeroDivisionError : Exception :=
  mkException "ZeroDivisionError" "division by zero".
Definition ValueError (msg : string) : Exception := mkException "ValueError" msg.

(* ------------------------------------------------------------------ *)
(** ** The forecast frame and its sanitising step (lines 635-636) *)

(** One row of [forecast_data]: the index label and the columns [ds], [y]. *)
Record point : Type := mkPoint {
  idx : Z;
  ds : option Timestamp;
  y : cell
}.

Definition Frame := list point.

Definition isna_cell (c : cell) : bool :=
  match c with
  | Flt None => true
  | _ => false
  end.

Definition isna_ds (t : option Timestamp) : bool :=
  match t with
  | None => true
  | Some _ => false
  end.

(** [forecast_data.dropna(subset=['ds', 'y'])]: rows keep their order and
    their index labels. *)
Definition dropna (fd : Frame) : Frame :=
  filter (fun r => negb (isna_ds (ds r)) && negb (isna_cell (y r))) fd.

(** [fillna(0)] *)
Definition fillna0 (x : float64) : float64 :=
  match x with
  | None => Some 0%Q
  | Some q => Some q
  end.

Section Sanitizer.

(** The string parser of [pd.to_numeric]; with [errors='coerce'] a string
    that does not parse becomes NaN. *)
Variable parse_float : string -> float64.

Definition to_numeric (c : cell) : float64 :=
  match c with
  | Flt x => x
  | Str s => parse_float s
  end.

(** [pd.to_numeric(forecast_data['y'], errors='coerce').fillna(0).astype(float)],
    the conversion to float taken as exact (see [coerce_y_with]). *)
Definition coerce_y (r : point) : point :=
  mkPoint (idx r) (ds r) (Flt (fillna0 (to_numeric (y r)))).

Definition sanitize (fd : Frame) : Frame :=
  map coerce_y (dropna fd).

End Sanitizer.

(** Predicates on frames. *)

Definition has_timestamp (r : point) : Prop := ds r <> None.

Definition has_value (r : point) : Prop := exists q : Q, y r = Flt (Some q).

(** The timestamps of a frame, in row order (null ones left out). *)
Definition timestamps (fd : Frame) : list Timestamp :=
  flat_map (fun r => match ds r with
                     | Some t => [t]
                     | None => []
                     end) fd.

(** Sorted ascending by [ds]; strictly, when no timestamp repeats. *)
Definition ascending (fd : Frame) : Prop := StronglySorted Z.le (timestamps fd).

Definition strictly_ascending (fd : Frame) : Prop :=
  StronglySorted Z.lt (timestamps fd).

Fixpoint sortedb (l : list Z) : bool :=
  match l with
  | [] => true
  | t :: rest => forallb (Z.leb t) rest && sortedb rest
  end.

Definition ascendingb (fd : Frame) : bool := sortedb (timestamps fd).

(** [l] is [l'] with some elements left out, order kept. *)
Inductive sublist {A : Type} : list A -> list A -> Prop :=
| sublist_nil : sublist [] []
| sublist_skip : forall x l l', sublist l l' -> sublist l (x :: l')
| sublist_keep : forall x l l', sublist l l' -> sublist (x :: l) (x :: l').

(* ------------------------------------------------------------------ *)
(** ** The dashboard table and the series extractor (lines 140-144, 164-198) *)

(** [data]: the datetime column ['Week'], the string column ['Region'] and
    the numeric metric columns, by name. *)
Record Table : Type := mkTable {
  Week : list (option Timestamp);
  Region : list string;
  metrics : list (string * list float64)
}.

(** [len(data)] *)
Definition len (data : Table) : nat := List.length (Week data).

Fixpoint lookup {A : Type} (k : string) (l : list (string * A)) : option A :=
  match l with
  | [] => None
  | (k', v) :: rest => if String.eqb k k' then Some v else lookup k rest
  end.

(** [data[metric]] *)
Definition getitem (data : Table) (metric : string) : result (list float64) :=
  match lookup metric (metrics data) with
  | Some column => Ok column
  | None => Raise (KeyError metric)
  end.

(** The group keys of [groupby]: the distinct non-null keys, ascending
    ([sort=True], [dropna=True] are pandas' defaults). *)
Fixpoint insert_key (k : Timestamp) (ks : list Timestamp) : list Timestamp :=
  match ks with
  | [] => [k]
  | h :: t =>
      if k <? h then k :: h :: t
      else if k =? h then h :: t
      else h :: insert_key k t
  end.

Definition add_key (ks : list Timestamp) (w : option Timestamp) : list Timestamp :=
  match w with
  | Some k => insert_key k ks
  | None => ks
  end.

Definition group_keys (weeks : list (option Timestamp)) : list Timestamp :=
  fold_left add_key weeks [].

(** [sum()] of a numeric column as an exact sum: NaN is skipped, the empty
    sum is 0. *)
Definition nanadd (acc : Q) (x : float64) : Q :=
  match x with
  | Some q => (acc + q)%Q
  | None => acc
  end.

Definition nansum (l : list float64) : Q := fold_left nanadd l 0%Q.

Definition in_bucket (k : Timestamp) (row : option Timestamp * float64) : bool :=
  match fst row with
  | Some t => t =? k
  | None => false
  end.

Definition bucket_values (k : Timestamp) (rows : list (option Timestamp * float64))
  : list float64 :=
  map snd (filter (in_bucket k) rows).

(** [data.groupby('Week')[metric].sum()] over the rows (week, metric value),
    with exact sums (see [groupby_sum_with]). *)
Definition groupby_sum (rows : list (option Timestamp * float64))
  : list (Timestamp * Q) :=
  map (fun k => (k, nansum (bucket_values k rows))) (group_keys (map fst rows)).

(** The groups as rows of a frame with the columns [ds] and [y], the index
    counting from [n]. *)
Definition numbered (n : nat) (groups : list (Timestamp * Q)) : Frame :=
  map (fun ig => mkPoint (Z.of_nat (fst ig)) (Some (fst (snd ig)))
                         (Flt (Some (snd (snd ig)))))
      (combine (seq n (List.length groups)) groups).

(** [reset_index()] and the renaming of the two columns to [ds], [y]. *)
Definition reset_index (groups : list (Timestamp * Q)) : Frame :=
  numbered 0 groups.

(** [data.groupby('Week')[forecast_metric]]: the selection of a column
    that is not there raises [KeyError('Column not found: ...')]. *)
Definition groupby_getitem (data : Table) (metric : string)
  : result (list float64) :=
  match lookup metric (metrics data) with
  | Some column => Ok column
  | None => Raise (KeyError ("Column not found: " ++ metric))
  end.

Definition get_forecast_data (data : Table) (forecast_metric : string)
  : result Frame :=
  (column <- groupby_getitem data forecast_metric ;;
   Ok (reset_index (groupby_sum (combine (Week data) column))))%result.

(* ------------------------------------------------------------------ *)
(** ** The DEBUG series (lines 626-630) *)

(** The raw output of numpy's global generator from its current position
    on; every draw consumes a prefix. *)
Definition Rng := nat -> Z.

(** [np.random.randint(low, high, size)]: [size] integers in [low, high). *)
Definition randint (low high : Z) (size : nat) (g : Rng) : list Z * Rng :=
  (map (fun i => low + g i mod (high - low)) (seq 0 size),
   fun i => g (i + size)%nat).

(** One day, in microseconds. *)
Definition microseconds_per_day : Z := 86400000000.

(** [pd.to_datetime(d)] for a [datetime.date]: midnight of that day, the
    day given as its number since 1970-01-01. *)
Definition to_datetime (day : Z) : Timestamp := day * microseconds_per_day.

(** Day of the week of an instant, Sunday = 0 (1970-01-01 was a Thursday). *)
Definition weekday (t : Timestamp) : Z := (t / microseconds_per_day + 4) mod 7.

(** [pd.date_range(start, periods, freq='W')]: the Sundays from the first
    one on or after [start], at the time of day of [start]. *)
Definition date_range_W (start : Timestamp) (periods : nat) : list Timestamp :=
  let first := start + ((7 - weekday start) mod 7) * microseconds_per_day in
  map (fun i => first + 7 * microseconds_per_day * Z.of_nat i) (seq 0 periods).

(** 2023-01-01 00:00, day 19358. *)
Definition day_2023_01_01 : Timestamp := to_datetime 19358.

(** [pd.DataFrame({'ds': ..., 'y': ...})] with the default index. *)
Definition frame_of_columns (dates : list Timestamp) (ys : list Z) : Frame :=
  map (fun r => mkPoint (Z.of_nat (fst r)) (Some (fst (snd r)))
                        (Flt (Some (inject_Z (snd (snd r))))))
      (combine (seq 0 (List.length dates)) (combine dates ys)).

Definition debug_frame (g : Rng) : Frame * Rng :=
  let (ys, g') := randint 1000 5000 24 g in
  (frame_of_columns (date_range_W day_2023_01_01 24) ys, g').

(* ------------------------------------------------------------------ *)
(** ** Validation of the sanitised frame (lines 639, 661, 692) *)

(** The float column [y]; after [astype(float)] no cell is a string. *)
Definition y_float (r : point) : float64 :=
  match y r with
  | Flt x => x
  | Str _ => NaN
  end.

(** [forecast_data['y'].sum()], as an exact sum (see [no_usable_signal_with]). *)
Definition y_sum (fd : Frame) : Q := nansum (map y_float fd).

(** [forecast_data.empty] *)
Definition empty (fd : Frame) : bool :=
  match fd with
  | [] => true
  | _ => false
  end.

(** [forecast_data.empty or 'y' not in forecast_data.columns or
    forecast_data['y'].sum() == 0]; the column [y] is always there. *)
Definition no_usable_signal (fd : Frame) : bool :=
  empty fd || Qeq_bool (y_sum fd) 0.

(* ------------------------------------------------------------------ *)
(** ** The page *)

(** One row of the frame [model.predict] returns: [ds] and [yhat1]. *)
Record forecast_row : Type := mkForecastRow {
  f_ds : option Timestamp;
  yhat1 : float64
}.

Definition Forecast := list forecast_row.

(** A plotly figure of the forecasting section: [px.line] with the scatter
    of the actual values added, or [px.bar]. *)
Record figure : Type := mkFigure {
  fig_kind : string;
  fig_data : Forecast;
  fig_title : string;
  fig_scatter : option (list (option Timestamp * cell))
}.

(** The value shown on a metric card: [f"{int(current)} / {target}"] or
    [int(current)]. *)
Inductive metric_value : Type :=
| OverTarget (current target : Z)
| Plain (current : Z).

Inductive written : Type :=
| WFrame (head : Frame)
| WShape (rows columns : nat).

Inductive ui_event : Type :=
| Warning (msg : string)
| Info (msg : string)
| ErrorBox (msg : string)
| CodeBlock (text : string)
| Markdown (text : string)
| Written (label : string) (what : written)
| PlotlyChart (fig : figure)
| MetricCard (col : nat) (label : string) (value : metric_value)
             (delta : option float64).

(* ------------------------------------------------------------------ *)
(** ** Equality of frames by content (the key of the model cache) *)

Definition float_eqb (a b : float64) : bool :=
  match a, b with
  | Some p, Some q => Qeq_bool p q
  | None, None => true
  | _, _ => false
  end.

Definition cell_eqb (a b : cell) : bool :=
  match a, b with
  | Flt p, Flt q => float_eqb p q
  | Str s, Str t => String.eqb s t
  | _, _ => false
  end.

Definition ds_eqb (a b : option Timestamp) : bool :=
  match a, b with
  | Some s, Some t => s =? t
  | None, None => true
  | _, _ => false
  end.

Definition point_eqb (a b : point) : bool :=
  (idx a =? idx b) && ds_eqb (ds a) (ds b) && cell_eqb (y a) (y b).

Fixpoint frame_eqb (a b : Frame) : bool :=
  match a, b with
  | [], [] => true
  | p :: a', q :: b' => point_eqb p q && frame_eqb a' b'
  | _, _ => false
  end.

(** The two places where the script defines [train_forecast_model] under
    [@st.cache_resource]: line 665 and, inside the second [try], line 697.
    Each definition has a store of its own. *)
Inductive def_site : Type :=
| line_665
| line_697.

Definition def_site_eqb (a b : def_site) : bool :=
  match a, b with
  | line_665, line_665 => true
  | line_697, line_697 => true
  | _, _ => false
  end.

(* ------------------------------------------------------------------ *)
(** ** A trainer for the examples *)

Fixpoint has_duplicates (l : list Z) : bool :=
  match l with
  | [] => false
  | t :: rest => existsb (Z.eqb t) rest || has_duplicates rest
  end.

(** A stand-in for [fit] in the examples below: it refuses a frame without
    rows and a frame in which a timestamp repeats, as NeuralProphet's check
    of its input does, and returns the number of the training pass as the
    model otherwise. *)
Definition example_fit (fd : Frame) (pass : nat) : result nat :=
  if empty fd then Raise (ValueError "Dataframe has no rows.")
  else if has_duplicates (timestamps fd) then
    Raise (ValueError "Column ds has duplicate values.")
  else Ok pass.

(* ------------------------------------------------------------------ *)
(** ** The script as a computation over the session *)

Inductive outcome (A : Type) : Type :=
| Done (a : A)
| Stopped
| Raised (e : Exception).
Arguments Done {A} a.
Arguments Stopped {A}.
Arguments Raised {A} e.

Declare Scope script_scope.
Delimit Scope script_scope with script.

Section Forecasting.

(** NeuralProphet, as the script uses it. [fit fd n] is
    [NeuralProphet(n_changepoints=10, yearly_seasonality=False,
    weekly_seasonality=True).fit(fd, freq='W')] as the [n]-th training pass
    of the process (training is randomised: two passes on one frame need not
    give one model); [make_future_dataframe m fd 8] and [predict m future]
    are the two calls of lines 673-674. Each can raise. *)
Variable Model : Type.
Variable fit : Frame -> nat -> result Model.
Variable make_future_dataframe : Model -> Frame -> nat -> result Frame.
Variable predict : Model -> Frame -> result Forecast.

(** [traceback.format_exc()] for the exception being handled. *)
Variable format_exc : Exception -> string.

Variable parse_float : string -> float64.

(** What a run of the script reads and writes: the page so far, the model
    stores (process-wide, they outlive a run), the frames [fit] was called
    on (oldest first) and numpy's generator. *)
Record Session : Type := mkSession {
  ui : list ui_event;
  cache : list (def_site * Frame * Model);
  fits : list Frame;
  rng : Rng
}.

Definition Script (A : Type) : Type := Session -> outcome A * Session.

Definition ret {A : Type} (a : A) : Script A := fun s => (Done a, s).

Definition bind {A B : Type} (m : Script A) (k : A -> Script B) : Script B :=
  fun s =>
    match m s with
    | (Done a, s') => k a s'
    | (Stopped, s') => (Stopped, s')
    | (Raised e, s') => (Raised e, s')
    end.

Notation "x <- m ;; k" := (bind m (fun x => k))
  (at level 61, m at next level, right associativity) : script_scope.
Notation "m ;; k" := (bind m (fun _ => k))
  (at level 61, right associativity) : script_scope.

Local Open Scope script_scope.

(** [st.stop()] *)
Definition st_stop {A : Type} : Script A := fun s => (Stopped, s).

Definition lift {A : Type} (r : result A) : Script A :=
  fun s =>
    match r with
    | Ok a => (Done a, s)
    | Raise e => (Raised e, s)
    end.

Definition emit (ev : ui_event) : Script unit :=
  fun s => (Done tt, mkSession (ui s ++ [ev]) (cache s) (fits s) (rng s)).

(** [try: body  except Exception as e: handler e] *)
Definition try_except {A : Type} (body : Script A) (handler : Exception -> Script A)
  : Script A :=
  fun s =>
    match body s with
    | (Raised e, s') => handler e s'
    | other => other
    end.

(** A draw from numpy's global generator. *)
Definition np_random {A : Type} (draw : Rng -> A * Rng) : Script A :=
  fun s =>
    let (a, g) := draw (rng s) in
    (Done a, mkSession (ui s) (cache s) (fits s) g).

(** *** The cached training entry point (lines 665-669 and 697-701) *)

Fixpoint cache_lookup (site : def_site) (fd : Frame)
    (entries : list (def_site * Frame * Model)) : option Model :=
  match entries with
  | [] => None
  | (site', key, m) :: rest =>
      if def_site_eqb site site' && frame_eqb fd key then Some m
      else cache_lookup site fd rest
  end.

(** [@st.cache_resource def train_forecast_model(forecast_data)]: the body
    runs on a miss only; its result is stored when it returns, and nothing
    is stored when it raises. *)
Definition train_forecast_model (site : def_site) (forecast_data : Frame)
  : Script Model :=
  fun s =>
    match cache_lookup site forecast_data (cache s) with
    | Some m => (Done m, s)
    | None =>
        match fit forecast_data (List.length (fits s)) with
        | Ok m =>
            (Done m,
             mkSession (ui s) ((site, forecast_data, m) :: cache s)
                       (fits s ++ [forecast_data]) (rng s))
        | Raise e =>
            (Raised e,
             mkSession (ui s) (cache s) (fits s ++ [forecast_data]) (rng s))
        end
    end.

(** *** The forecasting section (lines 625-710) *)

Definition warning_639 (forecast_metric : string) : string :=
  "⚠️ No valid data available for forecasting '" ++ forecast_metric
  ++ "'. Try selecting a different metric or adjust filters.".

Definition warning_661 (forecast_metric : string) : string :=
  "⚠️ No valid data available for forecasting '" ++ forecast_metric
  ++ "'. Try DEBUG or adjust filters.".

Definition warning_692 (forecast_metric : string) : string :=
  "⚠️ No data available to forecast '" ++ forecast_metric
  ++ "'. Try DEBUG mode or adjust filters.".

(** Lines 626-632 and 644-650. *)
Definition load_forecast_data (data : Table) (forecast_metric : string)
  : Script Frame :=
  if String.eqb forecast_metric "DEBUG" then np_random debug_frame
  else lift (get_forecast_data data forecast_metric).

(** [if <no usable signal>: st.warning(...); st.stop()] *)
Definition validate (forecast_data : Frame) (msg : string) : Script unit :=
  if no_usable_signal forecast_data then emit (Warning msg) ;; st_stop
  else ret tt.

(** The handler of both [try] statements (lines 686-689, 707-710). *)
Definition forecasting_failed (e : Exception) : Script unit :=
  emit (ErrorBox ("⚠️ Forecasting failed: " ++ exc_msg e)) ;;
  emit (CodeBlock (format_exc e)).

Definition forecast_figure (chart_type_forecast forecast_metric : string)
    (forecast : Forecast) (forecast_data : Frame) : figure :=
  if String.eqb chart_type_forecast "Line Chart" then
    mkFigure "line" forecast (forecast_metric ++ " Forecast")
             (Some (map (fun r => (ds r, y r)) forecast_data))
  else
    mkFigure "bar" forecast (forecast_metric ++ " Forecast (Bar)") None.

(** The body of the first [try] (lines 672-684). *)
Definition first_forecast_body (chart_type_forecast forecast_metric : string)
    (forecast_data : Frame) : Script unit :=
  model <- train_forecast_model line_665 forecast_data ;;
  future <- lift (make_future_dataframe model forecast_data 8) ;;
  forecast <- lift (predict model future) ;;
  emit (Markdown "## 🔮 Forecasting Output") ;;
  emit (PlotlyChart (forecast_figure chart_type_forecast forecast_metric
                                     forecast forecast_data)).

(** Lines 671-689. *)
Definition first_forecast (chart_type_forecast forecast_metric : string)
    (forecast_data : Frame) : Script unit :=
  try_except
    (first_forecast_body chart_type_forecast forecast_metric forecast_data)
    forecasting_failed.

(** The body of the second [try] (lines 697-705). *)
Definition second_forecast_body (forecast_data : Frame) : Script unit :=
  model <- train_forecast_model line_697 forecast_data ;;
  future <- lift (make_future_dataframe model forecast_data 8) ;;
  forecast <- lift (predict model future) ;;
  ret tt.

(** Lines 696-710. *)
Definition second_forecast (forecast_data : Frame) : Script unit :=
  try_except (second_forecast_body forecast_data) forecasting_failed.

Definition forecasting_section (data : Table)
    (forecast_metric chart_type_forecast : string) : Script unit :=
  raw <- load_forecast_data data forecast_metric ;;
  validate (sanitize parse_float raw) (warning_639 forecast_metric) ;;
  raw <- load_forecast_data data forecast_metric ;;
  let forecast_data := sanitize parse_float raw in
  emit (Written "🧪 Forecast Data Preview" (WFrame (firstn 5 forecast_data))) ;;
  emit (Written "📏 Shape:" (WShape (List.length forecast_data) 2)) ;;
  validate forecast_data (warning_661 forecast_metric) ;;
  first_forecast chart_type_forecast forecast_metric forecast_data ;;
  validate forecast_data (warning_692 forecast_metric) ;;
  second_forecast forecast_data.

End Forecasting.

Arguments ui {Model} s.
Arguments cache {Model} s.
Arguments fits {Model} s.
Arguments rng {Model} s.

(* ------------------------------------------------------------------ *)
(** ** Arithmetic on float64 *)

Definition fsub (a b : float64) : float64 :=
  match a, b with
  | Some p, Some q => Some (p - q)%Q
  | _, _ => None
  end.

Definition fmul (a b : float64) : float64 :=
  match a, b with
  | Some p, Some q => Some (p * q)%Q
  | _, _ => None
  end.

Definition fabs (a : float64) : float64 :=
  match a with
  | Some p => Some (Qabs p)
  | None => None
  end.

Definition is_zero (x : float64) : bool :=
  match x with
  | Some q => Qeq_bool q 0
  | None => false
  end.

(** The truth value of a number: it is nonzero (NaN is true). *)
Definition truthy (x : float64) : bool := negb (is_zero x).

(** [a / b], as the exact quotient. A division whose divisor is zero is
    reported as a [ZeroDivisionError]. *)
Definition fdiv (a b : float64) : result float64 :=
  if is_zero b then Raise ZeroDivisionError
  else Ok (match a, b with
           | Some p, Some q => Some (p / q)%Q
           | _, _ => None
           end).

(** [e] is not the report of a division by zero. *)
Definition not_zero_division (e : Exception) : Prop :=
  exc_type e <> "ZeroDivisionError".

(** [a > q] and [a < q]; a comparison with NaN is false. *)
Definition fgt (a : float64) (q : Q) : bool :=
  match a with
  | Some p => match (p ?= q)%Q with Gt => true | _ => false end
  | None => false
  end.

Definition flt (a : float64) (q : Q) : bool :=
  match a with
  | Some p => match (p ?= q)%Q with Lt => true | _ => false end
  | None => false
  end.

(** [int(x)]: truncation toward zero. *)
Definition py_int (x : float64) : result Z :=
  match x with
  | Some q => Ok (Z.quot (Qnum q) (Zpos (Qden q)))
  | None => Raise (ValueError "cannot convert float NaN to integer")
  end.

Definition round_half_even (q : Q) : Z :=
  let f := Qfloor q in
  match (q - inject_Z f ?= 1 # 2)%Q with
  | Lt => f
  | Gt => f + 1
  | Eq => if Z.even f then f else f + 1
  end.

(** [round(x, 1)], half to even on the exact value. *)
Definition round1 (x : float64) : float64 :=
  match x with
  | Some q => Some (inject_Z (round_half_even (q * 10)) / 10)%Q
  | None => None
  end.

(** [column.iloc[-k]], [k] at least 1. *)
Definition iloc_from_end (column : list float64) (k : nat) : result float64 :=
  match nth_error (rev column) (k - 1) with
  | Some v => Ok v
  | None => Raise IndexError
  end.

(* ------------------------------------------------------------------ *)
(** ** Metric cards (lines 244-253) *)

(** [data[metric].iloc[-2] if len(data) > 1 else current] *)
Definition previous_value (data : Table) (column : list float64)
    (current : float64) : result float64 :=
  if (1 <? len data)%nat then iloc_from_end column 2 else Ok current.

(** [previous and (change / previous <test>)] as a condition. *)
Definition ratio_test (previous change : float64) (test : float64 -> bool)
  : result bool :=
  if truthy previous then (ratio <- fdiv change previous ;; Ok (test ratio))%result
  else Ok false.

(** Line 248. *)
Definition alert_of (current previous : float64) : result string :=
  let change := fsub current previous in
  (spike <- ratio_test previous change (fun r => fgt r (1 # 4)) ;;
   if spike then Ok "📍 Spike"
   else
     drop <- ratio_test previous change (fun r => flt r (- (1 # 4))) ;;
     if drop then Ok "⚠️ Drop" else Ok "")%result.

(** The call of [col.metric] the function makes, or the exception it raises. *)
Definition display_metric_with_target (data : Table) (targets : list (string * Z))
    (col : nat) (metric label : string) : result ui_event :=
  (column <- getitem data metric ;;
   current <- iloc_from_end column 1 ;;
   previous <- previous_value data column current ;;
   alert <- alert_of current previous ;;
   match lookup metric targets with
   | Some target =>
       let delta := fsub current (Some (inject_Z target)) in
       shown <- py_int current ;;
       Ok (MetricCard col (label ++ " " ++ alert) (OverTarget shown target)
                      (Some delta))
   | None =>
       shown <- py_int current ;;
       Ok (MetricCard col (label ++ " " ++ alert) (Plain shown) None)
   end)%result.

(* ------------------------------------------------------------------ *)
(** ** Executive summary (lines 456-463) *)

(** [f"{metric} {direction} by {abs(pct)}% compared to last week."] *)
Record summary_line : Type := mkSummary {
  s_metric : string;
  s_direction : string;
  s_abs_pct : float64
}.

(** [round((diff / prev_value) * 100, 1) if prev_value else 0] *)
Definition percent_change (diff prev_value : float64) : result float64 :=
  if truthy prev_value then
    (ratio <- fdiv diff prev_value ;; Ok (round1 (fmul ratio (Some 100%Q))))%result
  else Ok (Some 0%Q).

(** The body of the loop for one metric. *)
Definition summarise (data : Table) (metric : string)
  : result (option summary_line) :=
  if (1 <? len data)%nat then
    (column <- getitem data metric ;;
     prev_value <- iloc_from_end column 2 ;;
     last <- iloc_from_end column 1 ;;
     let diff := fsub last prev_value in
     pct <- percent_change diff prev_value ;;
     Ok (Some (mkSummary metric
                 (if fgt diff 0 then "increased" else "decreased")
                 (fabs pct))))%result
  else Ok None.

Fixpoint summaries_of (data : Table) (names : list string)
  : result (list summary_line) :=
  match names with
  | [] => Ok []
  | metric :: rest =>
      (line <- summarise data metric ;;
       lines <- summaries_of data rest ;;
       Ok (match line with
           | Some l => l :: lines
           | None => lines
           end))%result
  end.

Definition executive_summary (data : Table) : result (list summary_line) :=
  summaries_of data ["Revenue Closed"; "New Leads"; "Deals Closed"].

(* ------------------------------------------------------------------ *)
(** ** The HR data loader (lines 102-137) *)

Record date : Type := mkDate {
  year : Z;
  month : Z;
  day : Z
}.

Inductive hr_cell : Type :=
| Text (s : string)
| Int (n : Z)
| Date (d : date).

(** A frame as [pd.DataFrame({...})] builds it: the columns by name. *)
Definition DataFrame := list (string * list hr_cell).

Definition n_columns (df : DataFrame) : nat := List.length df.

Definition has_n_rows (n : nat) (df : DataFrame) : Prop :=
  Forall (fun column => List.length (snd column) = n) df.

Definition is_leap (yr : Z) : bool :=
  ((yr mod 4 =? 0) && negb (yr mod 100 =? 0)) || (yr mod 400 =? 0).

Definition days_in_month (yr mo : Z) : Z :=
  if mo =? 2 then (if is_leap yr then 29 else 28)
  else if (mo =? 4) || (mo =? 6) || (mo =? 9) || (mo =? 11) then 30
  else 31.

(** [pd.date_range(start, periods, freq="<k>M")]: month ends, every [k]
    months from the end of the month of [start]. *)
Definition date_range_M (start : date) (periods : nat) (k : Z) : list date :=
  map (fun i =>
         let m := 12 * year start + (month start - 1) + k * Z.of_nat i in
         mkDate (m / 12) (m mod 12 + 1) (days_in_month (m / 12) (m mod 12 + 1)))
      (seq 0 periods).

(** Lines 122-137. *)
Definition dummy_hr_data : DataFrame :=
  [ ("Employee Name", map Text ["Alice"; "Bob"; "Charlie"; "Diana"]);
    ("Department", repeat (Text "HR") 4);
    ("Joining Date", map Date (date_range_M (mkDate 2023 1 1) 4 3));
    ("Status", map Text ["Active"; "Active"; "On Leave"; "Resigned"]);
    ("Engagement Score", map Int [78; 82; 75; 80]);
    ("Training Effectiveness", map Int [76; 80; 79; 77]);
    ("Performance Rating", map Int [85; 90; 80; 78]);
    ("Hiring Cost", map Int [4000; 5000; 6000; 5500]);
    ("Internal Moves", map Int [1; 0; 0; 1]);
    ("Overtime Hours", map Int [10; 5; 12; 0]);
    ("Application Status", map Text ["Accepted"; "Offered"; "Accepted"; "Rejected"]);
    ("Gender", map Text ["Female"; "Male"; "Female"; "Male"]);
    ("Application Date", map Date (date_range_M (mkDate 2022 11 1) 4 2));
    ("Hire Date", map Date (date_range_M (mkDate 2023 1 1) 4 2)) ].

(** What [requests.get] returns, as far as [raise_for_status] reads it. *)
Record Response : Type := mkResponse {
  status_code : Z;
  reason : string
}.

Definition string_of_Z (n : Z) : string :=
  DecimalString.NilZero.string_of_int (Z.to_int n).

Definition url : string := "https://api.sensehr.io/employees".

Definition headers : list (string * string) :=
  [("Authorization", "Bearer YOUR_API_KEY")].

Definition mock_csv : string := "mock_sensehr_data.csv".

(** [response.raise_for_status()] *)
Definition raise_for_status (response : Response) : result unit :=
  let code := status_code response in
  if (400 <=? code) && (code <? 500) then
    Raise (mkException "HTTPError"
             (string_of_Z code ++ " Client Error: " ++ reason response
              ++ " for url: " ++ url))
  else if (500 <=? code) && (code <? 600) then
    Raise (mkException "HTTPError"
             (string_of_Z code ++ " Server Error: " ++ reason response
              ++ " for url: " ++ url))
  else Ok tt.

Section Loader.

(** The decoded body of a response. *)
Variable Json : Type.

(** The network and the file system, as the loader meets them:
    [requests.get(url, headers=..., timeout=...)], [response.json()],
    [pd.DataFrame(data)], [os.path.exists(path)] and
    [pd.read_csv(path, parse_dates=...)]. *)
Record World : Type := mkWorld {
  requests_get : string -> list (string * string) -> Z -> result Response;
  response_json : Response -> result Json;
  pd_DataFrame : Json -> result DataFrame;
  os_path_exists : string -> bool;
  pd_read_csv : string -> list string -> result DataFrame
}.

(** The body of the [try] (lines 108-111). *)
Definition fetch_remote (w : World) : result DataFrame :=
  (response <- requests_get w url headers 10 ;;
   _ <- raise_for_status response ;;
   data <- response_json w response ;;
   pd_DataFrame w data)%result.

(** The messages the loader shows, and the table it returns or the
    exception it raises. *)
Definition load_hr_data (w : World) : list ui_event * result DataFrame :=
  match fetch_remote w with
  | Ok df => ([], Ok df)
  | Raise e =>
      let warned :=
        Warning ("⚠️ Could not load data from API. Reason: " ++ exc_msg e) in
      if os_path_exists w mock_csv then
        ([warned; Info "📄 Using local mock HR data."],
         pd_read_csv w mock_csv ["Joining Date"; "Hire Date"; "Application Date"])
      else
        ([warned; Info "📦 Using built-in dummy HR data."], Ok dummy_hr_data)
  end.

End Loader.

Arguments requests_get {Json} w.
Arguments response_json {Json} w.
Arguments pd_DataFrame {Json} w.
Arguments os_path_exists {Json} w.
Arguments pd_read_csv {Json} w.

(* ------------------------------------------------------------------ *)
(** ** The sidebar filters (lines 206-210) *)

(** [column[mask]]: the values at the positions where the mask is true. *)
Fixpoint select {A : Type} (mask : list bool) (column : list A) : list A :=
  match mask, column with
  | b :: mask', x :: column' =>
      if b then x :: select mask' column' else select mask' column'
  | _, _ => []
  end.

(** [data[mask]]: the same rows of every column. *)
Definition select_rows (mask : list bool) (data : Table) : Table :=
  mkTable (select mask (Week data)) (select mask (Region data))
          (map (fun column => (fst column, select mask (snd column)))
               (metrics data)).

(** [(week >= start) & (week <= end)] for the instants [start] and [end]
    that [pd.to_datetime] makes of the two dates (their midnights); a
    comparison with NaT is false. *)
Definition in_window (start_date end_date : Timestamp) (week : option Timestamp)
  : bool :=
  match week with
  | Some t => (start_date <=? t) && (t <=? end_date)
  | None => false
  end.

(** Line 208. *)
Definition filter_by_date (start_date end_date : Timestamp) (data : Table) : Table :=
  select_rows (map (in_window start_date end_date) (Week data)) data.

(** Lines 209-210. *)
Definition filter_by_region (selected_region : string) (data : Table) : Table :=
  if String.eqb selected_region "All" then data
  else select_rows (map (fun r => String.eqb r selected_region) (Region data)) data.

Definition apply_filters (start_date end_date : Timestamp)
    (selected_region : string) (data : Table) : Table :=
  filter_by_region selected_region (filter_by_date start_date end_date data).

(** Every column of the table has one value per row. *)
Definition rectangular (data : Table) : Prop :=
  List.length (Region data) = len data
  /\ Forall (fun column => List.length (snd column) = len data) (metrics data).

(** The value a cell adds to a sum: NaN adds nothing. *)
Definition nanval (x : float64) : Q :=
  match x with
  | Some q => q
  | None => 0%Q
  end.

(** The rows whose week is not null. *)
Definition dated_rows (rows : list (option Timestamp * float64))
  : list (option Timestamp * float64) :=
  filter (fun row => negb (isna_ds (fst row))) rows.

(** The rows of the table as (week, region, value of one metric column). *)
Definition rows_of (data : Table) (column : list float64)
  : list (option Timestamp * (string * float64)) :=
  combine (Week data) (combine (Region data) column).

(** The row passes both filters. *)
Definition passes_filters (start_date end_date : Timestamp)
    (selected_region : string) (row : option Timestamp * (string * float64))
  : bool :=
  in_window start_date end_date (fst row)
  && (String.eqb selected_region "All"
      || String.eqb (fst (snd row)) selected_region).

(* ------------------------------------------------------------------ *)
(** ** The generated data (lines 163-198) *)

(** [np.random.random_sample()]: 53 random bits as a number in [0, 1). *)
Definition random_sample (raw : Z) : Q :=
  Qmake (raw mod 9007199254740992) 9007199254740992.

(** [np.random.uniform(low, high, size)]: [low + (high - low) * sample],
    computed exactly. *)
Definition uniform (low high : Q) (size : nat) (g : Rng) : list Q * Rng :=
  (map (fun i => (low + (high - low) * random_sample (g i))%Q) (seq 0 size),
   fun i => g (i + size)%nat).

(** How a metric column of the generated data is drawn. *)
Inductive draw_kind : Type :=
| RandInt (low high : Z)
| Uniform (low high : Q).

Definition draw (kind : draw_kind) (size : nat) (g : Rng) : list float64 * Rng :=
  match kind with
  | RandInt low high =>
      let (values, g') := randint low high size g in
      (map (fun v => Some (inject_Z v)) values, g')
  | Uniform low high =>
      let (values, g') := uniform low high size g in
      (map Some values, g')
  end.

(** The metric columns of the dictionary, in the order they are written
    (and drawn). *)
Definition metric_specs : list (string * draw_kind) :=
  [ ("New Leads", RandInt 20 50);
    ("Meetings Booked", RandInt 10 30);
    ("Discovery Calls", RandInt 5 20);
    ("Proposals Sent", RandInt 5 15);
    ("Follow-ups", RandInt 10 25);
    ("Referrals", RandInt 2 10);
    ("CRM Activity", RandInt 50 100);
    ("Content Engagement", RandInt 30 80);
    ("Deals Closed", RandInt 5 20);
    ("Revenue Closed", RandInt 1000 10000);
    ("Sales Cycle Length", Uniform 5 20);
    ("Conversion Rate", Uniform (1 # 10) (1 # 2));
    ("Client Acquisition Cost", RandInt 100 1000);
    ("Forecasted Revenue", RandInt 5000 15000);
    ("New Hires", RandInt 0 10);
    ("Interviews Conducted", RandInt 5 20);
    ("Employee Turnover", RandInt 0 5);
    ("Engagement Score", Uniform 60 90);
    ("Training Hours", RandInt 10 50);
    ("Job Applications", RandInt 50 150);
    ("Website Traffic", RandInt 1000 10000);
    ("Social Media Engagement", RandInt 200 1000);
    ("Campaigns Run", RandInt 1 5);
    ("Lead Conversion", Uniform (1 # 10) (3 # 5));
    ("MQLs Generated", RandInt 10 100);
    ("Strategic Projects", RandInt 1 3);
    ("Weekly Objectives Met", RandInt 2 5);
    ("Cross-team Meetings", RandInt 3 10);
    ("Compliance Score", Uniform 85 100) ].

Fixpoint draw_columns (specs : list (string * draw_kind)) (size : nat) (g : Rng)
  : list (string * list float64) * Rng :=
  match specs with
  | [] => ([], g)
  | (name, kind) :: rest =>
      let (column, g1) := draw kind size g in
      let (columns, g2) := draw_columns rest size g1 in
      ((name, column) :: columns, g2)
  end.

(** Line 165. *)
Definition regions : list string := ["North"; "South"; "East"; "West"].

(** [np.tile(l, n)]: the list [n] times over. *)
Definition np_tile {A : Type} (l : list A) (n : nat) : list A :=
  List.concat (repeat l n).

(** [np.repeat(l, n)]: every element [n] times in a row. *)
Definition np_repeat {A : Type} (l : list A) (n : nat) : list A :=
  flat_map (fun x => repeat x n) l.

(** Lines 165-198, for the [dates] of line 164: [pd.DataFrame] refuses
    columns of different lengths, and every metric column has 96 values. *)
Definition generate_data (dates : list Timestamp) (g : Rng) : result Table * Rng :=
  let weeks := np_tile (map Some dates) (List.length regions) in
  let region := np_repeat regions (List.length dates) in
  let (columns, g') := draw_columns metric_specs 96 g in
  if (List.length weeks =? 96)%nat then (Ok (mkTable weeks region columns), g')
  else (Raise (ValueError "All arrays must be of the same length"), g').

(** The value lies in the range the column is drawn from. *)
Definition in_range (kind : draw_kind) (x : float64) : Prop :=
  match kind with
  | RandInt low high => exists v, x = Some (inject_Z v) /\ low <= v < high
  | Uniform low high => exists q, x = Some q /\ (low <= q)%Q /\ (q < high)%Q
  end.

Fixpoint distinctb (names : list string) : bool :=
  match names with
  | [] => true
  | name :: rest => negb (existsb (String.eqb name) rest) && distinctb rest
  end.

(** The bounds of a draw are in order. *)
Definition proper_range (kind : draw_kind) : Prop :=
  match kind with
  | RandInt low high => low < high
  | Uniform low high => (low < high)%Q
  end.

(* ------------------------------------------------------------------ *)
(** ** Saved views, KPI targets and the department dashboards
       (lines 212-237, 255-286, 438-452) *)

(** Lines 215-220: what a saved view makes of the chosen section and
    region. *)
Definition apply_saved_view (saved_view section selected_region : string)
  : string * string :=
  if String.eqb saved_view "Sales - South" then ("Sales", "South")
  else if String.eqb saved_view "HR - West" then ("HR", "West")
  else (section, selected_region).

(** Lines 224-231. *)
Definition default_targets : list (string * Z) :=
  [ ("New Leads", 40); ("Deals Closed", 15); ("Revenue Closed", 7000);
    ("New Hires", 5); ("Website Traffic", 5000); ("Strategic Projects", 2) ].

(** Lines 223-231: [st.session_state.targets], set when it is not there. *)
Definition init_targets (stored : option (list (string * Z))) : list (string * Z) :=
  match stored with
  | Some targets => targets
  | None => default_targets
  end.

(** Lines 233-237. [number_input label value] is what the widget
    [st.sidebar.number_input(label, value=value, step=1)] returns. *)
Definition edit_targets (role : string) (number_input : string -> Z -> Z)
    (targets : list (string * Z)) : list (string * Z) :=
  if String.eqb role "Admin" then
    map (fun entry =>
           (fst entry, number_input ("Target - " ++ fst entry) (snd entry)))
        targets
  else targets.

(** [role in [...]] *)
Definition role_in (role : string) (roles : list string) : bool :=
  existsb (String.eqb role) roles.

(** The branch of lines 256-452 that runs. *)
Inductive view : Type :=
| SalesView
| HRView
| MarketingView
| ExecutiveView
| NoAccess.

Definition view_for (section role : string) : view :=
  if String.eqb section "Sales" && role_in role ["Admin"; "Sales"] then SalesView
  else if String.eqb section "HR" && role_in role ["Admin"; "HR"] then HRView
  else if String.eqb section "Marketing" && role_in role ["Admin"; "Marketing"]
  then MarketingView
  else if String.eqb section "Executive Office"
          && role_in role ["Admin"; "Executive Office"]
  then ExecutiveView
  else NoAccess.

(** The options of the two widgets of lines 157 and 160. *)
Definition role_options : list string :=
  ["Admin"; "Sales"; "HR"; "Marketing"; "Executive Office"].

Definition section_options : list string :=
  ["Sales"; "HR"; "Marketing"; "Executive Office"].

(** What a dashboard puts on the page: subheaders and metric cards. *)
Inductive page_item : Type :=
| Subheader (text : string)
| Shown (event : ui_event).

(** What was put on the page, and whether the code went through or raised. *)
Definition Rendered : Type := list page_item * result unit.

Definition and_then (a b : Rendered) : Rendered :=
  match a with
  | (items, Ok _) => ((items ++ fst b)%list, snd b)
  | (items, Raise e) => (items, Raise e)
  end.

(** [for i, (metric, label) in enumerate(items):
       display_metric_with_target(cols[i % n], metric, label)],
    from position [i] on. *)
Fixpoint metric_cards (data : Table) (targets : list (string * Z)) (n i : nat)
    (items : list (string * string)) : Rendered :=
  match items with
  | [] => ([], Ok tt)
  | (metric, label) :: rest =>
      match display_metric_with_target data targets (i mod n) metric label with
      | Ok card =>
          and_then ([Shown card], Ok tt) (metric_cards data targets n (S i) rest)
      | Raise e => ([], Raise e)
      end
  end.

Definition lead_sales : list (string * string) :=
  [ ("New Leads", "Number of New Leads/Prospects Added");
    ("Meetings Booked", "Client Meetings Booked");
    ("Discovery Calls", "Discovery Calls Conducted");
    ("Proposals Sent", "Proposals/Quotes Sent");
    ("Follow-ups", "Follow-ups Made");
    ("Referrals", "Referral or Partner Introductions");
    ("CRM Activity", "CRM Activity Logged");
    ("Content Engagement", "Marketing/Content Engagement") ].

Definition lag_sales : list (string * string) :=
  [ ("Deals Closed", "Deals Closed");
    ("Revenue Closed", "Revenue Closed");
    ("Sales Cycle Length", "Sales Cycle Length");
    ("Conversion Rate", "Conversion Rates");
    ("Client Acquisition Cost", "Client Acquisition Cost");
    ("Forecasted Revenue", "Forecasted Revenue") ].

Definition exec_metrics : list (string * string) :=
  [ ("Strategic Projects", "Strategic Projects Completed");
    ("Weekly Objectives Met", "Weekly Objectives Met");
    ("Cross-team Meetings", "Cross-team Meetings");
    ("Compliance Score", "Compliance Score") ].

(** Lines 257-286. *)
Definition sales_dashboard (section : string) (data : Table)
    (targets : list (string * Z)) : Rendered :=
  and_then ([Subheader ("🟦 " ++ section ++ " Metrics")], Ok tt)
    (and_then (metric_cards data targets 4 0 lead_sales)
       (and_then ([Subheader "🟩 Lag Indicators"], Ok tt)
          (metric_cards data targets 3 0 lag_sales))).

(** Lines 439-449. *)
Definition executive_dashboard (data : Table) (targets : list (string * Z))
  : Rendered :=
  and_then ([Subheader "🟦 Executive KPIs"], Ok tt)
    (metric_cards data targets 2 0 exec_metrics).

(** Line 452. *)
Definition no_access : Rendered :=
  ([Shown (Warning "🚫 You do not have access to this section.")], Ok tt).

(** The metric cards among the items of a page. *)
Definition cards_of (items : list page_item) : list ui_event :=
  flat_map (fun item => match item with
                        | Shown (MetricCard c l v d) => [MetricCard c l v d]
                        | _ => []
                        end) items.

(** The alerts line 248 can give. *)
Definition alerts : list string := [""; "📍 Spike"; "⚠️ Drop"].

(** The column of the page a card was put in. *)
Definition card_column (event : ui_event) : option nat :=
  match event with
  | MetricCard c _ _ _ => Some c
  | _ => None
  end.

(* ------------------------------------------------------------------ *)
(** ** Head counts and rates of the HR dashboard (lines 298-299, 310-319) *)

(** [hr_data[name]] *)
Definition hr_getitem (hr_data : DataFrame) (name : string)
  : result (list hr_cell) :=
  match lookup name hr_data with
  | Some column => Ok column
  | None => Raise (KeyError name)
  end.

(** [len(hr_data)]: the number of rows. *)
Definition hr_len (hr_data : DataFrame) : nat :=
  match hr_data with
  | [] => 0
  | column :: _ => List.length (snd column)
  end.

(** [cell == s] *)
Definition cell_is (s : string) (c : hr_cell) : bool :=
  match c with
  | Text t => String.eqb t s
  | _ => false
  end.

(** [cell in values], as [isin] tests it. *)
Definition cell_isin (values : list string) (c : hr_cell) : bool :=
  existsb (fun s => cell_is s c) values.

(** [len(hr_data[mask])] for a mask computed from one column. *)
Definition count_rows (test : hr_cell -> bool) (column : list hr_cell) : nat :=
  List.length (filter test column).

(** [a / b] on Python integers. *)
Definition int_div (a b : nat) : result Q :=
  if (b =? 0)%nat then Raise ZeroDivisionError
  else Ok (inject_Z (Z.of_nat a) / inject_Z (Z.of_nat b))%Q.

(** [a / b * 100 if b else 0] *)
Definition percent_of (a b : nat) : result Q :=
  if negb (b =? 0)%nat then (r <- int_div a b ;; Ok (r * 100)%Q)%result
  else Ok 0%Q.

Record head_counts : Type := mkHeadCounts {
  total_employees : nat;
  resigned_employees : nat;
  turnover_rate : Q;
  retention_rate : Q
}.

(** Lines 298, 299, 310 and 311: the two head counts and the two rates made
    of them. The averages of lines 301-308 do not enter these values. *)
Definition hr_head_counts (hr_data : DataFrame) : result head_counts :=
  (status <- hr_getitem hr_data "Status" ;;
   let total := count_rows (cell_isin ["Active"; "On Leave"]) status in
   status' <- hr_getitem hr_data "Status" ;;
   let resigned := count_rows (cell_is "Resigned") status' in
   turnover <- percent_of resigned (hr_len hr_data) ;;
   Ok (mkHeadCounts total resigned turnover (100 - turnover)%Q))%result.

(** Lines 314-319. *)
Definition acceptance_rate (hr_data : DataFrame) : result Q :=
  match lookup "Application Status" hr_data with
  | Some column =>
      let offers := count_rows (cell_is "Offered") column in
      let accepted := count_rows (cell_is "Accepted") column in
      percent_of accepted offers
  | None => Ok 70%Q
  end.

(* ------------------------------------------------------------------ *)
(** ** The pipeline over machine arithmetic *)

(** The sums and the conversion the pipeline asks of pandas are computed in
    int64 and float64: an int64 sum can wrap, a float64 sum is rounded after
    every addition (in an order that is pandas' own), and [astype(float)]
    rounds an integer that no float64 holds. Here the three are parameters,
    so that what is proved of the pipeline holds whatever they return; the
    definitions of the sections before are the instance in which all three
    are exact. *)

Section MachineArithmetic.

(** [sum()] of the values of one group of [groupby], in their row order
    (NaN is skipped by pandas). *)
Variable group_sum : list float64 -> float64.

(** [astype(float)] of a number. *)
Variable to_float64 : Q -> Q.

(** [forecast_data['y'].sum()], of the values of the column in row order. *)
Variable series_sum : list float64 -> float64.

Variable parse_float : string -> float64.

(** *** The series extractor (lines 140-144) *)

(** [data.groupby('Week')[metric].sum()] over the rows (week, metric value):
    one group for each distinct non-null week, ascending. *)
Definition groupby_sum_with (rows : list (option Timestamp * float64))
  : list (Timestamp * float64) :=
  map (fun k => (k, group_sum (bucket_values k rows))) (group_keys (map fst rows)).

(** [reset_index()] and the renaming of the two columns to [ds], [y]. *)
Definition frame_of_groups (groups : list (Timestamp * float64)) : Frame :=
  map (fun ig => mkPoint (Z.of_nat (fst ig)) (Some (fst (snd ig)))
                         (Flt (snd (snd ig))))
      (combine (seq 0 (List.length groups)) groups).

Definition get_forecast_data_with (data : Table) (forecast_metric : string)
  : result Frame :=
  (column <- groupby_getitem data forecast_metric ;;
   Ok (frame_of_groups (groupby_sum_with (combine (Week data) column))))%result.

(** *** The sanitising step (lines 635-636) *)

(** [pd.to_numeric(forecast_data['y'], errors='coerce').fillna(0).astype(float)] *)
Definition coerce_y_with (r : point) : point :=
  mkPoint (idx r) (ds r)
    (Flt (Some (to_float64 match to_numeric parse_float (y r) with
                           | Some q => q
                           | None => 0%Q
                           end))).

Definition sanitize_with (fd : Frame) : Frame :=
  map coerce_y_with (dropna fd).

(** *** The validation (lines 639, 661, 692) *)

(** [forecast_data.empty or 'y' not in forecast_data.columns or
    forecast_data['y'].sum() == 0]; the column [y] is always there, and a
    sum that is NaN is not equal to 0. *)
Definition no_usable_signal_with (fd : Frame) : bool :=
  empty fd
  || match series_sum (map y_float fd) with
     | Some total => Qeq_bool total 0
     | None => false
     end.

(** *** The forecasting section (lines 625-710) *)

Variable Model : Type.
Variable fit : Frame -> nat -> result Model.
Variable make_future_dataframe : Model -> Frame -> nat -> result Frame.
Variable predict : Model -> Frame -> result Forecast.
Variable format_exc : Exception -> string.

(** Lines 626-632 and 644-650. *)
Definition load_forecast_data_with (data : Table) (forecast_metric : string)
  : Script Model Frame :=
  if String.eqb forecast_metric "DEBUG" then np_random Model debug_frame
  else lift Model (get_forecast_data_with data forecast_metric).

(** [if <no usable signal>: st.warning(...); st.stop()] *)
Definition validate_with (forecast_data : Frame) (msg : string)
  : Script Model unit :=
  if no_usable_signal_with forecast_data then
    bind Model (emit Model (Warning msg)) (fun _ => st_stop Model)
  else ret Model tt.

Definition forecasting_section_with (data : Table)
    (forecast_metric chart_type_forecast : string) : Script Model unit :=
  bind Model (load_forecast_data_with data forecast_metric) (fun raw =>
  bind Model (validate_with (sanitize_with raw) (warning_639 forecast_metric))
    (fun _ =>
  bind Model (load_forecast_data_with data forecast_metric) (fun raw =>
  let forecast_data := sanitize_with raw in
  bind Model (emit Model (Written "🧪 Forecast Data Preview"
                            (WFrame (firstn 5 forecast_data)))) (fun _ =>
  bind Model (emit Model (Written "📏 Shape:"
                            (WShape (List.length forecast_data) 2))) (fun _ =>
  bind Model (validate_with forecast_data (warning_661 forecast_metric))
    (fun _ =>
  bind Model (first_forecast Model fit make_future_dataframe predict format_exc
                chart_type_forecast forecast_metric forecast_data) (fun _ =>
  bind Model (validate_with forecast_data (warning_692 forecast_metric))
    (fun _ =>
  second_forecast Model fit make_future_dataframe predict format_exc
    forecast_data)))))))).

End MachineArithmetic.

(** The exact sums, as the sections before have them. *)
Definition exact_sum (values : list float64) : float64 := Some (nansum values).

(* ------------------------------------------------------------------ *)
(** ** Frames of the same content, and later sessions *)





Section Later.

Variable Model : Type.
Variable fit : Frame -> nat -> result Model.


End Later.
(* ------------------------------------------------------------------ *)
(** ** An instance of the machine arithmetic: int64 and float64 *)

(** The float64 nearest to [n * 2^e] (ties to even). *)
Definition binary64 (n e : Z) : spec_float := binary_normalize 53 1024 n e false.

(** The float64 of a number: exact for a number that is a float64, the
    nearest float64 for an int64. *)
Definition float_of_number (q : Q) : spec_float :=
  SFdiv 53 1024 (binary64 (Qnum q) 0) (binary64 (Zpos (Qden q)) 0).

(** The number a float64 holds; NaN for NaN and the infinities. *)
Definition number_of_float (x : spec_float) : float64 :=
  match x with
  | S754_zero _ => Some 0%Q
  | S754_finite s m e =>
      let n := if s then Zneg m else Zpos m in
      Some match e with
           | Z0 => inject_Z n
           | Zpos k => inject_Z (n * 2 ^ Zpos k)
           | Zneg k => Qmake n (2 ^ k)
           end
  | S754_infinity _ => None
  | S754_nan => None
  end.

(** [astype(float)] of a number. *)
Definition astype_float (q : Q) : Q :=
  match number_of_float (float_of_number q) with
  | Some r => r
  | None => q
  end.

(** [sum()] of float64 values added from left to right, each addition
    rounded (the order in which numpy adds fewer than eight values); NaN
    counts as 0. *)
Definition float64_sum (values : list float64) : float64 :=
  number_of_float
    (fold_left (fun acc v =>
                  SFadd 53 1024 acc
                        match v with
                        | Some q => float_of_number q
                        | None => S754_zero false
                        end)
               values (S754_zero false)).

(** An int64 result: the integer modulo 2^64, from -2^63 to 2^63 - 1. *)
Definition int64_wrap (n : Z) : Z := (n + 2 ^ 63) mod 2 ^ 64 - 2 ^ 63.

(** [sum()] of the whole numbers of an int64 column: it wraps around. *)
Definition int64_sum (values : list float64) : float64 :=
  Some (inject_Z
          (int64_wrap
             (fold_left (fun acc v =>
                           acc + match v with
                                 | Some q => Qfloor q
                                 | None => 0
                                 end)
                        values 0))).
(* ------------------------------------------------------------------ *)
(** ** Sanitiser: lemmas *)

Lemma sortedb_spec (l : list Z) : sortedb l = true <-> StronglySorted Z.le l.
Proof.
  induction l as [|t rest IH]; simpl.
  - split; intros _; [constructor | reflexivity].
  - rewrite andb_true_iff, forallb_forall, IH. split.
    + intros [Hall Hs]. constructor; [exact Hs|].
      apply Forall_forall. intros b Hb. apply Z.leb_le. now apply Hall.
    + intros Hs. inversion Hs as [|? ? Hrest Hall]; subst. split; [|exact Hrest].
      intros b Hb. rewrite Forall_forall in Hall. apply Z.leb_le. now apply Hall.
Qed.

Lemma ascendingb_spec (fd : Frame) : ascendingb fd = true <-> ascending fd.
Proof. apply sortedb_spec. Qed.

Lemma dropna_sublist (fd : Frame) : sublist (dropna fd) fd.
Proof.
  unfold dropna. induction fd as [|r rest IH]; simpl.
  - constructor.
  - destruct (negb (isna_ds (ds r)) && negb (isna_cell (y r))); now constructor.
Qed.

Lemma dropna_clean (fd : Frame) :
  Forall (fun r => ds r <> None /\ isna_cell (y r) = false) (dropna fd).
Proof.
  apply Forall_forall. intros r Hr. unfold dropna in Hr.
  apply filter_In in Hr. destruct Hr as [_ Hr].
  apply andb_true_iff in Hr. destruct Hr as [Hd Hy].
  split.
  - destruct (ds r); [discriminate | discriminate Hd].
  - now apply negb_true_iff.
Qed.

Lemma dropna_id_on_clean (fd : Frame) :
  Forall (fun r => ds r <> None /\ isna_cell (y r) = false) fd -> dropna fd = fd.
Proof.
  unfold dropna. induction 1 as [|r rest [Hd Hy] _ IH]; simpl; [reflexivity|].
  rewrite Hy. destruct (ds r) as [t|]; [simpl | contradiction].
  now rewrite IH.
Qed.

Lemma coerce_y_value parse (r : point) : has_value (coerce_y parse r).
Proof.
  unfold has_value, coerce_y; simpl.
  destruct (to_numeric parse (y r)) as [q|]; simpl; eauto.
Qed.

Lemma coerce_y_idem parse (r : point) :
  coerce_y parse (coerce_y parse r) = coerce_y parse r.
Proof.
  unfold coerce_y; simpl.
  destruct (to_numeric parse (y r)); reflexivity.
Qed.

Lemma sanitize_clean parse (fd : Frame) :
  Forall (fun r => ds r <> None /\ isna_cell (y r) = false) (sanitize parse fd).
Proof.
  unfold sanitize. apply Forall_map.
  eapply Forall_impl; [|apply dropna_clean].
  intros r [Hd _]. split; [exact Hd|].
  simpl. destruct (to_numeric parse (y r)); reflexivity.
Qed.

Lemma StronglySorted_sublist {A : Type} (R : A -> A -> Prop) (l l' : list A) :
  sublist l l' -> StronglySorted R l' -> StronglySorted R l.
Proof.
  induction 1 as [|x l l' Hsub IH|x l l' Hsub IH]; intros Hs.
  - constructor.
  - inversion Hs; subst. auto.
  - inversion Hs as [|? ? Hrest Hall]; subst. constructor; [auto|].
    clear IH Hs Hrest. induction Hsub; inversion Hall; subst; auto.
Qed.

Lemma timestamps_dropna (fd : Frame) :
  sublist (timestamps (dropna fd)) (timestamps fd).
Proof.
  unfold dropna. induction fd as [|r rest IH]; simpl.
  - constructor.
  - destruct (ds r) as [t|] eqn:Hd; simpl.
    + destruct (isna_cell (y r)); simpl.
      * now constructor.
      * rewrite Hd. simpl. now constructor.
    + exact IH.
Qed.

Lemma timestamps_coerce parse (fd : Frame) :
  timestamps (map (coerce_y parse) fd) = timestamps fd.
Proof.
  induction fd as [|r rest IH]; simpl; [reflexivity|]. now rewrite IH.
Qed.

Lemma sanitize_keeps_order parse (fd : Frame) :
  ascending fd -> ascending (sanitize parse fd).
Proof.
  unfold ascending, sanitize. intros Hs. rewrite timestamps_coerce.
  eapply StronglySorted_sublist; [apply timestamps_dropna | exact Hs].
Qed.

(** C6. The sanitising step is idempotent: applying it to its own output
    changes nothing (rows, order, index labels and values). *)
Theorem sanitize_idempotent (parse : string -> float64) (S : Frame) :
  sanitize parse (sanitize parse S) = sanitize parse S.
Proof.
  unfold sanitize at 1.
  rewrite (dropna_id_on_clean _ (sanitize_clean parse S)).
  unfold sanitize. rewrite map_map.
  apply map_ext. intros r. apply coerce_y_idem.
Qed.

Lemma sanitize_origin parse (fd : Frame) (r' : point) :
  In r' (sanitize parse fd) ->
  exists r, In r fd /\ r' = coerce_y parse r /\ ds r <> None
            /\ isna_cell (y r) = false.
Proof.
  unfold sanitize. intros H. apply in_map_iff in H.
  destruct H as [r [Heq Hin]]. exists r.
  pose proof (dropna_clean fd) as Hc. rewrite Forall_forall in Hc.
  destruct (Hc r Hin) as [Hd Hy].
  unfold dropna in Hin. apply filter_In in Hin.
  repeat split; auto. tauto.
Qed.

Lemma sublist_map {A B : Type} (f : A -> B) (l l' : list A) :
  sublist l l' -> sublist (map f l) (map f l').
Proof.
  induction 1; simpl; now constructor.
Qed.

(* ------------------------------------------------------------------ *)
(** ** Series extractor: lemmas *)

Lemma insert_key_In (k x : Timestamp) (ks : list Timestamp) :
  In x (insert_key k ks) <-> x = k \/ In x ks.
Proof.
  induction ks as [|h t IH]; simpl.
  - intuition.
  - destruct (k <? h) eqn:Hlt; [simpl; intuition|].
    destruct (k =? h) eqn:Heq.
    + apply Z.eqb_eq in Heq. subst h. simpl. intuition.
    + simpl. rewrite IH. intuition.
Qed.

Lemma insert_key_sorted (k : Timestamp) (ks : list Timestamp) :
  StronglySorted Z.lt ks -> StronglySorted Z.lt (insert_key k ks).
Proof.
  induction 1 as [|h t Hs IH Hall]; simpl.
  - repeat constructor.
  - destruct (k <? h) eqn:Hlt.
    + apply Z.ltb_lt in Hlt. constructor; [now constructor|].
      constructor; [exact Hlt|].
      eapply Forall_impl; [|exact Hall]. intros a Ha. lia.
    + destruct (k =? h) eqn:Heq; [now constructor|].
      apply Z.ltb_ge in Hlt. apply Z.eqb_neq in Heq.
      constructor; [exact IH|].
      apply Forall_forall. intros a Ha. apply insert_key_In in Ha.
      destruct Ha as [->|Ha]; [lia|].
      rewrite Forall_forall in Hall. now apply Hall.
Qed.

Lemma fold_add_key_sorted (weeks : list (option Timestamp)) (acc : list Timestamp) :
  StronglySorted Z.lt acc -> StronglySorted Z.lt (fold_left add_key weeks acc).
Proof.
  revert acc. induction weeks as [|w rest IH]; intros acc Hs; simpl; [exact Hs|].
  apply IH. destruct w as [k|]; simpl; [now apply insert_key_sorted | exact Hs].
Qed.

Lemma fold_add_key_In (weeks : list (option Timestamp)) (acc : list Timestamp)
    (k : Timestamp) :
  In k (fold_left add_key weeks acc) <-> In k acc \/ In (Some k) weeks.
Proof.
  revert acc. induction weeks as [|w rest IH]; intros acc; simpl.
  - intuition.
  - rewrite IH. destruct w as [k'|]; simpl.
    + rewrite insert_key_In. split.
      * intros [[->|H]|H]; auto.
      * intros [H|[H|H]]; auto. injection H as ->. auto.
    + split; [intros [H|H]; auto | intros [H|[H|H]]; auto; discriminate].
Qed.

Lemma group_keys_sorted (weeks : list (option Timestamp)) :
  StronglySorted Z.lt (group_keys weeks).
Proof. apply fold_add_key_sorted. constructor. Qed.

Lemma group_keys_In (weeks : list (option Timestamp)) (k : Timestamp) :
  In k (group_keys weeks) <-> In (Some k) weeks.
Proof.
  unfold group_keys. rewrite fold_add_key_In. simpl. intuition.
Qed.

Lemma StronglySorted_lt_NoDup (l : list Z) : StronglySorted Z.lt l -> NoDup l.
Proof.
  induction 1 as [|a l Hs IH Hall]; constructor; [|exact IH].
  intros Hin. rewrite Forall_forall in Hall. specialize (Hall a Hin). lia.
Qed.

Lemma NoDup_map_Some {A : Type} (l : list A) : NoDup l -> NoDup (map Some l).
Proof.
  induction 1 as [|a l Hnin Hnd IH]; simpl; constructor; [|exact IH].
  intros Hin. apply in_map_iff in Hin. destruct Hin as [b [Hb Hin]].
  injection Hb as ->. contradiction.
Qed.

Lemma numbered_ds (n : nat) (groups : list (Timestamp * Q)) :
  map ds (numbered n groups) = map (fun g => Some (fst g)) groups.
Proof.
  unfold numbered. revert n.
  induction groups as [|g rest IH]; intros n; simpl; [reflexivity|].
  f_equal. apply IH.
Qed.

Lemma numbered_idx (n : nat) (groups : list (Timestamp * Q)) :
  map idx (numbered n groups) = map Z.of_nat (seq n (List.length groups)).
Proof.
  unfold numbered. revert n.
  induction groups as [|g rest IH]; intros n; simpl; [reflexivity|].
  f_equal. apply IH.
Qed.


Lemma timestamps_of_ds (fd : Frame) (ks : list Timestamp) :
  map ds fd = map Some ks -> timestamps fd = ks.
Proof.
  revert ks. induction fd as [|r rest IH]; intros [|k ks] H; simpl in *;
    try discriminate; [reflexivity|].
  injection H as Hr Hrest. rewrite Hr. simpl. f_equal. now apply IH.
Qed.

Lemma numbered_length (n : nat) (groups : list (Timestamp * Q)) :
  List.length (numbered n groups) = List.length groups.
Proof.
  unfold numbered. rewrite length_map, length_combine, length_seq.
  apply Nat.min_id.
Qed.

Example get_forecast_data_example :
  get_forecast_data
    (mkTable [Some 14; Some 7; Some 14; Some 7] ["North"; "North"; "South"; "South"]
             [("New Leads", [Some 20%Q; Some 30%Q; Some 5%Q; Some 1%Q])])
    "New Leads"
  = Ok [mkPoint 0 (Some 7) (Flt (Some (0 + 30 + 1)%Q));
        mkPoint 1 (Some 14) (Flt (Some (0 + 20 + 5)%Q))].
Proof. reflexivity. Qed.

(* ------------------------------------------------------------------ *)
(** ** The DEBUG series and the validation: lemmas *)

Lemma randint_length (low high : Z) (size : nat) (g : Rng) :
  List.length (fst (randint low high size g)) = size.
Proof. simpl. now rewrite length_map, length_seq. Qed.

Lemma randint_range (low high : Z) (size : nat) (g : Rng) :
  low < high ->
  Forall (fun v => low <= v < high) (fst (randint low high size g)).
Proof.
  intros Hlh. simpl. apply Forall_map, Forall_forall. intros i _.
  pose proof (Z.mod_pos_bound (g i) (high - low)). lia.
Qed.

Lemma date_range_W_length (start : Timestamp) (periods : nat) :
  List.length (date_range_W start periods) = periods.
Proof. unfold date_range_W. now rewrite length_map, length_seq. Qed.

(** The rows of [frame_of_columns], the index counting from [n]. *)
Lemma frame_rows_from (n : nat) (dates : list Timestamp) (ys : list Z)
    (P : Z -> Prop) :
  Forall P ys ->
  Forall (fun r : point =>
            ds r <> None /\ exists v, y r = Flt (Some (inject_Z v)) /\ P v)
    (map (fun r => mkPoint (Z.of_nat (fst r)) (Some (fst (snd r)))
                           (Flt (Some (inject_Z (snd (snd r))))))
         (combine (seq n (List.length dates)) (combine dates ys))).
Proof.
  intros Hys. revert n ys Hys.
  induction dates as [|d dates IH]; intros n ys Hys; simpl; [constructor|].
  destruct ys as [|v ys]; simpl; [constructor|].
  inversion Hys; subst. constructor.
  - simpl. split; [discriminate|]. eauto.
  - apply IH. assumption.
Qed.

Lemma frame_of_columns_length (dates : list Timestamp) (ys : list Z) :
  List.length dates = List.length ys ->
  List.length (frame_of_columns dates ys) = List.length dates.
Proof.
  intros H. unfold frame_of_columns.
  rewrite length_map, !length_combine, length_seq. lia.
Qed.

Lemma nansum_positive_from (l : list float64) (acc : Q) :
  Forall (fun x => exists q, x = Some q /\ (0 < q)%Q) l ->
  (0 < acc)%Q -> (0 < fold_left nanadd l acc)%Q.
Proof.
  intros Hl. revert acc. induction Hl as [|x l [q [-> Hq]] _ IH]; intros acc Hacc.
  - exact Hacc.
  - simpl. apply IH. lra.
Qed.

Lemma nansum_positive (l : list float64) :
  l <> [] ->
  Forall (fun x => exists q, x = Some q /\ (0 < q)%Q) l ->
  (0 < nansum l)%Q.
Proof.
  intros Hne Hl. destruct l as [|x l]; [contradiction|].
  inversion Hl as [|? ? [q [-> Hq]] Hrest]; subst.
  unfold nansum. simpl. apply nansum_positive_from; [exact Hrest | lra].
Qed.

Lemma y_sum_positive (fd : Frame) :
  fd <> [] ->
  Forall (fun r => exists v, y r = Flt (Some (inject_Z v)) /\ 0 < v) fd ->
  (0 < y_sum fd)%Q.
Proof.
  intros Hne Hall. unfold y_sum. apply nansum_positive.
  - destruct fd; [contradiction | discriminate].
  - apply Forall_map. eapply Forall_impl; [|exact Hall].
    intros p [v [Hy Hv]]. unfold y_float. rewrite Hy.
    exists (inject_Z v). split; [reflexivity|].
    change 0%Q with (inject_Z 0). rewrite <- Zlt_Qlt. exact Hv.
Qed.

Lemma positive_is_usable (fd : Frame) :
  fd <> [] ->
  Forall (fun r => exists v, y r = Flt (Some (inject_Z v)) /\ 0 < v) fd ->
  no_usable_signal fd = false.
Proof.
  intros Hne Hall. unfold no_usable_signal.
  pose proof (y_sum_positive fd Hne Hall) as Hpos.
  destruct fd as [|r rest]; [contradiction|]. simpl empty. simpl orb.
  destruct (Qeq_bool (y_sum (r :: rest)) 0) eqn:E; [|reflexivity].
  apply Qeq_bool_eq in E. lra.
Qed.

Lemma sanitize_id_on_clean parse (fd : Frame) :
  Forall (fun r => ds r <> None /\ exists q, y r = Flt (Some q)) fd ->
  sanitize parse fd = fd.
Proof.
  intros H. unfold sanitize. rewrite dropna_id_on_clean.
  - induction H as [|r rest [_ [q Hq]] _ IH]; simpl; [reflexivity|].
    rewrite IH. f_equal. unfold coerce_y. rewrite Hq. simpl.
    destruct r; simpl in *. now subst.
  - eapply Forall_impl; [|exact H]. intros r [Hd [q Hq]].
    split; [exact Hd|]. now rewrite Hq.
Qed.

Lemma debug_frame_rows (g : Rng) :
  List.length (fst (debug_frame g)) = 24%nat
  /\ Forall (fun r => ds r <> None
                      /\ exists v, y r = Flt (Some (inject_Z v)) /\ 1000 <= v < 5000)
            (fst (debug_frame g)).
Proof.
  unfold debug_frame.
  destruct (randint 1000 5000 24 g) as [ys g'] eqn:E. simpl.
  assert (Hys : ys = fst (randint 1000 5000 24 g)) by now rewrite E.
  split.
  - rewrite frame_of_columns_length; rewrite date_range_W_length; [reflexivity|].
    now rewrite Hys, randint_length.
  - unfold frame_of_columns. apply frame_rows_from.
    rewrite Hys. apply randint_range. lia.
Qed.

Lemma debug_frame_clean parse (g : Rng) :
  sanitize parse (fst (debug_frame g)) = fst (debug_frame g).
Proof.
  apply sanitize_id_on_clean.
  eapply Forall_impl; [|apply (debug_frame_rows g)].
  intros r [Hd [v [Hy _]]]. split; [exact Hd|]. eauto.
Qed.

Lemma debug_frame_usable (g : Rng) :
  no_usable_signal (fst (debug_frame g)) = false.
Proof.
  destruct (debug_frame_rows g) as [Hlen Hrows].
  apply positive_is_usable.
  - intros E. rewrite E in Hlen. discriminate.
  - eapply Forall_impl; [|exact Hrows].
    intros r [_ [v [Hy Hv]]]. exists v. split; [exact Hy | lia].
Qed.

(* ------------------------------------------------------------------ *)
(** ** Equality of frames by content: lemmas *)










Lemma frame_eqb_length (a b : Frame) :
  frame_eqb a b = true -> List.length a = List.length b.
Proof.
  revert b. induction a as [|p a IH]; intros [|q b]; simpl; try discriminate; auto.
  intros H. apply andb_true_iff in H. f_equal. now apply IH.
Qed.


(* ------------------------------------------------------------------ *)
(** ** The forecasting section: lemmas *)

Section ForecastingFacts.

Variable Model : Type.
Variable fit : Frame -> nat -> result Model.
Variable make_future_dataframe : Model -> Frame -> nat -> result Frame.
Variable predict : Model -> Frame -> result Forecast.
Variable format_exc : Exception -> string.
Variable parse_float : string -> float64.

Let train := train_forecast_model Model fit.
Let first := first_forecast Model fit make_future_dataframe predict format_exc.
Let second := second_forecast Model fit make_future_dataframe predict format_exc.
Let section_ :=
  forecasting_section Model fit make_future_dataframe predict format_exc parse_float.

Lemma bind_Done {A B : Type} (m : Script Model A) (k : A -> Script Model B)
    (s s1 : Session Model) (a : A) :
  m s = (Done a, s1) -> bind Model m k s = k a s1.
Proof. intros H. unfold bind. now rewrite H. Qed.

Lemma bind_Stopped {A B : Type} (m : Script Model A) (k : A -> Script Model B)
    (s s1 : Session Model) :
  m s = (Stopped, s1) -> bind Model m k s = (Stopped, s1).
Proof. intros H. unfold bind. now rewrite H. Qed.

Lemma bind_Raised {A B : Type} (m : Script Model A) (k : A -> Script Model B)
    (s s1 : Session Model) (e : Exception) :
  m s = (Raised e, s1) -> bind Model m k s = (Raised e, s1).
Proof. intros H. unfold bind. now rewrite H. Qed.


(** The three ways a call of the cached entry point can go. *)
Lemma train_cases (site : def_site) (fd : Frame) (s : Session Model) :
  (exists m, cache_lookup Model site fd (cache s) = Some m
             /\ train site fd s = (Done m, s))
  \/ (exists m, cache_lookup Model site fd (cache s) = None
                /\ fit fd (List.length (fits s)) = Ok m
                /\ train site fd s
                   = (Done m, mkSession Model (ui s) ((site, fd, m) :: cache s)
                                        (fits s ++ [fd]) (rng s)))
  \/ (exists e, cache_lookup Model site fd (cache s) = None
                /\ fit fd (List.length (fits s)) = Raise e
                /\ train site fd s
                   = (Raised e, mkSession Model (ui s) (cache s)
                                          (fits s ++ [fd]) (rng s))).
Proof.
  unfold train, train_forecast_model.
  destruct (cache_lookup Model site fd (cache s)) as [m|] eqn:Hc.
  - left. eauto.
  - destruct (fit fd (List.length (fits s))) as [m|e] eqn:Hf.
    + right. left. eauto.
    + right. right. eauto.
Qed.


Lemma validate_pass (fd : Frame) (msg : string) (s : Session Model) :
  no_usable_signal fd = false -> validate Model fd msg s = (Done tt, s).
Proof. intros H. unfold validate. now rewrite H. Qed.

Lemma validate_halt (fd : Frame) (msg : string) (s : Session Model) :
  no_usable_signal fd = true ->
  validate Model fd msg s
  = (Stopped, mkSession Model (ui s ++ [Warning msg]) (cache s) (fits s) (rng s)).
Proof. intros H. unfold validate. now rewrite H. Qed.

(** Loading the frame touches neither the page nor the stores; outside DEBUG
    it can only raise what the extractor raises. *)
Lemma load_cases (data : Table) (metric : string) (s : Session Model) :
  (exists raw s1, load_forecast_data Model data metric s = (Done raw, s1)
     /\ ui s1 = ui s /\ cache s1 = cache s /\ fits s1 = fits s
     /\ (metric = "DEBUG" -> raw = fst (debug_frame (rng s))))
  \/ (exists e, load_forecast_data Model data metric s = (Raised e, s)
        /\ metric <> "DEBUG" /\ get_forecast_data data metric = Raise e).
Proof.
  unfold load_forecast_data.
  destruct (String.eqb metric "DEBUG") eqn:E.
  - left. unfold np_random.
    destruct (debug_frame (rng s)) as [fd g] eqn:Hd.
    exists fd, (mkSession Model (ui s) (cache s) (fits s) g). simpl. auto.
  - apply String.eqb_neq in E. unfold lift.
    destruct (get_forecast_data data metric) as [fd|e] eqn:Hg.
    + left. exists fd, s. repeat split; auto. intros; contradiction.
    + right. exists e. auto.
Qed.

Lemma emit_run (ev : ui_event) (s : Session Model) :
  emit Model ev s
  = (Done tt, mkSession Model (ui s ++ [ev]) (cache s) (fits s) (rng s)).
Proof. reflexivity. Qed.

(** What is left of a [try] body once the model is there. *)
Lemma after_training_cases {A : Type} (m : Model) (fd : Frame)
    (k : Forecast -> Script Model A) (s : Session Model) :
  (exists future forecast,
      make_future_dataframe m fd 8 = Ok future
      /\ predict m future = Ok forecast
      /\ bind Model (lift Model (make_future_dataframe m fd 8))
           (fun future => bind Model (lift Model (predict m future)) k) s
         = k forecast s)
  \/ (exists e,
        (make_future_dataframe m fd 8 = Raise e
         \/ exists future, make_future_dataframe m fd 8 = Ok future
                           /\ predict m future = Raise e)
        /\ bind Model (lift Model (make_future_dataframe m fd 8))
             (fun future => bind Model (lift Model (predict m future)) k) s
           = (Raised e, s)).
Proof.
  unfold bind, lift.
  destruct (make_future_dataframe m fd 8) as [future|e] eqn:Hm.
  - destruct (predict m future) as [forecast|e] eqn:Hp.
    + left. exists future, forecast. auto.
    + right. exists e. split; [right; eauto | reflexivity].
  - right. exists e. split; [left | ]; reflexivity.
Qed.

Lemma handler_run (e : Exception) (s : Session Model) :
  forecasting_failed Model format_exc e s
  = (Done tt,
     mkSession Model
       (ui s ++ [ErrorBox ("⚠️ Forecasting failed: " ++ exc_msg e);
                 CodeBlock (format_exc e)])
       (cache s) (fits s) (rng s)).
Proof.
  unfold forecasting_failed, bind, emit. simpl. now rewrite <- app_assoc.
Qed.

Lemma first_tail_cases (chart metric : string) (fd : Frame) (m : Model)
    (s : Session Model) :
  exists (out : outcome unit) (s' : Session Model),
    bind Model (lift Model (make_future_dataframe m fd 8))
      (fun future =>
         bind Model (lift Model (predict m future))
           (fun forecast =>
              bind Model (emit Model (Markdown "## 🔮 Forecasting Output"))
                (fun _ => emit Model
                   (PlotlyChart (forecast_figure chart metric forecast fd))))) s
    = (out, s')
    /\ out <> Stopped /\ rng s' = rng s /\ fits s' = fits s.
Proof.
  match goal with
  | |- context [bind Model (lift Model (predict m _)) ?k] =>
      destruct (after_training_cases m fd k s)
        as [[future [forecast [_ [_ Hk]]]]|[e [_ Hk]]]
  end; rewrite Hk; do 2 eexists; (split; [reflexivity|]); simpl;
    (split; [discriminate | auto]).
Qed.

Lemma second_tail_cases (fd : Frame) (m : Model) (s : Session Model) :
  exists (out : outcome unit) (s' : Session Model),
    bind Model (lift Model (make_future_dataframe m fd 8))
      (fun future =>
         bind Model (lift Model (predict m future))
           (fun forecast => ret Model tt)) s
    = (out, s')
    /\ out <> Stopped /\ rng s' = rng s /\ fits s' = fits s.
Proof.
  destruct (after_training_cases m fd (fun _ => ret Model tt) s)
    as [[future [forecast [_ [_ Hk]]]]|[e [_ Hk]]];
    rewrite Hk; do 2 eexists; (split; [reflexivity|]); simpl;
    (split; [discriminate | auto]).
Qed.

(** A [try] body never stops the script, and it leaves the generator alone;
    it calls [fit] at most once, on the frame it was given. *)
Lemma first_body_cases (chart metric : string) (fd : Frame) (s : Session Model) :
  exists (out : outcome unit) (s' : Session Model),
    first_forecast_body Model fit make_future_dataframe predict chart metric fd s
    = (out, s')
    /\ out <> Stopped
    /\ rng s' = rng s
    /\ (fits s' = fits s \/ fits s' = (fits s ++ [fd])%list).
Proof.
  unfold first_forecast_body.
  destruct (train_cases line_665 fd s)
    as [[m [_ Ht]]|[[m [_ [_ Ht]]]|[e [_ [_ Ht]]]]].
  - rewrite (bind_Done _ _ _ _ _ Ht).
    destruct (first_tail_cases chart metric fd m s) as [out [s' [H [Ho [Hr Hf]]]]].
    exists out, s'. auto.
  - rewrite (bind_Done _ _ _ _ _ Ht).
    destruct (first_tail_cases chart metric fd m
                (mkSession Model (ui s) ((line_665, fd, m) :: cache s)
                           (fits s ++ [fd]) (rng s)))
      as [out [s' [H [Ho [Hr Hf]]]]].
    exists out, s'. simpl in Hr, Hf. auto.
  - rewrite (bind_Raised _ _ _ _ _ Ht). do 2 eexists.
    split; [reflexivity|]. simpl. split; [discriminate | auto].
Qed.

Lemma second_body_cases (fd : Frame) (s : Session Model) :
  exists (out : outcome unit) (s' : Session Model),
    second_forecast_body Model fit make_future_dataframe predict fd s = (out, s')
    /\ out <> Stopped
    /\ rng s' = rng s
    /\ (fits s' = fits s \/ fits s' = (fits s ++ [fd])%list).
Proof.
  unfold second_forecast_body.
  destruct (train_cases line_697 fd s)
    as [[m [_ Ht]]|[[m [_ [_ Ht]]]|[e [_ [_ Ht]]]]].
  - rewrite (bind_Done _ _ _ _ _ Ht).
    destruct (second_tail_cases fd m s) as [out [s' [H [Ho [Hr Hf]]]]].
    exists out, s'. auto.
  - rewrite (bind_Done _ _ _ _ _ Ht).
    destruct (second_tail_cases fd m
                (mkSession Model (ui s) ((line_697, fd, m) :: cache s)
                           (fits s ++ [fd]) (rng s)))
      as [out [s' [H [Ho [Hr Hf]]]]].
    exists out, s'. simpl in Hr, Hf. auto.
  - rewrite (bind_Raised _ _ _ _ _ Ht). do 2 eexists.
    split; [reflexivity|]. simpl. split; [discriminate | auto].
Qed.

(** What a [try] statement makes of its body. *)
Lemma try_except_cases (body : Script Model unit) (s : Session Model)
    (out : outcome unit) (s1 : Session Model) :
  body s = (out, s1) ->
  out <> Stopped ->
  exists s' : Session Model,
    try_except Model body (forecasting_failed Model format_exc) s = (Done tt, s')
    /\ rng s' = rng s1 /\ fits s' = fits s1 /\ cache s' = cache s1
    /\ (forall e, out = Raised e ->
          ui s' = (ui s1 ++ [ErrorBox ("⚠️ Forecasting failed: " ++ exc_msg e);
                             CodeBlock (format_exc e)])%list)
    /\ (out = Done tt -> s' = s1).
Proof.
  intros Hb Hns. unfold try_except. rewrite Hb.
  destruct out as [[]| |e]; [| contradiction |].
  - exists s1. repeat split; auto. intros e He. discriminate.
  - rewrite handler_run. eexists. split; [reflexivity|]. simpl.
    repeat split; auto.
    + intros e' He'. now inversion He'.
    + intros He'. discriminate.
Qed.

Lemma first_forecast_done (chart metric : string) (fd : Frame) (s : Session Model) :
  exists s' : Session Model,
    first chart metric fd s = (Done tt, s')
    /\ rng s' = rng s
    /\ (fits s' = fits s \/ fits s' = (fits s ++ [fd])%list).
Proof.
  destruct (first_body_cases chart metric fd s) as [out [s1 [Hb [Ho [Hr Hf]]]]].
  destruct (try_except_cases _ _ _ _ Hb Ho) as [s' [Ht [Hr' [Hf' _]]]].
  exists s'. split; [exact Ht|]. rewrite Hr', Hf'. auto.
Qed.

Lemma second_forecast_done (fd : Frame) (s : Session Model) :
  exists s' : Session Model,
    second fd s = (Done tt, s')
    /\ rng s' = rng s
    /\ (fits s' = fits s \/ fits s' = (fits s ++ [fd])%list).
Proof.
  destruct (second_body_cases fd s) as [out [s1 [Hb [Ho [Hr Hf]]]]].
  destruct (try_except_cases _ _ _ _ Hb Ho) as [s' [Ht [Hr' [Hf' _]]]].
  exists s'. split; [exact Ht|]. rewrite Hr', Hf'. auto.
Qed.

(** The ways a run of the forecasting section can end: the extractor raised
    (outside DEBUG only), a frame without usable signal stopped the script
    before any training, or the section ran to its end, training on nothing
    but the validated frame. *)
Lemma forecasting_section_cases (data : Table) (metric chart : string)
    (s : Session Model) (out : outcome unit) (s' : Session Model) :
  section_ data metric chart s = (out, s') ->
  (exists e, out = Raised e /\ metric <> "DEBUG"
             /\ get_forecast_data data metric = Raise e /\ fits s' = fits s)
  \/ (out = Stopped /\ fits s' = fits s
      /\ exists raw s0 s1,
           load_forecast_data Model data metric s0 = (Done raw, s1)
           /\ (metric = "DEBUG" -> raw = fst (debug_frame (rng s0)))
           /\ no_usable_signal (sanitize parse_float raw) = true)
  \/ (out = Done tt
      /\ exists fd (trained : list Frame),
           no_usable_signal fd = false
           /\ fits s' = (fits s ++ trained)%list
           /\ Forall (eq fd) trained).
Proof.
  unfold section_, forecasting_section. intros H.
  destruct (load_cases data metric s)
    as [[raw [s1 [Hl [_ [_ [Hf1 Hdbg1]]]]]]|[e [Hl [Hm Hg]]]].
  2: { rewrite (bind_Raised _ _ _ _ _ Hl) in H. inversion H; subst.
       left. exists e. auto. }
  rewrite (bind_Done _ _ _ _ _ Hl) in H.
  destruct (no_usable_signal (sanitize parse_float raw)) eqn:Hv.
  { rewrite (bind_Stopped _ _ _ _ (validate_halt _ _ _ Hv)) in H.
    inversion H; subst. right; left. simpl.
    split; [reflexivity|]. split; [exact Hf1|]. exists raw, s, s1. auto. }
  rewrite (bind_Done _ _ _ _ _ (validate_pass _ _ _ Hv)) in H.
  destruct (load_cases data metric s1)
    as [[raw2 [s2 [Hl2 [_ [_ [Hf2 Hdbg2]]]]]]|[e [Hl2 [Hm Hg]]]].
  2: { rewrite (bind_Raised _ _ _ _ _ Hl2) in H. inversion H; subst.
       left. exists e. auto. }
  rewrite (bind_Done _ _ _ _ _ Hl2) in H. cbv zeta in H.
  rewrite (bind_Done _ _ _ _ _ (emit_run _ _)) in H.
  rewrite (bind_Done _ _ _ _ _ (emit_run _ _)) in H.
  destruct (no_usable_signal (sanitize parse_float raw2)) eqn:Hv2.
  { rewrite (bind_Stopped _ _ _ _ (validate_halt _ _ _ Hv2)) in H.
    inversion H; subst. right; left. simpl.
    split; [reflexivity|]. split; [congruence|]. exists raw2, s1, s2. auto. }
  rewrite (bind_Done _ _ _ _ _ (validate_pass _ _ _ Hv2)) in H.
  match type of H with
  | context [first_forecast _ _ _ _ _ chart metric ?fd] =>
      destruct (first_forecast_done chart metric fd
                  (mkSession Model
                     ((ui s2 ++ [Written "🧪 Forecast Data Preview"
                                   (WFrame (firstn 5 fd))])
                      ++ [Written "📏 Shape:" (WShape (List.length fd) 2)])
                     (cache s2) (fits s2) (rng s2)))
        as [s3 [H3 [_ Hf3]]]
  end.
  simpl in Hf3. unfold first in H3.
  rewrite (bind_Done _ _ _ _ _ H3) in H.
  rewrite (bind_Done _ _ _ _ _ (validate_pass _ _ _ Hv2)) in H.
  destruct (second_forecast_done (sanitize parse_float raw2) s3) as [s4 [H4 [_ Hf4]]].
  unfold second in H4. rewrite H4 in H. inversion H; subst.
  right; right. split; [reflexivity|].
  exists (sanitize parse_float raw2).
  destruct Hf3 as [Hf3|Hf3], Hf4 as [Hf4|Hf4]; rewrite Hf4, Hf3, Hf2, Hf1.
  - exists []. rewrite app_nil_r. auto.
  - exists [sanitize parse_float raw2]. auto.
  - exists [sanitize parse_float raw2]. auto.
  - exists [sanitize parse_float raw2; sanitize parse_float raw2].
    rewrite <- app_assoc. auto.
Qed.

End ForecastingFacts.
(* ------------------------------------------------------------------ *)
(** ** The forecasting section (C3, C5, C10) *)

Lemma warning_639_names_metric :
  exists pre post : string, forall m, warning_639 m = pre ++ m ++ post.
Proof.
  exists "⚠️ No valid data available for forecasting '",
         "'. Try selecting a different metric or adjust filters.".
  reflexivity.
Qed.

(** C5. Whatever [fit], [make_future_dataframe] or [predict] raise inside a
    [try] body of the forecasting section, the [try] statement ends
    normally: the handler has put the error box with the exception's text
    and the traceback on the page. So both [try] statements always end
    normally, and the only exception that can leave the forecasting section
    is the extractor's, raised before any training. *)
Theorem forecasting_failures_are_caught (Model : Type)
    (fit : Frame -> nat -> result Model)
    (make_future_dataframe : Model -> Frame -> nat -> result Frame)
    (predict : Model -> Frame -> result Forecast)
    (format_exc : Exception -> string) (parse_float : string -> float64)
    (chart_type_forecast forecast_metric : string) (forecast_data : Frame)
    (s : Session Model) :
  let body1 :=
    first_forecast_body Model fit make_future_dataframe predict
      chart_type_forecast forecast_metric forecast_data in
  let body2 :=
    second_forecast_body Model fit make_future_dataframe predict forecast_data in
  let try1 :=
    first_forecast Model fit make_future_dataframe predict format_exc
      chart_type_forecast forecast_metric forecast_data in
  let try2 :=
    second_forecast Model fit make_future_dataframe predict format_exc
      forecast_data in
  let caught (e : Exception) (s1 : Session Model) :=
    (Done tt,
     mkSession Model
       (ui s1 ++ [ErrorBox ("⚠️ Forecasting failed: " ++ exc_msg e);
                  CodeBlock (format_exc e)])
       (cache s1) (fits s1) (rng s1)) in
  (* a failure of the training *)
  (forall e,
      cache_lookup Model line_665 forecast_data (cache s) = None ->
      fit forecast_data (List.length (fits s)) = Raise e ->
      try1 s = caught e (mkSession Model (ui s) (cache s)
                                   (fits s ++ [forecast_data]) (rng s)))
  (* a failure of the prediction *)
  /\ (forall m s1 e,
        train_forecast_model Model fit line_665 forecast_data s = (Done m, s1) ->
        (make_future_dataframe m forecast_data 8%nat = Raise e
         \/ exists future, make_future_dataframe m forecast_data 8%nat = Ok future
                           /\ predict m future = Raise e) ->
        try1 s = caught e s1)
  (* any failure of a body *)
  /\ (forall e s1, body1 s = (Raised e, s1) -> try1 s = caught e s1)
  /\ (forall e s1, body2 s = (Raised e, s1) -> try2 s = caught e s1)
  (* nothing goes past the handlers *)
  /\ (exists s', try1 s = (Done tt, s'))
  /\ (exists s', try2 s = (Done tt, s'))
  /\ (forall data out s' e,
        forecasting_section Model fit make_future_dataframe predict format_exc
          parse_float data forecast_metric chart_type_forecast s = (out, s') ->
        out = Raised e ->
        get_forecast_data data forecast_metric = Raise e /\ fits s' = fits s).
Proof.
  intros body1 body2 try1 try2 caught.
  assert (Hcatch : forall (body : Script Model unit) e s1,
             body s = (Raised e, s1) ->
             try_except Model body (forecasting_failed Model format_exc) s
             = caught e s1).
  { intros body e s1 Hb. unfold try_except. rewrite Hb. apply handler_run. }
  repeat split.
  - intros e Hc Hf. apply Hcatch. unfold first_forecast_body.
    apply bind_Raised. unfold train_forecast_model. now rewrite Hc, Hf.
  - intros m s1 e Ht Hr. apply Hcatch. unfold first_forecast_body.
    rewrite (bind_Done Model _ _ _ _ _ Ht). unfold bind, lift.
    destruct Hr as [Hr|[future [Hm Hp]]].
    + now rewrite Hr.
    + rewrite Hm. now rewrite Hp.
  - intros e s1. apply Hcatch.
  - intros e s1. apply Hcatch.
  - destruct (first_forecast_done Model fit make_future_dataframe predict
                format_exc chart_type_forecast forecast_metric forecast_data s)
      as [s' [H _]]. now exists s'.
  - destruct (second_forecast_done Model fit make_future_dataframe predict
                format_exc forecast_data s) as [s' [H _]]. now exists s'.
  - destruct (forecasting_section_cases Model fit make_future_dataframe predict
                format_exc parse_float data forecast_metric chart_type_forecast
                s out s' H)
      as [[e' [Ho [_ [Hg _]]]]|[[Ho _]|[Ho _]]]; subst; try discriminate.
    now inversion Ho.
  - destruct (forecasting_section_cases Model fit make_future_dataframe predict
                format_exc parse_float data forecast_metric chart_type_forecast
                s out s' H)
      as [[e' [Ho [_ [_ Hf]]]]|[[Ho _]|[Ho _]]]; subst; try discriminate.
    exact Hf.
Qed.

(** A frame the trainer refuses: the first [try] statement ends normally
    with the error box and the traceback on the page. *)
Lemma forecasting_failures_are_caught_witness :
  let fd := [mkPoint 0 (Some 7) (Flt (Some 3%Q)); mkPoint 1 (Some 7) (Flt (Some 4%Q))] in
  first_forecast nat example_fit (fun _ f _ => Ok f) (fun _ _ => Ok [])
    exc_type "Line Chart" "New Leads" fd (mkSession nat [] [] [] (fun _ => 0))
  = (Done tt,
     mkSession nat
       [ErrorBox "⚠️ Forecasting failed: Column ds has duplicate values.";
        CodeBlock "ValueError"]
       [] [fd] (fun _ => 0)).
Proof.
  intros fd.
  apply (proj1 (forecasting_failures_are_caught nat example_fit
                  (fun _ f _ => Ok f) (fun _ _ => Ok []) exc_type (fun _ => NaN)
                  "Line Chart" "New Leads" fd
                  (mkSession nat [] [] [] (fun _ => 0)))
               (ValueError "Column ds has duplicate values."));
    reflexivity.
Defined.

(** C10. The DEBUG series has 24 points, each value an integer from 1000
    to 4999; the sanitising step leaves it as it is, it is not empty and
    its sum is positive, so it passes the validation, and with the DEBUG
    metric the forecasting section never stops at a validation: it runs to
    its end. *)
Theorem debug_series_is_valid (Model : Type)
    (fit : Frame -> nat -> result Model)
    (make_future_dataframe : Model -> Frame -> nat -> result Frame)
    (predict : Model -> Frame -> result Forecast)
    (format_exc : Exception -> string) (parse_float : string -> float64)
    (g : Rng) (data : Table) (chart_type_forecast : string) (s : Session Model) :
  List.length (fst (debug_frame g)) = 24%nat
  /\ Forall (fun r => exists v, y r = Flt (Some (inject_Z v)) /\ 1000 <= v < 5000)
            (fst (debug_frame g))
  /\ sanitize parse_float (fst (debug_frame g)) = fst (debug_frame g)
  /\ empty (sanitize parse_float (fst (debug_frame g))) = false
  /\ (0 < y_sum (sanitize parse_float (fst (debug_frame g))))%Q
  /\ no_usable_signal (sanitize parse_float (fst (debug_frame g))) = false
  /\ exists s',
       forecasting_section Model fit make_future_dataframe predict format_exc
         parse_float data "DEBUG" chart_type_forecast s = (Done tt, s').
Proof.
  destruct (debug_frame_rows g) as [Hlen Hrows].
  assert (Hne : fst (debug_frame g) <> []).
  { intros E. rewrite E in Hlen. discriminate. }
  split; [exact Hlen|]. split.
  { eapply Forall_impl; [|exact Hrows]. intros r [_ H]. exact H. }
  rewrite debug_frame_clean. split; [reflexivity|]. split.
  { destruct (fst (debug_frame g)); [contradiction | reflexivity]. }
  split.
  { apply y_sum_positive; [exact Hne|].
    eapply Forall_impl; [|exact Hrows].
    intros r [_ [v [Hy Hv]]]. exists v. split; [exact Hy | lia]. }
  split; [apply debug_frame_usable|].
  destruct (forecasting_section Model fit make_future_dataframe predict format_exc
              parse_float data "DEBUG" chart_type_forecast s) as [out s'] eqn:H.
  destruct (forecasting_section_cases Model fit make_future_dataframe predict
              format_exc parse_float data "DEBUG" chart_type_forecast s out s' H)
    as [[e [_ [Hm _]]]|[[_ [_ [raw [s0 [s1 [_ [Hd Hv]]]]]]]|[Ho _]]].
  - contradiction.
  - rewrite (Hd eq_refl), debug_frame_clean, debug_frame_usable in Hv.
    discriminate.
  - subst out. now exists s'.
Qed.

(* ------------------------------------------------------------------ *)
(** ** Metric cards and executive summary (C9) *)

Lemma ratio_test_ok (previous change : float64) (test : float64 -> bool) :
  exists b, ratio_test previous change test = Ok b
            /\ (is_zero previous = true -> b = false).
Proof.
  unfold ratio_test, truthy, fdiv.
  destruct (is_zero previous); simpl.
  - exists false. auto.
  - eexists. split; [reflexivity | discriminate].
Qed.

Lemma alert_of_ok (current previous : float64) :
  exists alert, alert_of current previous = Ok alert
                /\ (is_zero previous = true -> alert = "").
Proof.
  unfold alert_of.
  destruct (ratio_test_ok previous (fsub current previous) (fun r => fgt r (1 # 4)))
    as [spike [Hs Hs0]].
  destruct (ratio_test_ok previous (fsub current previous)
              (fun r => flt r (- (1 # 4)))) as [drop [Hd Hd0]].
  rewrite Hs. simpl. destruct spike.
  - eexists. split; [reflexivity|]. intros Hz. now specialize (Hs0 Hz).
  - rewrite Hd. simpl. destruct drop.
    + eexists. split; [reflexivity|]. intros Hz. now specialize (Hd0 Hz).
    + eexists. split; reflexivity.
Qed.

Lemma percent_change_ok (diff prev_value : float64) :
  exists pct, percent_change diff prev_value = Ok pct
              /\ (is_zero prev_value = true -> pct = Some 0%Q).
Proof.
  unfold percent_change, truthy, fdiv.
  destruct (is_zero prev_value); simpl.
  - eexists. split; reflexivity.
  - eexists. split; [reflexivity | discriminate].
Qed.

Lemma getitem_raises (data : Table) (metric : string) (e : Exception) :
  getitem data metric = Raise e -> not_zero_division e.
Proof.
  unfold getitem. destruct (lookup metric (metrics data)); [discriminate|].
  intros H. inversion H. discriminate.
Qed.

Lemma iloc_raises (column : list float64) (k : nat) (e : Exception) :
  iloc_from_end column k = Raise e -> not_zero_division e.
Proof.
  unfold iloc_from_end. destruct (nth_error (rev column) (k - 1)); [discriminate|].
  intros H. inversion H. discriminate.
Qed.

Lemma py_int_raises (x : float64) (e : Exception) :
  py_int x = Raise e -> not_zero_division e.
Proof.
  destruct x; simpl; [discriminate|]. intros H. inversion H. discriminate.
Qed.

Lemma summarise_raises (data : Table) (metric : string) (e : Exception) :
  summarise data metric = Raise e -> not_zero_division e.
Proof.
  unfold summarise. destruct (1 <? len data)%nat; [|discriminate].
  destruct (getitem data metric) as [column|e1] eqn:Hg; simpl.
  2: { intros H. inversion H; subst. eapply getitem_raises; eauto. }
  destruct (iloc_from_end column 2) as [prev|e1] eqn:Hp; simpl.
  2: { intros H. inversion H; subst. eapply iloc_raises; eauto. }
  destruct (iloc_from_end column 1) as [last|e1] eqn:Hl; simpl.
  2: { intros H. inversion H; subst. eapply iloc_raises; eauto. }
  destruct (percent_change_ok (fsub last prev) prev) as [pct [Hpc _]].
  rewrite Hpc. simpl. discriminate.
Qed.

Lemma summaries_of_raises (data : Table) (names : list string) (e : Exception) :
  summaries_of data names = Raise e -> not_zero_division e.
Proof.
  induction names as [|metric rest IH]; simpl; [discriminate|].
  destruct (summarise data metric) as [line|e1] eqn:Hs; simpl.
  2: { intros H. inversion H; subst. eapply summarise_raises; eauto. }
  destruct (summaries_of data rest) as [lines|e1]; simpl; [discriminate|].
  intros H. inversion H; subst. now apply IH.
Qed.

Lemma summaries_of_short (data : Table) (names : list string) :
  (len data < 2)%nat -> summaries_of data names = Ok [].
Proof.
  intros Hlen. induction names as [|metric rest IH]; simpl; [reflexivity|].
  unfold summarise. replace (1 <? len data)%nat with false.
  - simpl. now rewrite IH.
  - symmetry. apply Nat.ltb_ge. lia.
Qed.

(** C9. No ratio of the metric cards or of the executive summary is
    computed with a zero divisor: neither [display_metric_with_target] nor
    the summary ever ends in a [ZeroDivisionError] (what they can raise is a
    missing column, an empty column or a NaN that [int] refuses). When the
    previous value is zero the alert is empty and the percentage is 0; when
    the data has fewer than two rows the previous value of a card is its
    current value and the summary has no line. *)
Theorem ratios_are_guarded (data : Table) (targets : list (string * Z))
    (col : nat) (metric label : string) :
  (forall e, display_metric_with_target data targets col metric label = Raise e ->
             exc_type e <> "ZeroDivisionError")
  /\ (forall e, executive_summary data = Raise e ->
                exc_type e <> "ZeroDivisionError")
  /\ (forall current previous,
        exists alert, alert_of current previous = Ok alert
                      /\ (is_zero previous = true -> alert = ""))
  /\ (forall diff prev_value,
        exists pct, percent_change diff prev_value = Ok pct
                    /\ (is_zero prev_value = true -> pct = Some 0%Q))
  /\ (forall column current,
        (len data < 2)%nat -> previous_value data column current = Ok current)
  /\ ((len data < 2)%nat -> executive_summary data = Ok []).
Proof.
  split; [|split; [|split; [|split; [|split]]]].
  - unfold display_metric_with_target. intros e.
    destruct (getitem data metric) as [column|e1] eqn:Hg; simpl.
    2: { intros H. inversion H; subst. eapply getitem_raises; eauto. }
    destruct (iloc_from_end column 1) as [current|e1] eqn:Hc; simpl.
    2: { intros H. inversion H; subst. eapply iloc_raises; eauto. }
    destruct (previous_value data column current) as [previous|e1] eqn:Hp; simpl.
    2: { intros H. inversion H; subst. unfold previous_value in Hp.
         destruct (1 <? len data)%nat; [|discriminate].
         eapply iloc_raises; eauto. }
    destruct (alert_of_ok current previous) as [alert [Ha _]]. rewrite Ha. simpl.
    destruct (lookup metric targets) as [target|];
      destruct (py_int current) as [shown|e1] eqn:Hi; simpl; try discriminate;
      intros H; inversion H; subst; eapply py_int_raises; eauto.
  - intros e. apply summaries_of_raises.
  - apply alert_of_ok.
  - apply percent_change_ok.
  - intros column current Hlen. unfold previous_value.
    replace (1 <? len data)%nat with false; [reflexivity|].
    symmetry. apply Nat.ltb_ge. lia.
  - apply summaries_of_short.
Qed.

(** One row: the previous value is the current one, the change is zero and
    the card carries no alert. *)
Lemma ratios_are_guarded_witness :
  previous_value (mkTable [Some 7] ["North"] [("New Leads", [Some 40%Q])])
                 [Some 40%Q] (Some 40%Q)
  = Ok (Some 40%Q).
Proof.
  apply (ratios_are_guarded
           (mkTable [Some 7] ["North"] [("New Leads", [Some 40%Q])])
           [("New Leads", 40)] 0%nat "New Leads" "Number of New Leads").
  unfold len. simpl. lia.
Defined.

Example display_metric_zero_previous :
  display_metric_with_target
    (mkTable [Some 7; Some 14] ["North"; "North"] [("Referrals", [Some 0%Q; Some 5%Q])])
    [] 1 "Referrals" "Referral or Partner Introductions"
  = Ok (MetricCard 1 "Referral or Partner Introductions " (Plain 5) None).
Proof. reflexivity. Qed.

Example display_metric_spike :
  display_metric_with_target
    (mkTable [Some 7; Some 14] ["North"; "North"] [("New Leads", [Some 20%Q; Some 30%Q])])
    [("New Leads", 40)] 0 "New Leads" "Leads"
  = Ok (MetricCard 0 "Leads 📍 Spike" (OverTarget 30 40) (Some (Some (30 - inject_Z 40)%Q))).
Proof. reflexivity. Qed.

Example display_metric_empty_data :
  display_metric_with_target (mkTable [] [] [("New Leads", [])]) [] 0 "New Leads" "Leads"
  = Raise IndexError.
Proof. reflexivity. Qed.

Example executive_summary_zero_previous :
  executive_summary
    (mkTable [Some 7; Some 14] ["North"; "North"]
       [("Revenue Closed", [Some 0%Q; Some 5%Q]);
        ("New Leads", [Some 20%Q; Some 30%Q]);
        ("Deals Closed", [Some 8%Q; Some 6%Q])])
  = Ok [mkSummary "Revenue Closed" "increased" (Some (Qabs 0));
        mkSummary "New Leads" "increased"
          (fabs (round1 (Some ((30 - 20) / 20 * 100)%Q)));
        mkSummary "Deals Closed" "decreased"
          (fabs (round1 (Some ((6 - 8) / 8 * 100)%Q)))].
Proof. reflexivity. Qed.

(* ------------------------------------------------------------------ *)
(** ** The HR data loader (C8) *)

Lemma dummy_hr_data_shape :
  n_columns dummy_hr_data = 14%nat /\ has_n_rows 4 dummy_hr_data.
Proof.
  split; [reflexivity|]. unfold has_n_rows, dummy_hr_data.
  repeat constructor.
Qed.

Example dummy_joining_dates :
  date_range_M (mkDate 2023 1 1) 4 3
  = [mkDate 2023 1 31; mkDate 2023 4 30; mkDate 2023 7 31; mkDate 2023 10 31].
Proof. reflexivity. Qed.

(** C8 (as the script has it). The loader tries the remote endpoint first,
    with a timeout of 10 seconds: when the request, the status check, the
    decoding and the construction of the frame all succeed, that frame is
    returned and nothing is shown. When any of them raises, the exception
    is caught and shown in a warning; the loader then returns the built-in
    table of 4 rows and 14 columns when the local CSV file does not exist,
    and what reading the file gives when it exists. The remote failure is
    never what the loader raises: an exception leaves the loader only when
    the local file exists and reading it raises. *)
Theorem load_hr_data_fallback_chain (Json : Type) (w : World Json) :
  let parse_dates := ["Joining Date"; "Hire Date"; "Application Date"] in
  let warned (e : Exception) :=
    Warning ("⚠️ Could not load data from API. Reason: " ++ exc_msg e) in
  (forall e, requests_get w url headers 10 = Raise e ->
             fetch_remote Json w = Raise e)
  /\ (forall response,
        requests_get w url headers 10 = Ok response ->
        400 <= status_code response < 600 ->
        exists e, fetch_remote Json w = Raise e /\ exc_type e = "HTTPError")
  /\ (forall df, fetch_remote Json w = Ok df -> load_hr_data Json w = ([], Ok df))
  /\ (forall e,
        fetch_remote Json w = Raise e ->
        os_path_exists w mock_csv = false ->
        load_hr_data Json w
        = ([warned e; Info "📦 Using built-in dummy HR data."], Ok dummy_hr_data))
  /\ (forall e,
        fetch_remote Json w = Raise e ->
        os_path_exists w mock_csv = true ->
        load_hr_data Json w
        = ([warned e; Info "📄 Using local mock HR data."],
           pd_read_csv w mock_csv parse_dates))
  /\ (n_columns dummy_hr_data = 14%nat /\ has_n_rows 4 dummy_hr_data)
  /\ (forall e,
        snd (load_hr_data Json w) = Raise e ->
        (exists e', fetch_remote Json w = Raise e')
        /\ os_path_exists w mock_csv = true
        /\ pd_read_csv w mock_csv parse_dates = Raise e).
Proof.
  intros parse_dates warned.
  split; [|split; [|split; [|split; [|split; [|split]]]]].
  - intros e H. unfold fetch_remote. now rewrite H.
  - intros response H Hs. unfold fetch_remote. rewrite H. simpl.
    unfold raise_for_status.
    destruct ((400 <=? status_code response) && (status_code response <? 500)) eqn:E4.
    + simpl. eexists. split; reflexivity.
    + replace ((500 <=? status_code response) && (status_code response <? 600))
        with true.
      * simpl. eexists. split; reflexivity.
      * symmetry. apply andb_true_iff. apply andb_false_iff in E4.
        split; [apply Z.leb_le | apply Z.ltb_lt]; lia.
  - intros df H. unfold load_hr_data. now rewrite H.
  - intros e H He. unfold load_hr_data. now rewrite H, He.
  - intros e H He. unfold load_hr_data. now rewrite H, He.
  - apply dummy_hr_data_shape.
  - intros e H. unfold load_hr_data in H.
    destruct (fetch_remote Json w) as [df|e']; [discriminate|].
    split; [eauto|].
    destruct (os_path_exists w mock_csv); [split; [reflexivity | exact H]|].
    discriminate.
Qed.

(** The request times out and there is no local file: the loader returns
    the built-in table. *)
Lemma load_hr_data_fallback_chain_witness :
  let timeout := mkException "ConnectTimeout" "timed out" in
  let w := mkWorld unit (fun _ _ _ => Raise timeout) (fun _ => Ok tt)
                   (fun _ => Ok []) (fun _ => false) (fun _ _ => Ok []) in
  load_hr_data unit w
  = ([Warning "⚠️ Could not load data from API. Reason: timed out";
      Info "📦 Using built-in dummy HR data."],
     Ok dummy_hr_data).
Proof.
  intros timeout w.
  exact (proj1 (proj2 (proj2 (proj2 (load_hr_data_fallback_chain unit w))))
           timeout eq_refl eq_refl).
Defined.

(** The request times out and the local file exists but has no ['Hire Date']
    column, so [read_csv] raises: the exception leaves the loader, which
    returns no table. *)
Lemma load_hr_data_can_raise :
  let timeout := mkException "ConnectTimeout" "timed out" in
  let bad_csv :=
    mkException "ValueError" "Missing column provided to 'parse_dates': 'Hire Date'" in
  let w := mkWorld unit (fun _ _ _ => Raise timeout) (fun _ => Ok tt)
                   (fun _ => Ok []) (fun _ => true) (fun _ _ => Raise bad_csv) in
  snd (load_hr_data unit w) = Raise bad_csv
  /\ ~ (forall (Json : Type) (w : World Json),
          exists df, snd (load_hr_data Json w) = Ok df).
Proof.
  intros timeout bad_csv w. split; [reflexivity|].
  intros H. destruct (H unit w) as [df Hdf]. discriminate Hdf.
Qed.

(* ------------------------------------------------------------------ *)
(** ** Further properties of the script *)

(** X2. When the filters leave no row, the metric column is empty and a
    metric card raises [IndexError] at line 245; nothing around the call
    handles it. *)
Theorem display_metric_with_target_no_rows (data : Table)
    (targets : list (string * Z)) (col : nat) (metric label : string) :
  getitem data metric = Ok [] ->
  display_metric_with_target data targets col metric label = Raise IndexError.
Proof.
  intros H. unfold display_metric_with_target. now rewrite H.
Qed.

Lemma display_metric_with_target_no_rows_witness :
  display_metric_with_target (mkTable [] [] [("New Leads", [])])
    [("New Leads", 40)] 0 "New Leads" "Number of New Leads/Prospects Added"
  = Raise IndexError.
Proof.
  apply display_metric_with_target_no_rows. reflexivity.
Defined.

Lemma frame_of_columns_ds_from (n : nat) (dates : list Timestamp) (ys : list Z) :
  List.length dates = List.length ys ->
  map ds (map (fun r => mkPoint (Z.of_nat (fst r)) (Some (fst (snd r)))
                                (Flt (Some (inject_Z (snd (snd r))))))
              (combine (seq n (List.length dates)) (combine dates ys)))
  = map Some dates.
Proof.
  revert n ys. induction dates as [|d dates IH]; intros n [|v ys] H; simpl in *;
    try discriminate; [reflexivity|].
  f_equal. apply IH. now injection H.
Qed.

(** X3. The DEBUG series has one point per week: its timestamps are the 24
    consecutive Sundays from 2023-01-01 on, whatever the generator draws. *)
Theorem debug_series_is_weekly (g : Rng) :
  timestamps (fst (debug_frame g))
  = map (fun i => day_2023_01_01 + 7 * microseconds_per_day * Z.of_nat i)
        (seq 0 24)
  /\ strictly_ascending (fst (debug_frame g)).
Proof.
  assert (H : timestamps (fst (debug_frame g))
              = map (fun i => day_2023_01_01 + 7 * microseconds_per_day * Z.of_nat i)
        (seq 0 24)).
  { apply timestamps_of_ds. unfold debug_frame.
    destruct (randint 1000 5000 24 g) as [ys g'] eqn:E. simpl fst.
    unfold frame_of_columns. rewrite frame_of_columns_ds_from.
    - reflexivity.
    - rewrite date_range_W_length.
      replace ys with (fst (randint 1000 5000 24 g)) by now rewrite E.
      now rewrite randint_length. }
  split; [exact H|]. unfold strictly_ascending. rewrite H.
  vm_compute. repeat constructor.
Qed.

(* ------------------------------------------------------------------ *)
(** ** Series extractor: the total is kept *)

(** Linear arithmetic over the rationals, with timestamps read as integers. *)
Ltac lraZ := unfold Timestamp in *; lra.

Lemma nanadd_val (acc : Q) (x : float64) : (nanadd acc x == acc + nanval x)%Q.
Proof. destruct x; simpl; lraZ. Qed.

Lemma fold_nanadd_shift (l : list float64) (acc : Q) :
  (fold_left nanadd l acc == acc + nansum l)%Q.
Proof.
  unfold nansum. revert acc. induction l as [|x l IH]; intros acc; simpl.
  - lraZ.
  - rewrite IH, (IH (nanadd 0 x)). rewrite !nanadd_val. lraZ.
Qed.

Lemma nansum_snoc (l : list float64) (x : float64) :
  nansum (l ++ [x]) = nanadd (nansum l) x.
Proof. unfold nansum. now rewrite fold_left_app. Qed.

(** The sum of [h] over a list of keys. *)
Lemma nansum_keys_cons (h : Timestamp -> Q) (k : Timestamp) (ks : list Timestamp) :
  (nansum (map (fun k => Some (h k)) (k :: ks))
   == h k + nansum (map (fun k => Some (h k)) ks))%Q.
Proof.
  unfold nansum. simpl. rewrite fold_nanadd_shift. unfold nansum. lraZ.
Qed.

Lemma nansum_keys_insert (h : Timestamp -> Q) (k : Timestamp) (ks : list Timestamp) :
  StronglySorted Z.lt ks ->
  (nansum (map (fun k => Some (h k)) (insert_key k ks))
   == nansum (map (fun k => Some (h k)) ks)
      + (if existsb (Z.eqb k) ks then 0 else h k))%Q.
Proof.
  unfold Timestamp in *. induction 1 as [|a ks Hs IH Hall].
  - simpl. unfold nansum. simpl. lraZ.
  - simpl insert_key. simpl existsb. unfold Timestamp in *.
    destruct (k <? a) eqn:Hlt.
    + apply Z.ltb_lt in Hlt.
      replace (k =? a) with false by (symmetry; apply Z.eqb_neq; lia).
      replace (existsb (Z.eqb k) ks) with false.
      * cbn [orb]. rewrite (nansum_keys_cons h k (a :: ks)). lraZ.
      * symmetry. apply not_true_is_false. intros Hex.
        apply existsb_exists in Hex. destruct Hex as [b [Hb Hkb]].
        apply Z.eqb_eq in Hkb. subst b.
        rewrite Forall_forall in Hall. specialize (Hall k Hb). lia.
    + destruct (k =? a) eqn:Heq.
      * cbn [orb]. lraZ.
      * cbn [orb]. rewrite (nansum_keys_cons h a (insert_key k ks)), IH.
        rewrite (nansum_keys_cons h a ks). lraZ.
Qed.

Lemma nansum_keys_update (g g' : Timestamp -> Q) (k0 : Timestamp) (d : Q)
    (ks : list Timestamp) :
  NoDup ks ->
  (forall k, k <> k0 -> (g' k == g k)%Q) ->
  (g' k0 == g k0 + d)%Q ->
  (nansum (map (fun k => Some (g' k)) ks)
   == nansum (map (fun k => Some (g k)) ks)
      + (if existsb (Z.eqb k0) ks then d else 0))%Q.
Proof.
  unfold Timestamp in *.
  intros Hnd Hother Hk0. induction Hnd as [|a ks Hnin Hnd IH].
  - simpl. unfold nansum. simpl. lraZ.
  - rewrite (nansum_keys_cons g' a ks), (nansum_keys_cons g a ks), IH.
    simpl existsb. destruct (k0 =? a) eqn:E.
    + apply Z.eqb_eq in E. subst a. cbn [orb].
      replace (existsb (Z.eqb k0) ks) with false.
      * rewrite Hk0. lraZ.
      * symmetry. apply not_true_is_false. intros Hex.
        apply existsb_exists in Hex. destruct Hex as [b [Hb Hkb]].
        apply Z.eqb_eq in Hkb. now subst b.
    + apply Z.eqb_neq in E. cbn [orb]. rewrite (Hother a); [lraZ | congruence].
Qed.

Lemma bucket_values_snoc (k : Timestamp) (rows : list (option Timestamp * float64))
    (row : option Timestamp * float64) :
  bucket_values k (rows ++ [row])
  = (bucket_values k rows ++ (if in_bucket k row then [snd row] else []))%list.
Proof.
  unfold bucket_values. rewrite filter_app, map_app. simpl.
  now destruct (in_bucket k row).
Qed.

Lemma bucket_values_absent (k : Timestamp) (rows : list (option Timestamp * float64)) :
  ~ In (Some k) (map fst rows) -> bucket_values k rows = [].
Proof.
  unfold bucket_values. induction rows as [|[w v] rows IH]; simpl; [reflexivity|].
  intros Hnin. unfold in_bucket at 1. simpl.
  destruct w as [t|].
  - destruct (t =? k) eqn:E.
    + apply Z.eqb_eq in E. subst t. exfalso. apply Hnin. now left.
    + apply IH. intros H. apply Hnin. now right.
  - apply IH. intros H. apply Hnin. now right.
Qed.

Lemma existsb_keys (k : Timestamp) (ks : list Timestamp) :
  existsb (Z.eqb k) ks = true <-> In k ks.
Proof.
  rewrite existsb_exists. split.
  - intros [b [Hb E]]. apply Z.eqb_eq in E. now subst.
  - intros H. exists k. split; [exact H | apply Z.eqb_refl].
Qed.

(** The bucket sums add up to the sum over the dated rows. *)
Lemma groupby_sum_total (rows : list (option Timestamp * float64)) :
  (nansum (map (fun k => Some (nansum (bucket_values k rows)))
               (group_keys (map fst rows)))
   == nansum (map snd (dated_rows rows)))%Q.
Proof.
  induction rows as [|[w v] rows IH] using rev_ind.
  - reflexivity.
  - rewrite map_app. simpl map at 2. unfold group_keys. rewrite fold_left_app.
    fold (group_keys (map fst rows)). simpl fold_left.
    unfold dated_rows. rewrite filter_app, map_app. fold (dated_rows rows).
    destruct w as [k0|]; simpl add_key; simpl filter; simpl map.
    + rewrite nansum_snoc, nanadd_val, <- IH.
      rewrite nansum_keys_insert by apply group_keys_sorted.
      rewrite (nansum_keys_update
                 (fun k => nansum (bucket_values k rows))
                 (fun k => nansum (bucket_values k (rows ++ [(Some k0, v)])))
                 k0 (nanval v) (group_keys (map fst rows))).
      * destruct (existsb (Z.eqb k0) (group_keys (map fst rows))) eqn:E; [lraZ|].
        rewrite bucket_values_snoc. unfold in_bucket. simpl.
        rewrite Z.eqb_refl, nansum_snoc, nanadd_val.
        rewrite bucket_values_absent.
        -- unfold nansum. simpl. lraZ.
        -- intros Hin. apply group_keys_In, existsb_keys in Hin. congruence.
      * apply StronglySorted_lt_NoDup, group_keys_sorted.
      * intros k Hk. rewrite bucket_values_snoc. unfold in_bucket. simpl.
        replace (k0 =? k) with false by (symmetry; apply Z.eqb_neq; congruence).
        rewrite app_nil_r. reflexivity.
      * rewrite bucket_values_snoc. unfold in_bucket. simpl.
        now rewrite Z.eqb_refl, nansum_snoc, nanadd_val.
    + rewrite app_nil_r, <- IH.
      assert (E : forall k, bucket_values k (rows ++ [(None, v)]) = bucket_values k rows).
      { intros k. rewrite bucket_values_snoc. unfold in_bucket. simpl.
        apply app_nil_r. }
      erewrite map_ext; [reflexivity|]. intros k. simpl. now rewrite E.
Qed.



(* ------------------------------------------------------------------ *)
(** ** The sidebar filters *)

Lemma select_map_filter {A : Type} (p : A -> bool) (l : list A) :
  select (map p l) l = filter p l.
Proof.
  induction l as [|x l IH]; simpl; [reflexivity|].
  destruct (p x); now rewrite IH.
Qed.

Lemma filter_twice {A : Type} (p q : A -> bool) (l : list A) :
  filter p (filter q l) = filter (fun x => q x && p x) l.
Proof.
  induction l as [|x l IH]; simpl; [reflexivity|].
  destruct (q x); simpl; [destruct (p x)|]; now rewrite IH.
Qed.

Lemma select_combine {A B : Type} (mask : list bool) (xs : list A) (ys : list B) :
  List.length xs = List.length ys ->
  combine (select mask xs) (select mask ys) = select mask (combine xs ys).
Proof.
  revert xs ys. induction mask as [|b mask IH]; intros [|x xs] [|y ys] H;
    simpl in *; try discriminate; try reflexivity.
  destruct b; simpl; rewrite IH; auto.
Qed.

Lemma select_length {A B : Type} (mask : list bool) (xs : list A) (ys : list B) :
  List.length xs = List.length ys ->
  List.length (select mask xs) = List.length (select mask ys).
Proof.
  revert xs ys. induction mask as [|b mask IH]; intros [|x xs] [|y ys] H;
    simpl in *; try discriminate; try reflexivity.
  destruct b; simpl; auto.
Qed.

Lemma sublist_nil_l {A : Type} (l : list A) : sublist [] l.
Proof. induction l; now constructor. Qed.

Lemma select_sublist {A : Type} (mask : list bool) (xs : list A) :
  sublist (select mask xs) xs.
Proof.
  revert xs. induction mask as [|b mask IH]; intros [|x xs]; simpl.
  - constructor.
  - apply sublist_nil_l.
  - constructor.
  - destruct b; constructor; apply IH.
Qed.

Lemma select_none {A : Type} (mask : list bool) (xs : list A) :
  Forall (fun b => b = false) mask -> select mask xs = [].
Proof.
  intros H. revert xs. induction H as [|b mask Hb _ IH]; intros [|x xs]; simpl;
    try reflexivity.
  subst b. apply IH.
Qed.

Lemma sublist_trans {A : Type} (l1 l2 l3 : list A) :
  sublist l1 l2 -> sublist l2 l3 -> sublist l1 l3.
Proof.
  intros H12 H23. revert l1 H12.
  induction H23 as [|x l2 l3 H23 IH|x l2 l3 H23 IH]; intros l1 H12.
  - exact H12.
  - constructor. now apply IH.
  - inversion H12; subst.
    + constructor. now apply IH.
    + apply sublist_keep. now apply IH.
Qed.

Lemma sublist_Forall {A : Type} (P : A -> Prop) (l l' : list A) :
  sublist l l' -> Forall P l' -> Forall P l.
Proof.
  induction 1 as [|x l l' Hs IH|x l l' Hs IH]; intros HP.
  - constructor.
  - inversion HP; subst. auto.
  - inversion HP; subst. constructor; auto.
Qed.

Lemma sublist_length {A : Type} (l l' : list A) :
  sublist l l' -> (List.length l <= List.length l')%nat.
Proof. induction 1; simpl; lia. Qed.

Lemma lookup_select_rows (mask : list bool) (data : Table) (m : string) :
  lookup m (metrics (select_rows mask data))
  = option_map (select mask) (lookup m (metrics data)).
Proof.
  unfold select_rows. simpl.
  induction (metrics data) as [|[name column] rest IH]; simpl; [reflexivity|].
  destruct (String.eqb m name); [reflexivity | exact IH].
Qed.

Lemma select_rows_rectangular (mask : list bool) (data : Table) :
  rectangular data -> rectangular (select_rows mask data).
Proof.
  unfold rectangular, len. intros [Hr Hm]. simpl. split.
  - now apply select_length.
  - apply Forall_map. eapply Forall_impl; [|exact Hm].
    intros column Hc. simpl. now apply select_length.
Qed.

Lemma select_rows_of (mask : list bool) (data : Table) (column : list float64) :
  List.length (Region data) = len data ->
  List.length column = len data ->
  rows_of (select_rows mask data) (select mask column)
  = select mask (rows_of data column).
Proof.
  unfold rows_of, len. intros Hr Hc. simpl.
  rewrite (select_combine mask (Region data) column) by congruence.
  apply select_combine. rewrite length_combine. lia.
Qed.

Lemma rows_of_weeks (data : Table) (column : list float64) :
  List.length (Region data) = len data ->
  List.length column = len data ->
  map fst (rows_of data column) = Week data.
Proof.
  unfold rows_of, len. intros Hr Hc.
  assert (H : List.length (Week data) = List.length (combine (Region data) column)).
  { rewrite length_combine. lia. }
  revert H. generalize (combine (Region data) column). generalize (Week data).
  induction l as [|w l IH]; intros [|x l0] H; simpl in *; try discriminate; auto.
  f_equal. apply IH. lia.
Qed.

Lemma rows_of_regions (data : Table) (column : list float64) :
  List.length (Region data) = len data ->
  List.length column = len data ->
  map (fun row => fst (snd row)) (rows_of data column) = Region data.
Proof.
  unfold rows_of, len. intros Hr Hc.
  assert (H : List.length (Week data) = List.length (Region data)) by lia.
  assert (H' : List.length (Region data) = List.length column) by lia.
  revert H H'. generalize (Week data). generalize (Region data). revert column Hc.
  clear Hr. intros column _ rs. revert column.
  induction rs as [|r rs IH]; intros [|c column] [|w ws] H H'; simpl in *;
    try discriminate; auto.
  f_equal. apply IH; lia.
Qed.

(** How the two filters act on a table with one value per row in every
    column: the rows that are left are exactly the rows whose week lies in
    the window and whose region is the selected one (any region for "All"),
    in their order. *)
Lemma apply_filters_rows (start_date end_date : Timestamp)
    (selected_region : string) (data : Table) (m : string)
    (column : list float64) :
  rectangular data ->
  lookup m (metrics data) = Some column ->
  exists column',
    lookup m (metrics (apply_filters start_date end_date selected_region data))
    = Some column'
    /\ rows_of (apply_filters start_date end_date selected_region data) column'
       = filter (passes_filters start_date end_date selected_region)
                (rows_of data column).
Proof.
  intros Hrect Hcol. destruct Hrect as [Hr Hm].
  assert (Hc : List.length column = len data).
  { clear Hr. induction (metrics data) as [|[name c] rest IH]; simpl in Hcol;
      [discriminate|].
    inversion Hm; subst. destruct (String.eqb m name).
    - injection Hcol as <-. assumption.
    - now apply IH. }
  set (mask1 := map (in_window start_date end_date) (Week data)).
  assert (Hrect1 : rectangular (select_rows mask1 data)).
  { apply select_rows_rectangular. now split. }
  assert (Hrows1 : rows_of (select_rows mask1 data) (select mask1 column)
                   = filter (fun row => in_window start_date end_date (fst row))
                            (rows_of data column)).
  { rewrite select_rows_of by assumption.
    rewrite <- select_map_filter. f_equal. unfold mask1.
    rewrite <- (rows_of_weeks data column Hr Hc) at 1. now rewrite map_map. }
  unfold apply_filters, filter_by_date. fold mask1. unfold filter_by_region.
  destruct (String.eqb selected_region "All") eqn:Eall.
  - exists (select mask1 column). split.
    + rewrite lookup_select_rows, Hcol. reflexivity.
    + rewrite Hrows1. apply filter_ext. intros row.
      unfold passes_filters. rewrite Eall. simpl. now rewrite andb_true_r.
  - set (d1 := select_rows mask1 data) in *.
    set (mask2 := map (fun r => String.eqb r selected_region) (Region d1)).
    destruct Hrect1 as [Hr1 Hm1].
    assert (Hc1 : List.length (select mask1 column) = len d1).
    { unfold d1, len. simpl. apply select_length. unfold len in Hc. congruence. }
    exists (select mask2 (select mask1 column)). split.
    + rewrite lookup_select_rows. unfold d1. rewrite lookup_select_rows, Hcol.
      reflexivity.
    + rewrite select_rows_of by assumption.
      rewrite Hrows1.
      assert (Hmask2 : mask2
                = map (fun row => String.eqb (fst (snd row)) selected_region)
                      (rows_of d1 (select mask1 column))).
      { unfold mask2. rewrite <- (rows_of_regions d1 _ Hr1 Hc1) at 1.
        now rewrite map_map. }
      rewrite Hmask2, Hrows1, select_map_filter, filter_twice.
      apply filter_ext. intros row. unfold passes_filters. now rewrite Eall.
Qed.

Lemma select_nil_r {A : Type} (mask : list bool) : select mask (@nil A) = [].
Proof. now destruct mask. Qed.

Lemma in_window_empty (start_date end_date : Timestamp) (w : option Timestamp) :
  end_date < start_date -> in_window start_date end_date w = false.
Proof.
  intros H. destruct w as [t|]; simpl; [|reflexivity].
  apply andb_false_iff.
  destruct (start_date <=? t) eqn:E; [right | now left].
  apply Z.leb_le in E. apply Z.leb_gt. lia.
Qed.

Lemma apply_filters_empty_window (start_date end_date : Timestamp)
    (selected_region : string) (data : Table) :
  end_date < start_date ->
  apply_filters start_date end_date selected_region data
  = mkTable [] [] (map (fun column => (fst column, [])) (metrics data)).
Proof.
  intros H.
  assert (Hnone : forall (A : Type) (xs : list A),
             select (map (in_window start_date end_date) (Week data)) xs = []).
  { intros A xs. apply select_none, Forall_map, Forall_forall.
    intros w _. now apply in_window_empty. }
  assert (H1 : filter_by_date start_date end_date data
               = mkTable [] [] (map (fun column => (fst column, [])) (metrics data))).
  { unfold filter_by_date, select_rows. rewrite !Hnone. f_equal.
    apply map_ext. intros column. now rewrite Hnone. }
  unfold apply_filters. rewrite H1. unfold filter_by_region.
  destruct (String.eqb selected_region "All"); [reflexivity|].
  unfold select_rows. simpl. f_equal. rewrite map_map. reflexivity.
Qed.

Lemma lookup_emptied (m : string) (cols : list (string * list float64))
    (column : list float64) :
  lookup m cols = Some column ->
  lookup m (map (fun c : string * list float64 => (fst c, @nil float64)) cols)
  = Some [].
Proof.
  induction cols as [|[name c] rest IH]; simpl; [discriminate|].
  destruct (String.eqb m name); auto.
Qed.

Lemma week_in_window (start_date end_date : Timestamp)
    (selected_region : string) (data : Table) :
  Forall (fun w => exists t, w = Some t /\ start_date <= t <= end_date)
         (Week (apply_filters start_date end_date selected_region data)).
Proof.
  assert (H1 : Forall (fun w => exists t, w = Some t /\ start_date <= t <= end_date)
                 (Week (filter_by_date start_date end_date data))).
  { unfold filter_by_date. simpl. rewrite select_map_filter.
    apply Forall_forall. intros w Hw. apply filter_In in Hw.
    destruct Hw as [_ Hw]. destruct w as [t|]; [|discriminate].
    exists t. split; [reflexivity|]. simpl in Hw.
    apply andb_true_iff in Hw. lia. }
  unfold apply_filters, filter_by_region.
  destruct (String.eqb selected_region "All"); [exact H1|].
  simpl. eapply sublist_Forall; [apply select_sublist | exact H1].
Qed.

(** X5. On a table with one value per row in every column, the two sidebar
    filters keep exactly the rows whose week is an instant from midnight of
    the start date to midnight of the end date (both included; a row
    without week is dropped) and whose region is the selected one, in their
    order and in every column alike; with "All" no row is dropped for its
    region. The end date counts as its midnight: a week that falls on the
    end date at a later time of day is dropped. The columns stay, and the
    table still has one value per row in every column. *)
Theorem apply_filters_keeps_matching_rows (start_date end_date : Z)
    (selected_region : string) (data : Table) :
  rectangular data ->
  let filtered :=
    apply_filters (to_datetime start_date) (to_datetime end_date)
      selected_region data in
  let kept := fun row : option Timestamp * (string * float64) =>
    match fst row with
    | Some t => (to_datetime start_date <=? t) && (t <=? to_datetime end_date)
    | None => false
    end
    && (String.eqb selected_region "All"
        || String.eqb (fst (snd row)) selected_region) in
  rectangular filtered
  /\ map fst (metrics filtered) = map fst (metrics data)
  /\ (forall m column,
        lookup m (metrics data) = Some column ->
        exists column',
          lookup m (metrics filtered) = Some column'
          /\ combine (Week filtered) (combine (Region filtered) column')
             = filter kept (combine (Week data) (combine (Region data) column)))
  /\ Forall (fun w => exists t, w = Some t
                                /\ to_datetime start_date <= t
                                   <= to_datetime end_date)
            (Week filtered)
  /\ (selected_region <> "All" -> Forall (eq selected_region) (Region filtered))
  /\ (forall time_of_day,
        0 < time_of_day ->
        ~ In (Some (to_datetime end_date + time_of_day)) (Week filtered)).
Proof.
  intros Hrect filtered kept. split; [|split; [|split; [|split; [|split]]]].
  - unfold filtered, apply_filters, filter_by_region, filter_by_date.
    destruct (String.eqb selected_region "All");
      repeat apply select_rows_rectangular; exact Hrect.
  - unfold filtered, apply_filters, filter_by_region, filter_by_date.
    destruct (String.eqb selected_region "All"); unfold select_rows; simpl;
      rewrite ?map_map; simpl; reflexivity.
  - intros m column Hcol.
    destruct (apply_filters_rows (to_datetime start_date) (to_datetime end_date)
                selected_region data m column Hrect Hcol)
      as [column' [Hl Hrows]].
    exists column'. split; [exact Hl|].
    unfold rows_of in Hrows. fold filtered in Hrows. rewrite Hrows.
    apply filter_ext. intros [[t|] [region value]]; reflexivity.
  - apply week_in_window.
  - intros Hne. unfold filtered, apply_filters, filter_by_region.
    replace (String.eqb selected_region "All") with false
      by (symmetry; now apply String.eqb_neq).
    simpl. rewrite select_map_filter. apply Forall_forall. intros r Hr.
    apply filter_In in Hr. destruct Hr as [_ Hr].
    apply String.eqb_eq in Hr. now subst.
  - intros time_of_day Hpos Hin.
    pose proof (week_in_window (to_datetime start_date) (to_datetime end_date)
                  selected_region data) as Hall.
    rewrite Forall_forall in Hall. destruct (Hall _ Hin) as [t [Ht Hb]].
    injection Ht as <-. lia.
Qed.

(** Four rows, the third on the end date at one o'clock in the morning:
    the filters for days 7 to 14 and the region "North" keep the first and
    the last. *)
Lemma apply_filters_keeps_matching_rows_witness :
  let data :=
    mkTable [Some (to_datetime 7); Some (to_datetime 7);
             Some (to_datetime 14 + 3600000000); Some (to_datetime 10)]
            ["North"; "South"; "North"; "North"]
            [("New Leads", [Some 20%Q; Some 30%Q; Some 25%Q; Some 40%Q])] in
  lookup "New Leads"
    (metrics (apply_filters (to_datetime 7) (to_datetime 14) "North" data))
  = Some [Some 20%Q; Some 40%Q]
  /\ Forall (eq "North")
            (Region (apply_filters (to_datetime 7) (to_datetime 14) "North" data)).
Proof.
  intros data. split; [reflexivity|].
  apply (apply_filters_keeps_matching_rows 7 14 "North" data).
  - split; [reflexivity|]. repeat constructor.
  - discriminate.
Defined.

Section FilteredForecast.

Variable Model : Type.
Variable fit : Frame -> nat -> result Model.
Variable make_future_dataframe : Model -> Frame -> nat -> result Frame.
Variable predict : Model -> Frame -> result Forecast.
Variable format_exc : Exception -> string.
Variable parse_float : string -> float64.

(** Outside DEBUG a frame without usable signal stops the section at the
    first validation. *)
Lemma section_stops_on (data : Table) (metric chart : string) (raw : Frame)
    (s : Session Model) :
  metric <> "DEBUG" ->
  get_forecast_data data metric = Ok raw ->
  no_usable_signal (sanitize parse_float raw) = true ->
  forecasting_section Model fit make_future_dataframe predict format_exc
    parse_float data metric chart s
  = (Stopped,
     mkSession Model (ui s ++ [Warning (warning_639 metric)])
               (cache s) (fits s) (rng s)).
Proof.
  intros Hm Hg Hv. unfold forecasting_section.
  assert (Hl : load_forecast_data Model data metric s = (Done raw, s)).
  { unfold load_forecast_data.
    replace (String.eqb metric "DEBUG") with false
      by (symmetry; now apply String.eqb_neq).
    unfold lift. now rewrite Hg. }
  rewrite (bind_Done Model _ _ _ _ _ Hl).
  now rewrite (bind_Stopped Model _ _ _ _ (validate_halt Model _ _ _ Hv)).
Qed.


End FilteredForecast.

(** X6. When the end date lies before the start date the filters leave no
    row, in any column. For a metric of the table the extractor then returns
    the empty series and the forecasting section stops with the warning
    before any training; the executive summary has no line, and a metric
    card raises [IndexError]. *)
Theorem empty_window_leaves_nothing (Model : Type)
    (fit : Frame -> nat -> result Model)
    (make_future_dataframe : Model -> Frame -> nat -> result Frame)
    (predict : Model -> Frame -> result Forecast)
    (format_exc : Exception -> string) (parse_float : string -> float64)
    (start_date end_date : Timestamp) (selected_region : string) (data : Table)
    (m chart label : string) (column : list float64)
    (targets : list (string * Z)) (col : nat) (s : Session Model) :
  end_date < start_date ->
  lookup m (metrics data) = Some column ->
  m <> "DEBUG" ->
  let filtered := apply_filters start_date end_date selected_region data in
  len filtered = 0%nat
  /\ getitem filtered m = Ok []
  /\ get_forecast_data filtered m = Ok []
  /\ forecasting_section Model fit make_future_dataframe predict format_exc
       parse_float filtered m chart s
     = (Stopped,
        mkSession Model (ui s ++ [Warning (warning_639 m)])
                  (cache s) (fits s) (rng s))
  /\ executive_summary filtered = Ok []
  /\ display_metric_with_target filtered targets col m label = Raise IndexError.
Proof.
  intros Hw Hcol Hm filtered. unfold filtered.
  rewrite (apply_filters_empty_window _ _ _ _ Hw).
  assert (Hget : getitem
                   (mkTable [] [] (map (fun c => (fst c, [])) (metrics data))) m
                 = Ok []).
  { unfold getitem. simpl. now rewrite (lookup_emptied m _ column Hcol). }
  assert (Hfd : get_forecast_data
                  (mkTable [] [] (map (fun c => (fst c, [])) (metrics data))) m
                = Ok []).
  { unfold get_forecast_data, groupby_getitem. simpl.
    now rewrite (lookup_emptied m _ column Hcol). }
  split; [reflexivity|]. split; [exact Hget|]. split; [exact Hfd|].
  split; [|split].
  - now apply section_stops_on with (raw := []).
  - apply summaries_of_short. unfold len. simpl. lia.
  - unfold display_metric_with_target. now rewrite Hget.
Qed.

Lemma empty_window_leaves_nothing_witness :
  get_forecast_data
    (apply_filters 20 10 "All"
       (mkTable [Some 7; Some 14] ["North"; "North"]
                [("New Leads", [Some 20%Q; Some 30%Q])]))
    "New Leads"
  = Ok [].
Proof.
  apply (empty_window_leaves_nothing unit (fun _ _ => Ok tt) (fun _ fd _ => Ok fd)
           (fun _ _ => Ok []) exc_msg (fun _ => NaN) 20 10 "All"
           (mkTable [Some 7; Some 14] ["North"; "North"]
                    [("New Leads", [Some 20%Q; Some 30%Q])])
           "New Leads" "Line Chart" "Leads" [Some 20%Q; Some 30%Q] [] 0%nat
           (mkSession unit [] [] [] (fun _ => 0)));
    [lia | reflexivity | discriminate].
Defined.

(* ------------------------------------------------------------------ *)
(** ** Extractor, sanitiser and validation together *)





(* ------------------------------------------------------------------ *)
(** ** The generated data *)

Lemma distinctb_NoDup (names : list string) :
  distinctb names = true -> NoDup names.
Proof.
  induction names as [|name rest IH]; simpl; intros H; constructor.
  - apply andb_true_iff in H. destruct H as [H _].
    apply negb_true_iff in H. intros Hin.
    assert (existsb (String.eqb name) rest = true).
    { apply existsb_exists. exists name. split; [exact Hin | apply String.eqb_refl]. }
    congruence.
  - apply IH. apply andb_true_iff in H. tauto.
Qed.

Lemma random_sample_range (raw : Z) :
  (0 <= random_sample raw)%Q /\ (random_sample raw < 1)%Q.
Proof.
  unfold random_sample, Qle, Qlt. simpl.
  pose proof (Z.mod_pos_bound raw 9007199254740992 eq_refl). lia.
Qed.

Lemma uniform_range (low high : Q) (size : nat) (g : Rng) :
  (low < high)%Q ->
  Forall (fun q => (low <= q)%Q /\ (q < high)%Q) (fst (uniform low high size g)).
Proof.
  intros Hlh. simpl. apply Forall_map, Forall_forall. intros i _.
  destruct (random_sample_range (g i)) as [H0 H1].
  generalize dependent (random_sample (g i)). intros u H0 H1. split; nra.
Qed.

Lemma draw_spec (kind : draw_kind) (size : nat) (g : Rng) :
  proper_range kind ->
  List.length (fst (draw kind size g)) = size
  /\ Forall (in_range kind) (fst (draw kind size g)).
Proof.
  intros Hp. destruct kind as [low high|low high]; simpl in *.
  - split.
    + now rewrite !length_map, length_seq.
    + apply Forall_map. pose proof (randint_range low high size g Hp) as H.
      simpl in H. eapply Forall_impl; [|exact H]. intros v Hv.
      exists v. split; [reflexivity | exact Hv].
  - split.
    + now rewrite !length_map, length_seq.
    + apply Forall_map. pose proof (uniform_range low high size g Hp) as H.
      simpl in H. eapply Forall_impl; [|exact H]. intros q Hq.
      exists q. split; [reflexivity | exact Hq].
Qed.

Lemma draw_columns_spec (specs : list (string * draw_kind)) (size : nat) (g : Rng) :
  Forall (fun spec => proper_range (snd spec)) specs ->
  NoDup (map fst specs) ->
  map fst (fst (draw_columns specs size g)) = map fst specs
  /\ Forall (fun column => List.length (snd column) = size)
            (fst (draw_columns specs size g))
  /\ forall name kind,
       In (name, kind) specs ->
       exists column,
         lookup name (fst (draw_columns specs size g)) = Some column
         /\ Forall (in_range kind) column.
Proof.
  intros Hp. revert g. induction Hp as [|[name0 kind0] rest Hk _ IH]; intros g Hnd.
  - simpl. repeat split; auto. intros name kind [].
  - simpl in Hk. simpl draw_columns.
    destruct (draw kind0 size g) as [column0 g1] eqn:Hd.
    destruct (draw_columns rest size g1) as [columns g2] eqn:Hr.
    inversion Hnd as [|? ? Hnin Hnd']; subst.
    destruct (IH g1 Hnd') as [Hnames [Hlens Hcols]]. rewrite Hr in *. simpl in *.
    destruct (draw_spec kind0 size g Hk) as [Hlen0 Hrange0]. rewrite Hd in *.
    simpl in *.
    split; [now f_equal|]. split; [now constructor|].
    intros name kind [Heq|Hin].
    + injection Heq as <- <-. rewrite String.eqb_refl. eauto.
    + destruct (String.eqb name name0) eqn:E.
      * apply String.eqb_eq in E. subst name0. exfalso. apply Hnin.
        apply in_map_iff. now exists (name, kind).
      * now apply Hcols.
Qed.

Lemma metric_specs_proper :
  Forall (fun spec => proper_range (snd spec)) metric_specs.
Proof. unfold metric_specs. repeat constructor. Qed.

Lemma metric_specs_distinct : NoDup (map fst metric_specs).
Proof. apply distinctb_NoDup. reflexivity. Qed.

Lemma np_tile_length {A : Type} (l : list A) (n : nat) :
  List.length (np_tile l n) = (n * List.length l)%nat.
Proof.
  unfold np_tile. induction n as [|n IH]; simpl; [reflexivity|].
  rewrite length_app, IH. reflexivity.
Qed.

Lemma np_repeat_length {A : Type} (l : list A) (n : nat) :
  List.length (np_repeat l n) = (List.length l * n)%nat.
Proof.
  unfold np_repeat. induction l as [|x l IH]; simpl; [reflexivity|].
  rewrite length_app, repeat_length, IH. reflexivity.
Qed.

Lemma combine_repeat {A B : Type} (l : list A) (b : B) :
  combine l (repeat b (List.length l)) = map (fun a => (a, b)) l.
Proof. induction l as [|a l IH]; simpl; [reflexivity|]. now rewrite IH. Qed.

Lemma combine_app {A B : Type} (l1 l2 : list A) (r1 r2 : list B) :
  List.length l1 = List.length r1 ->
  combine (l1 ++ l2) (r1 ++ r2) = (combine l1 r1 ++ combine l2 r2)%list.
Proof.
  revert r1. induction l1 as [|a l1 IH]; intros [|b r1] H; simpl in *;
    try discriminate; [reflexivity|].
  f_equal. apply IH. lia.
Qed.

Lemma tile_repeat_rows {A B : Type} (l : list A) (rs : list B) :
  combine (np_tile l (List.length rs)) (np_repeat rs (List.length l))
  = flat_map (fun r => map (fun a => (a, r)) l) rs.
Proof.
  unfold np_tile, np_repeat. induction rs as [|r rs IH]; simpl; [reflexivity|].
  rewrite combine_app by now rewrite repeat_length.
  now rewrite combine_repeat, IH.
Qed.

(** The table the dictionary of lines 166-198 makes of 24 dates. *)
Lemma generate_data_table (dates : list Timestamp) (g : Rng) :
  List.length dates = 24%nat ->
  exists data g',
    generate_data dates g = (Ok data, g')
    /\ len data = 96%nat
    /\ rectangular data
    /\ combine (Week data) (Region data)
       = flat_map (fun r => map (fun d => (Some d, r)) dates) regions
    /\ map fst (metrics data) = map fst metric_specs
    /\ forall name kind,
         In (name, kind) metric_specs ->
         exists column,
           lookup name (metrics data) = Some column
           /\ Forall (in_range kind) column.
Proof.
  intros Hlen. unfold generate_data.
  destruct (draw_columns_spec metric_specs 96 g metric_specs_proper
              metric_specs_distinct) as [Hnames [Hlens Hcols]].
  destruct (draw_columns metric_specs 96 g) as [columns g'].
  cbn [fst] in Hnames, Hlens, Hcols.
  assert (Hw : List.length (np_tile (map Some dates) (List.length regions)) = 96%nat).
  { rewrite np_tile_length, length_map, Hlen. reflexivity. }
  rewrite Hw. rewrite Nat.eqb_refl.
  do 2 eexists. split; [reflexivity|].
  unfold rectangular, len. cbn [Week Region metrics].
  split; [exact Hw|]. split; [split|].
  - rewrite Hw, np_repeat_length, Hlen. reflexivity.
  - rewrite Hw. exact Hlens.
  - split; [|split; [exact Hnames | exact Hcols]].
    rewrite <- (length_map Some dates).
    rewrite tile_repeat_rows. apply flat_map_ext. intros r.
    now rewrite map_map.
Qed.

(** X9. For the 24 dates of line 164 the dictionary of lines 166-198 makes
    a table of 96 rows with one value per row in every column: every date
    is paired once with every region (region by region), the 29 metric
    columns are there under their names, every value of a column drawn by
    [randint] is a whole number in its range (the upper bound excluded),
    and every value of a column drawn by [uniform] is a number from the
    lower to the upper bound (which rounding can reach), whatever the
    generator gives. *)
Theorem generate_data_shape (dates : list Timestamp) (g : Rng) :
  List.length dates = 24%nat ->
  exists data g',
    generate_data dates g = (Ok data, g')
    /\ len data = 96%nat
    /\ rectangular data
    /\ combine (Week data) (Region data)
       = flat_map (fun r => map (fun d => (Some d, r)) dates) regions
    /\ map fst (metrics data) = map fst metric_specs
    /\ forall name kind,
         In (name, kind) metric_specs ->
         exists column,
           lookup name (metrics data) = Some column
           /\ Forall (fun x : float64 =>
                        match kind with
                        | RandInt low high =>
                            exists v, x = Some (inject_Z v) /\ low <= v < high
                        | Uniform low high =>
                            exists q, x = Some q /\ (low <= q)%Q /\ (q <= high)%Q
                        end) column.
Proof.
  intros Hlen.
  destruct (generate_data_table dates g Hlen)
    as [data [g' [H1 [H2 [H3 [H4 [H5 H6]]]]]]].
  exists data, g'. repeat (split; [assumption|]).
  intros name kind Hin. destruct (H6 name kind Hin) as [column [Hcol Hall]].
  exists column. split; [exact Hcol|].
  eapply Forall_impl; [|exact Hall]. intros x Hx.
  destruct kind as [low high|low high]; simpl in Hx; [exact Hx|].
  destruct Hx as [q [Hq [Hlow Hhigh]]]. exists q.
  split; [exact Hq|]. split; [exact Hlow|]. now apply Qlt_le_weak.
Qed.

Lemma generate_data_shape_witness :
  exists data g',
    generate_data (date_range_W day_2023_01_01 24) (fun i => Z.of_nat i)
    = (Ok data, g')
    /\ len data = 96%nat.
Proof.
  destruct (generate_data_shape (date_range_W day_2023_01_01 24)
              (fun i => Z.of_nat i) (date_range_W_length _ _))
    as [data [g' [H1 [H2 _]]]].
  exists data, g'. split; [exact H1 | exact H2].
Defined.

(* ------------------------------------------------------------------ *)
(** ** Access to the departments and KPI targets *)

(** Case analysis on every comparison of strings in the goal. *)
Ltac string_cases :=
  repeat match goal with
         | |- context [String.eqb ?a ?b] =>
             destruct (String.eqb_spec a b); try subst; cbn [andb orb negb]
         end.

(** X10. A department is shown exactly when the section is one of the four
    departments and the role is "Admin" or the department's own role;
    every other pair of section and role gets the "no access" warning. The
    view that is shown is the one of the section. *)
Theorem view_for_access (section role : string) :
  (view_for section role <> NoAccess
   <-> In section section_options /\ (role = "Admin" \/ role = section))
  /\ (view_for section role = SalesView -> section = "Sales")
  /\ (view_for section role = HRView -> section = "HR")
  /\ (view_for section role = MarketingView -> section = "Marketing")
  /\ (view_for section role = ExecutiveView -> section = "Executive Office").
Proof.
  unfold view_for, role_in, section_options. cbn [existsb In].
  string_cases; repeat split; intros; try discriminate; try congruence;
    try tauto;
    try (exfalso;
         repeat match goal with
                | H : _ /\ _ |- _ => destruct H
                | H : _ \/ _ |- _ => destruct H
                end; congruence).
Qed.

Example view_for_admin_everywhere :
  map (fun section => view_for section "Admin") section_options
  = [SalesView; HRView; MarketingView; ExecutiveView].
Proof. reflexivity. Qed.

Example view_for_sales_role :
  map (fun section => view_for section "Sales") section_options
  = [SalesView; NoAccess; NoAccess; NoAccess].
Proof. reflexivity. Qed.

Lemma lookup_map_values {A B : Type} (f : string -> A -> B) (m : string)
    (l : list (string * A)) :
  lookup m (map (fun entry => (fst entry, f (fst entry) (snd entry))) l)
  = option_map (f m) (lookup m l).
Proof.
  induction l as [|[k v] rest IH]; simpl; [reflexivity|].
  destruct (String.eqb_spec m k); [now subst | exact IH].
Qed.

(** X11. Editing the KPI targets never adds, drops or reorders a target:
    the metrics with a target are the same before and after. Only the
    "Admin" role edits: for every other role the targets are unchanged, and
    for "Admin" each target becomes what its number input returns (so they
    are unchanged when every input returns the value it was given). *)
Theorem edit_targets_keeps_metrics (role : string)
    (number_input : string -> Z -> Z) (targets : list (string * Z)) :
  map fst (edit_targets role number_input targets) = map fst targets
  /\ (role <> "Admin" -> edit_targets role number_input targets = targets)
  /\ (role = "Admin" ->
      forall m,
        lookup m (edit_targets role number_input targets)
        = option_map (number_input ("Target - " ++ m)) (lookup m targets))
  /\ ((forall label v, number_input label v = v) ->
      edit_targets role number_input targets = targets).
Proof.
  unfold edit_targets. split; [|split; [|split]].
  - destruct (String.eqb role "Admin"); [|reflexivity].
    rewrite map_map. reflexivity.
  - intros H. apply String.eqb_neq in H. now rewrite H.
  - intros -> m. rewrite String.eqb_refl.
    apply (lookup_map_values (fun k v => number_input ("Target - " ++ k) v)).
  - intros Hid. destruct (String.eqb role "Admin"); [|reflexivity].
    induction targets as [|[k v] rest IH]; [reflexivity|].
    cbn [map fst snd]. rewrite Hid. f_equal. exact IH.
Qed.

Lemma edit_targets_keeps_metrics_witness :
  edit_targets "Sales" (fun _ v => v + 1) default_targets = default_targets.
Proof.
  apply (proj1 (proj2 (edit_targets_keeps_metrics "Sales" (fun _ v => v + 1)
                         default_targets))).
  discriminate.
Defined.

(* ------------------------------------------------------------------ *)
(** ** Metric cards and the department dashboards *)

Lemma lookup_In {A : Type} (m : string) (l : list (string * A)) (v : A) :
  lookup m l = Some v -> In (m, v) l.
Proof.
  induction l as [|[k w] rest IH]; simpl; [discriminate|].
  destruct (String.eqb_spec m k).
  - intros H. injection H as <-. subst. now left.
  - intros H. right. now apply IH.
Qed.

Lemma rectangular_column (data : Table) (m : string) (column : list float64) :
  rectangular data -> lookup m (metrics data) = Some column ->
  List.length column = len data.
Proof.
  intros [_ Hm] Hcol. apply lookup_In in Hcol.
  rewrite Forall_forall in Hm. exact (Hm _ Hcol).
Qed.

Lemma iloc_last (front : list float64) (x : float64) :
  iloc_from_end (front ++ [x]) 1 = Ok x.
Proof. unfold iloc_from_end. now rewrite rev_app_distr. Qed.

Lemma iloc_before_last (front : list float64) (x0 x : float64) :
  iloc_from_end (front ++ [x0; x]) 2 = Ok x0.
Proof.
  unfold iloc_from_end.
  replace (front ++ [x0; x])%list with ((front ++ [x0]) ++ [x])%list
    by now rewrite <- app_assoc.
  now rewrite !rev_app_distr.
Qed.

Lemma alert_of_values (current previous : float64) (alert : string) :
  alert_of current previous = Ok alert -> In alert alerts.
Proof.
  unfold alert_of, alerts.
  destruct (ratio_test_ok previous (fsub current previous) (fun r => fgt r (1 # 4)))
    as [spike [Hs _]].
  destruct (ratio_test_ok previous (fsub current previous)
              (fun r => flt r (- (1 # 4)))) as [drop [Hd _]].
  rewrite Hs. simpl. destruct spike.
  - intros H. injection H as <-. simpl. auto.
  - rewrite Hd. simpl. destruct drop; intros H; injection H as <-; simpl; auto.
Qed.

(** A card can be made when the column is there, has a number in its last
    row, and has a row before it when the table has more than one. *)
Lemma display_metric_ok (data : Table) (targets : list (string * Z)) (c : nat)
    (metric label : string) (front : list float64) (q : Q) :
  rectangular data ->
  lookup metric (metrics data) = Some (front ++ [Some q])%list ->
  exists alert value delta,
    display_metric_with_target data targets c metric label
    = Ok (MetricCard c (label ++ " " ++ alert) value delta)
    /\ In alert alerts.
Proof.
  intros Hrect Hcol.
  pose proof (rectangular_column data metric _ Hrect Hcol) as Hlen.
  unfold display_metric_with_target, getitem. rewrite Hcol. simpl rbind.
  rewrite iloc_last. simpl rbind.
  assert (Hprev : exists previous,
             previous_value data (front ++ [Some q]) (Some q) = Ok previous).
  { unfold previous_value. destruct (1 <? len data)%nat eqn:E; [|eauto].
    apply Nat.ltb_lt in E. rewrite length_app in Hlen. simpl in Hlen.
    destruct front as [|x0 front] using rev_ind; [simpl in Hlen; lia|].
    rewrite <- app_assoc. simpl. rewrite iloc_before_last. eauto. }
  destruct Hprev as [previous Hprev]. rewrite Hprev. simpl rbind.
  destruct (alert_of_ok (Some q) previous) as [alert [Ha _]].
  rewrite Ha. simpl rbind.
  pose proof (alert_of_values _ _ _ Ha) as Hin.
  destruct (lookup metric targets) as [target|]; simpl; eauto 6.
Qed.

Lemma display_metric_raises (data : Table) (targets : list (string * Z))
    (c : nat) (metric label : string) (e : Exception) :
  display_metric_with_target data targets c metric label = Raise e ->
  not_zero_division e.
Proof.
  unfold display_metric_with_target.
  destruct (getitem data metric) as [column|e1] eqn:Hg; simpl.
  2: { intros H. inversion H; subst. eapply getitem_raises; eauto. }
  destruct (iloc_from_end column 1) as [current|e1] eqn:Hc; simpl.
  2: { intros H. inversion H; subst. eapply iloc_raises; eauto. }
  destruct (previous_value data column current) as [previous|e1] eqn:Hp; simpl.
  2: { intros H. inversion H; subst. unfold previous_value in Hp.
       destruct (1 <? len data)%nat; [|discriminate].
       eapply iloc_raises; eauto. }
  destruct (alert_of_ok current previous) as [alert [Ha _]]. rewrite Ha. simpl.
  destruct (lookup metric targets) as [target|];
    destruct (py_int current) as [shown|e1] eqn:Hi; simpl; try discriminate;
    intros H; inversion H; subst; eapply py_int_raises; eauto.
Qed.

Lemma and_then_card (card : ui_event) (rest : Rendered) :
  and_then ([Shown card], Ok tt) rest = (Shown card :: fst rest, snd rest).
Proof. reflexivity. Qed.

(** X12. The loop over the metric cards puts the cards on the page one by
    one and stops at the first metric whose card raises: the cards before
    it are on the page, nothing after it is, and the exception is the one
    of that card. The loop ends normally exactly when every metric got its
    card; it never ends in a division by zero. *)
Theorem metric_cards_stop_at_first_failure (data : Table)
    (targets : list (string * Z)) (n i : nat) (items : list (string * string)) :
  let shown := fst (metric_cards data targets n i items) in
  let outcome := snd (metric_cards data targets n i items) in
  (List.length shown <= List.length items)%nat
  /\ (outcome = Ok tt <-> List.length shown = List.length items)
  /\ (forall k item card,
        nth_error shown k = Some item ->
        item = Shown card ->
        exists metric label,
          nth_error items k = Some (metric, label)
          /\ display_metric_with_target data targets ((i + k) mod n) metric label
             = Ok card)
  /\ (forall e,
        outcome = Raise e ->
        exc_type e <> "ZeroDivisionError"
        /\ exists metric label,
             nth_error items (List.length shown) = Some (metric, label)
             /\ display_metric_with_target data targets
                  ((i + List.length shown) mod n) metric label = Raise e).
Proof.
  revert i. induction items as [|[metric label] rest IH]; intros i;
    cbn [metric_cards].
  - simpl. repeat split; auto; try discriminate.
    intros k item card H. destruct k; discriminate.
  - destruct (display_metric_with_target data targets (i mod n) metric label)
      as [card|e] eqn:Hd.
    + rewrite and_then_card. cbn [fst snd].
      destruct (IH (S i)) as [Hle [Hok [Hcards Hraise]]]. cbn zeta in *.
      split; [simpl; lia|]. split; [|split].
      * rewrite Hok. simpl. split; intros H; lia.
      * intros k item card' Hk Hitem. destruct k as [|k]; simpl in Hk.
        -- injection Hk as <-. injection Hitem as <-.
           exists metric, label. rewrite Nat.add_0_r. auto.
        -- destruct (Hcards k item card' Hk Hitem) as [m' [l' [Hn Hd']]].
           exists m', l'. split; [exact Hn|].
           replace (i + S k)%nat with (S i + k)%nat by lia. exact Hd'.
      * intros e He. destruct (Hraise e He) as [Hz [m' [l' [Hn Hd']]]].
        split; [exact Hz|]. exists m', l'. simpl. split; [exact Hn|].
        replace (i + S (List.length (fst (metric_cards data targets n (S i) rest))))%nat
          with (S i + List.length (fst (metric_cards data targets n (S i) rest)))%nat
          by lia.
        exact Hd'.
    + cbn [fst snd]. split; [simpl; lia|]. split; [|split].
      * split; [discriminate | simpl; lia].
      * intros k item card H. destruct k; discriminate.
      * intros e' He'. injection He' as <-. split.
        -- exact (display_metric_raises _ _ _ _ _ _ Hd).
        -- exists metric, label. simpl. rewrite Nat.add_0_r. auto.
Qed.

Lemma metric_cards_ok (data : Table) (targets : list (string * Z)) (n i : nat)
    (items : list (string * string)) :
  rectangular data ->
  (forall metric label,
      In (metric, label) items ->
      exists front q, lookup metric (metrics data) = Some (front ++ [Some q])%list) ->
  exists cards,
    metric_cards data targets n i items = (map Shown cards, Ok tt)
    /\ map card_column cards
       = map (fun k => Some ((i + k) mod n)%nat) (seq 0 (List.length items))
    /\ Forall2 (fun item card =>
                  exists c alert value delta,
                    card = MetricCard c (snd item ++ " " ++ alert) value delta
                    /\ In alert alerts)
               items cards.
Proof.
  intros Hrect. revert i.
  induction items as [|[metric label] rest IH]; intros i Hcols.
  - exists []. simpl. auto.
  - destruct (Hcols metric label (or_introl eq_refl)) as [front [q Hcol]].
    destruct (display_metric_ok data targets (i mod n) metric label front q
                Hrect Hcol) as [alert [value [delta [Hd Hin]]]].
    destruct (IH (S i)) as [cards [Hm [Hc Hl]]].
    { intros m l H. apply (Hcols m l). now right. }
    exists (MetricCard (i mod n) (label ++ " " ++ alert) value delta :: cards).
    cbn [metric_cards]. rewrite Hd, and_then_card, Hm. cbn [fst snd map].
    split; [reflexivity|]. split.
    + cbn [card_column List.length seq map]. rewrite Nat.add_0_r. f_equal.
      rewrite Hc, <- seq_shift, map_map. apply map_ext. intros k.
      now replace (i + S k)%nat with (S i + k)%nat by lia.
    + constructor; [|exact Hl]. simpl. eauto 6.
Qed.

(** X13. On a table with one value per row in every column, where each of
    the fourteen sales metrics has a number in its last row, the Sales
    dashboard goes through: it shows its subheader, the eight lead cards in
    the columns 0, 1, 2, 3, 0, 1, 2, 3, the second subheader and the six lag
    cards in the columns 0, 1, 2, 0, 1, 2, each card labelled with its label
    and one of the three alerts. The Executive dashboard likewise shows its
    four cards in the columns 0, 1, 0, 1. *)
Theorem dashboards_render (section : string) (data : Table)
    (targets : list (string * Z)) :
  rectangular data ->
  let has_last_number (items : list (string * string)) :=
    forall metric label,
      In (metric, label) items ->
      exists front q, lookup metric (metrics data) = Some (front ++ [Some q])%list in
  let labelled (items : list (string * string)) (cards : list ui_event) :=
    Forall2 (fun item card =>
               exists c alert value delta,
                 card = MetricCard c (snd item ++ " " ++ alert) value delta
                 /\ In alert alerts) items cards in
  (has_last_number lead_sales -> has_last_number lag_sales ->
   exists lead lag,
     sales_dashboard section data targets
     = ((Subheader ("🟦 " ++ section ++ " Metrics") :: map Shown lead)
        ++ Subheader "🟩 Lag Indicators" :: map Shown lag, Ok tt)%list
     /\ map card_column lead = map Some [0; 1; 2; 3; 0; 1; 2; 3]%nat
     /\ map card_column lag = map Some [0; 1; 2; 0; 1; 2]%nat
     /\ labelled lead_sales lead /\ labelled lag_sales lag)
  /\ (has_last_number exec_metrics ->
      exists cards,
        executive_dashboard data targets
        = (Subheader "🟦 Executive KPIs" :: map Shown cards, Ok tt)
        /\ map card_column cards = map Some [0; 1; 0; 1]%nat
        /\ labelled exec_metrics cards).
Proof.
  intros Hrect has_last_number labelled. split.
  - intros Hlead Hlag.
    destruct (metric_cards_ok data targets 4 0 lead_sales Hrect Hlead)
      as [lead [H1 [Hc1 Hl1]]].
    destruct (metric_cards_ok data targets 3 0 lag_sales Hrect Hlag)
      as [lag [H2 [Hc2 Hl2]]].
    exists lead, lag. unfold sales_dashboard. rewrite H1, H2.
    split; [reflexivity|]. auto.
  - intros Hexec.
    destruct (metric_cards_ok data targets 2 0 exec_metrics Hrect Hexec)
      as [cards [H1 [Hc1 Hl1]]].
    exists cards. unfold executive_dashboard. rewrite H1.
    split; [reflexivity|]. auto.
Qed.

Lemma dashboards_render_witness :
  exists cards,
    executive_dashboard
      (mkTable [Some 7] ["North"]
         [("Strategic Projects", [Some 2%Q]); ("Weekly Objectives Met", [Some 3%Q]);
          ("Cross-team Meetings", [Some 4%Q]); ("Compliance Score", [Some 90%Q])])
      default_targets
    = (Subheader "🟦 Executive KPIs" :: map Shown cards, Ok tt)
    /\ map card_column cards = map Some [0; 1; 0; 1]%nat.
Proof.
  assert (Hrect : rectangular
            (mkTable [Some 7] ["North"]
               [("Strategic Projects", [Some 2%Q]); ("Weekly Objectives Met", [Some 3%Q]);
                ("Cross-team Meetings", [Some 4%Q]); ("Compliance Score", [Some 90%Q])])).
  { split; [reflexivity|]. repeat constructor. }
  destruct (proj2 (dashboards_render "Executive Office" _ default_targets Hrect))
    as [cards [H1 [H2 _]]].
  - intros metric label [H|[H|[H|[H|[]]]]]; injection H as <- <-;
      exists []; eexists; reflexivity.
  - exists cards. split; [exact H1 | exact H2].
Defined.

Lemma ratio_of_nothing (q : Q) : ~ (q == 0)%Q -> ((q - q) / q == 0)%Q.
Proof. intros H. field. exact H. Qed.

Lemma alert_of_same (x : float64) : alert_of x x = Ok "".
Proof.
  unfold alert_of, ratio_test, truthy, fdiv.
  destruct x as [q|]; simpl; [|reflexivity].
  destruct (Qeq_bool q 0) eqn:E; simpl; [reflexivity|].
  apply Qeq_bool_neq in E. pose proof (ratio_of_nothing q E) as H0.
  assert (H1 : ((q - q) / q ?= 1 # 4)%Q = Lt).
  { rewrite H0. reflexivity. }
  assert (H2 : ((q - q) / q ?= - (1 # 4))%Q = Gt).
  { rewrite H0. reflexivity. }
  unfold Qminus in *. now rewrite H1, H2.
Qed.

(** X14. With a single row of data no metric card carries an alert: the
    previous value is the current one, so whatever the value is (zero and
    NaN included) the label is the plain label. *)
Theorem single_row_has_no_alert (data : Table) (targets : list (string * Z))
    (c : nat) (metric label : string) (card : ui_event) :
  (len data <= 1)%nat ->
  display_metric_with_target data targets c metric label = Ok card ->
  exists value delta, card = MetricCard c (label ++ " ") value delta.
Proof.
  intros Hlen. unfold display_metric_with_target.
  destruct (getitem data metric) as [column|e]; simpl; [|discriminate].
  destruct (iloc_from_end column 1) as [current|e]; simpl; [|discriminate].
  unfold previous_value.
  replace (1 <? len data)%nat with false by (symmetry; apply Nat.ltb_ge; lia).
  simpl. rewrite alert_of_same. simpl.
  destruct (lookup metric targets) as [target|];
    destruct (py_int current) as [shown|e]; simpl; try discriminate;
    intros H; injection H as <-; eauto.
Qed.

Lemma single_row_has_no_alert_witness :
  exists value delta,
    MetricCard 0 "Leads " (OverTarget 55 40) (Some (Some (55 - inject_Z 40)%Q))
    = MetricCard 0 ("Leads" ++ " ") value delta.
Proof.
  apply (single_row_has_no_alert
           (mkTable [Some 7] ["North"] [("New Leads", [Some 55%Q])])
           [("New Leads", 40)] 0 "New Leads" "Leads").
  - unfold len. simpl. lia.
  - reflexivity.
Defined.

(* ------------------------------------------------------------------ *)
(** ** The alert of a metric card and the lines of the summary *)

Lemma ratio_above (c p t : Q) :
  (0 < p)%Q -> (t < (c - p) / p <-> (1 + t) * p < c)%Q.
Proof.
  intros Hp.
  assert (E : (c - p == (c - p) / p * p)%Q) by (field; lra).
  split; intros H.
  - assert (H' : (t * p < (c - p) / p * p)%Q) by (apply Qmult_lt_r; assumption).
    rewrite <- E in H'. lra.
  - apply Qlt_shift_div_l; [exact Hp | lra].
Qed.

Lemma ratio_below (c p t : Q) :
  (0 < p)%Q -> ((c - p) / p < t <-> c < (1 + t) * p)%Q.
Proof.
  intros Hp.
  assert (E : (c - p == (c - p) / p * p)%Q) by (field; lra).
  split; intros H.
  - assert (H' : ((c - p) / p * p < t * p)%Q) by (apply Qmult_lt_r; assumption).
    rewrite <- E in H'. lra.
  - apply Qlt_shift_div_r; [exact Hp | lra].
Qed.

Lemma ratio_mirror (c p : Q) :
  (p < 0)%Q -> ((c - p) / p == ((- c) - (- p)) / (- p))%Q.
Proof. intros Hp. field. lra. Qed.

Lemma fgt_spec (r t : Q) : fgt (Some r) t = true <-> (t < r)%Q.
Proof.
  unfold fgt. rewrite (Qgt_alt r t).
  destruct (r ?= t)%Q; split; intros H; try discriminate; reflexivity.
Qed.

Lemma flt_spec (r t : Q) : flt (Some r) t = true <-> (r < t)%Q.
Proof.
  unfold flt. rewrite (Qlt_alt r t).
  destruct (r ?= t)%Q; split; intros H; try discriminate; reflexivity.
Qed.

Lemma alert_of_numbers (c p : Q) :
  ~ (p == 0)%Q ->
  alert_of (Some c) (Some p)
  = Ok (if fgt (Some ((c - p) / p)%Q) (1 # 4) then "📍 Spike"
        else if flt (Some ((c - p) / p)%Q) (- (1 # 4)) then "⚠️ Drop"
        else "").
Proof.
  intros Hp. unfold alert_of, ratio_test, truthy, fdiv. simpl.
  replace (Qeq_bool p 0) with false
    by (symmetry; apply not_true_is_false; intros E; apply Qeq_bool_eq in E; tauto).
  simpl. destruct ((c - p) / p ?= 1 # 4)%Q;
    destruct ((c - p) / p ?= - (1 # 4))%Q; reflexivity.
Qed.

(** The alert over exact quotients. *)
Lemma alert_cases (c p : Q) :
  ((0 < p)%Q ->
   (alert_of (Some c) (Some p) = Ok "📍 Spike" <-> ((5 # 4) * p < c)%Q)
   /\ (alert_of (Some c) (Some p) = Ok "⚠️ Drop" <-> (c < (3 # 4) * p)%Q)
   /\ (alert_of (Some c) (Some p) = Ok ""
       <-> ((3 # 4) * p <= c)%Q /\ (c <= (5 # 4) * p)%Q))
  /\ ((p < 0)%Q ->
      (alert_of (Some c) (Some p) = Ok "📍 Spike" <-> (c < (5 # 4) * p)%Q)
      /\ (alert_of (Some c) (Some p) = Ok "⚠️ Drop" <-> ((3 # 4) * p < c)%Q)
      /\ (alert_of (Some c) (Some p) = Ok ""
          <-> ((5 # 4) * p <= c)%Q /\ (c <= (3 # 4) * p)%Q))
  /\ ((p == 0)%Q -> alert_of (Some c) (Some p) = Ok "").
Proof.
  split; [|split].
  - intros Hp. rewrite alert_of_numbers by lra.
    pose proof (fgt_spec ((c - p) / p) (1 # 4)) as Hg.
    pose proof (flt_spec ((c - p) / p) (- (1 # 4))) as Hl.
    rewrite (ratio_above c p (1 # 4) Hp) in Hg.
    rewrite (ratio_below c p (- (1 # 4)) Hp) in Hl.
    destruct (fgt (Some ((c - p) / p)%Q) (1 # 4)) eqn:Eg;
      destruct (flt (Some ((c - p) / p)%Q) (- (1 # 4))) eqn:El.
    + assert ((1 + (1 # 4)) * p < c)%Q by now apply Hg.
      assert (c < (1 + - (1 # 4)) * p)%Q by now apply Hl. lra.
    + assert ((1 + (1 # 4)) * p < c)%Q by now apply Hg.
      repeat split; intros; try discriminate; try reflexivity; try lra;
        try match goal with Hc : _ /\ _ |- _ => destruct Hc; lra end.
    + assert (c < (1 + - (1 # 4)) * p)%Q by now apply Hl.
      repeat split; intros; try discriminate; try reflexivity; try lra;
        try match goal with Hc : _ /\ _ |- _ => destruct Hc; lra end.
    + assert (~ ((1 + (1 # 4)) * p < c)%Q) by (rewrite <- Hg; discriminate).
      assert (~ (c < (1 + - (1 # 4)) * p)%Q) by (rewrite <- Hl; discriminate).
      repeat split; intros; try discriminate; try reflexivity; try lra.
  - intros Hp. rewrite alert_of_numbers by lra.
    pose proof (fgt_spec ((c - p) / p) (1 # 4)) as Hg.
    pose proof (flt_spec ((c - p) / p) (- (1 # 4))) as Hl.
    assert (Hp' : (0 < - p)%Q) by lra.
    assert (Hg' : ((1 # 4) < (c - p) / p <-> (1 + (1 # 4)) * - p < - c)%Q).
    { rewrite (ratio_mirror c p Hp). now apply ratio_above. }
    assert (Hl' : ((c - p) / p < - (1 # 4) <-> - c < (1 + - (1 # 4)) * - p)%Q).
    { rewrite (ratio_mirror c p Hp). now apply ratio_below. }
    rewrite Hg' in Hg. rewrite Hl' in Hl.
    destruct (fgt (Some ((c - p) / p)%Q) (1 # 4)) eqn:Eg;
      destruct (flt (Some ((c - p) / p)%Q) (- (1 # 4))) eqn:El.
    + assert ((1 + (1 # 4)) * - p < - c)%Q by now apply Hg.
      assert (- c < (1 + - (1 # 4)) * - p)%Q by now apply Hl. lra.
    + assert ((1 + (1 # 4)) * - p < - c)%Q by now apply Hg.
      repeat split; intros; try discriminate; try reflexivity; try lra;
        try match goal with Hc : _ /\ _ |- _ => destruct Hc; lra end.
    + assert (- c < (1 + - (1 # 4)) * - p)%Q by now apply Hl.
      repeat split; intros; try discriminate; try reflexivity; try lra;
        try match goal with Hc : _ /\ _ |- _ => destruct Hc; lra end.
    + assert (~ ((1 + (1 # 4)) * - p < - c)%Q) by (rewrite <- Hg; discriminate).
      assert (~ (- c < (1 + - (1 # 4)) * - p)%Q) by (rewrite <- Hl; discriminate).
      repeat split; intros; try discriminate; try reflexivity; try lra.
  - intros Hp. destruct (alert_of_ok (Some c) (Some p)) as [alert [Ha Hz]].
    rewrite Ha. f_equal. apply Hz. simpl. now apply Qeq_bool_iff.
Qed.

Lemma quotient_gap (c p : Z) :
  0 < p < 2 ^ 52 ->
  ((1 # 4 < (inject_Z c - inject_Z p) / inject_Z p ->
    (1 # 4) + (1 # 18014398509481984) < (inject_Z c - inject_Z p) / inject_Z p)
   /\ ((inject_Z c - inject_Z p) / inject_Z p < - (1 # 4) ->
       (inject_Z c - inject_Z p) / inject_Z p
       < - (1 # 4) - (1 # 18014398509481984)))%Q.
Proof.
  intros [Hp Hb].
  assert (HP : (0 < inject_Z p)%Q).
  { change 0%Q with (inject_Z 0). now rewrite <- Zlt_Qlt. }
  assert (HB : (inject_Z p < inject_Z (2 ^ 52))%Q) by now rewrite <- Zlt_Qlt.
  change (inject_Z (2 ^ 52)) with (4503599627370496 # 1)%Q in HB.
  split; intros H.
  - apply (ratio_above _ _ _ HP) in H. apply (ratio_above _ _ _ HP).
    assert (Hz : 5 * p + 1 <= 4 * c).
    { unfold Qlt, Qmult, Qplus, inject_Z in H. cbn [Qnum Qden] in H. lia. }
    rewrite Zle_Qle in Hz. rewrite inject_Z_plus, !inject_Z_mult in Hz.
    change (inject_Z 5) with 5%Q in Hz. change (inject_Z 1) with 1%Q in Hz.
    change (inject_Z 4) with 4%Q in Hz. lra.
  - apply (ratio_below _ _ _ HP) in H. apply (ratio_below _ _ _ HP).
    assert (Hz : 4 * c + 1 <= 3 * p).
    { unfold Qlt, Qmult, Qplus, Qopp, inject_Z in H. cbn [Qnum Qden] in H. lia. }
    rewrite Zle_Qle in Hz. rewrite inject_Z_plus, !inject_Z_mult in Hz.
    change (inject_Z 3) with 3%Q in Hz. change (inject_Z 1) with 1%Q in Hz.
    change (inject_Z 4) with 4%Q in Hz. lra.
Qed.

Lemma whole_thresholds (c p : Z) :
  (((5 # 4) * inject_Z p < inject_Z c)%Q <-> 5 * p < 4 * c)
  /\ ((inject_Z c < (5 # 4) * inject_Z p)%Q <-> 4 * c < 5 * p)
  /\ (((3 # 4) * inject_Z p < inject_Z c)%Q <-> 3 * p < 4 * c)
  /\ ((inject_Z c < (3 # 4) * inject_Z p)%Q <-> 4 * c < 3 * p)
  /\ (((5 # 4) * inject_Z p <= inject_Z c)%Q <-> 5 * p <= 4 * c)
  /\ ((inject_Z c <= (5 # 4) * inject_Z p)%Q <-> 4 * c <= 5 * p)
  /\ (((3 # 4) * inject_Z p <= inject_Z c)%Q <-> 3 * p <= 4 * c)
  /\ ((inject_Z c <= (3 # 4) * inject_Z p)%Q <-> 4 * c <= 3 * p).
Proof.
  unfold Qlt, Qle, Qmult, inject_Z. cbn [Qnum Qden]. repeat split; lia.
Qed.

(** X15. For two whole numbers of magnitude below 2^52 (the metric columns
    drawn by [randint] hold such numbers) and a positive previous value, a
    card says "Spike" exactly when the current value is more than 5/4 of
    the previous one and "Drop" exactly when it is less than 3/4 of it; at
    the bounds and between them there is no alert. For a negative previous
    value the two are the other way round: "Spike" when the current value
    is below 5/4 of the previous one, "Drop" when it is above 3/4 of it.
    For a previous value of zero there is no alert. A quotient on the far
    side of a threshold is away from it by more than 2^-54, the distance
    from 0.25 to the next float64: rounding the quotient, as line 248 does,
    cannot move it to the other side. *)
Theorem alert_thresholds (c p : Z) :
  Z.abs c < 2 ^ 52 ->
  Z.abs p < 2 ^ 52 ->
  let alert := alert_of (Some (inject_Z c)) (Some (inject_Z p)) in
  let ratio := ((inject_Z c - inject_Z p) / inject_Z p)%Q in
  (0 < p ->
   (alert = Ok "📍 Spike" <-> 5 * p < 4 * c)
   /\ (alert = Ok "⚠️ Drop" <-> 4 * c < 3 * p)
   /\ (alert = Ok "" <-> 3 * p <= 4 * c <= 5 * p))
  /\ (p < 0 ->
      (alert = Ok "📍 Spike" <-> 4 * c < 5 * p)
      /\ (alert = Ok "⚠️ Drop" <-> 3 * p < 4 * c)
      /\ (alert = Ok "" <-> 5 * p <= 4 * c <= 3 * p))
  /\ (p = 0 -> alert = Ok "")
  /\ (p <> 0 ->
      ((1 # 4 < ratio)%Q -> ((1 # 4) + (1 # 18014398509481984) < ratio)%Q)
      /\ ((ratio < - (1 # 4))%Q ->
          (ratio < - (1 # 4) - (1 # 18014398509481984))%Q)).
Proof.
  intros Hc Hp alert ratio.
  destruct (alert_cases (inject_Z c) (inject_Z p)) as [Hpos [Hneg Hzero]].
  destruct (whole_thresholds c p)
    as [W1 [W2 [W3 [W4 [W5 [W6 [W7 W8]]]]]]].
  split; [|split; [|split]].
  - intros H0.
    assert (HP : (0 < inject_Z p)%Q).
    { change 0%Q with (inject_Z 0). now rewrite <- Zlt_Qlt. }
    destruct (Hpos HP) as [Hs [Hd Hn]]. unfold alert.
    rewrite Hs, Hd, Hn, W1, W4, W7, W6. tauto.
  - intros H0.
    assert (HP : (inject_Z p < 0)%Q).
    { change 0%Q with (inject_Z 0). now rewrite <- Zlt_Qlt. }
    destruct (Hneg HP) as [Hs [Hd Hn]]. unfold alert.
    rewrite Hs, Hd, Hn, W2, W3, W5, W8. tauto.
  - intros ->. apply Hzero. reflexivity.
  - intros Hne. unfold ratio.
    destruct (Z_lt_ge_dec 0 p) as [H0|H0].
    + apply quotient_gap. lia.
    + assert (Hn : p < 0) by lia.
      assert (HP : (inject_Z p < 0)%Q).
      { change 0%Q with (inject_Z 0). now rewrite <- Zlt_Qlt. }
      rewrite (ratio_mirror _ _ HP), <- !inject_Z_opp.
      apply quotient_gap. lia.
Qed.

Lemma alert_thresholds_witness :
  alert_of (Some (inject_Z 26)) (Some (inject_Z 20)) = Ok "📍 Spike"
  /\ alert_of (Some (inject_Z 25)) (Some (inject_Z 20)) = Ok "".
Proof.
  split.
  - apply (proj1 (alert_thresholds 26 20 eq_refl eq_refl)); reflexivity.
  - apply (proj1 (alert_thresholds 25 20 eq_refl eq_refl)); [reflexivity|].
    split; discriminate.
Defined.







(* ------------------------------------------------------------------ *)
(** ** Head counts and rates of the HR dashboard *)

Lemma percent_of_spec (a b : nat) :
  exists r, percent_of a b = Ok r
            /\ (b = 0%nat -> r = 0%Q)
            /\ (b <> 0%nat ->
                (r == inject_Z (Z.of_nat a) / inject_Z (Z.of_nat b) * 100)%Q).
Proof.
  unfold percent_of, int_div. destruct (b =? 0)%nat eqn:E; simpl.
  - apply Nat.eqb_eq in E. exists 0%Q. repeat split; auto. intros; contradiction.
  - apply Nat.eqb_neq in E. eexists. split; [reflexivity|].
    split; [intros; contradiction | intros; reflexivity].
Qed.

Lemma share_bounds (a b : nat) :
  (a <= b)%nat -> b <> 0%nat ->
  (0 <= inject_Z (Z.of_nat a) / inject_Z (Z.of_nat b) * 100)%Q
  /\ (inject_Z (Z.of_nat a) / inject_Z (Z.of_nat b) * 100 <= 100)%Q.
Proof.
  intros Hab Hb.
  assert (Hbpos : (0 < inject_Z (Z.of_nat b))%Q).
  { change 0%Q with (inject_Z 0). rewrite <- Zlt_Qlt. lia. }
  assert (Ha0 : (0 <= inject_Z (Z.of_nat a))%Q).
  { change 0%Q with (inject_Z 0). rewrite <- Zle_Qle. lia. }
  assert (Hle : (inject_Z (Z.of_nat a) <= inject_Z (Z.of_nat b))%Q).
  { rewrite <- Zle_Qle. lia. }
  assert (H0 : (0 <= inject_Z (Z.of_nat a) / inject_Z (Z.of_nat b))%Q).
  { apply Qle_shift_div_l; [exact Hbpos | lra]. }
  assert (H1 : (inject_Z (Z.of_nat a) / inject_Z (Z.of_nat b) <= 1)%Q).
  { apply Qle_shift_div_r; [exact Hbpos | lra]. }
  split; lra.
Qed.

Lemma count_disjoint {A : Type} (p q : A -> bool) (l : list A) :
  (forall x, p x = true -> q x = false) ->
  (List.length (filter p l) + List.length (filter q l) <= List.length l)%nat.
Proof.
  intros Hpq. induction l as [|x l IH]; simpl; [lia|].
  destruct (p x) eqn:Ep.
  - rewrite (Hpq x Ep). simpl. lia.
  - destruct (q x); simpl; lia.
Qed.

Lemma count_le {A : Type} (p : A -> bool) (l : list A) :
  (List.length (filter p l) <= List.length l)%nat.
Proof. induction l as [|x l IH]; simpl; [lia|]. destruct (p x); simpl; lia. Qed.

Lemma hr_column_length (hr_data : DataFrame) (name : string)
    (column : list hr_cell) :
  has_n_rows (hr_len hr_data) hr_data ->
  lookup name hr_data = Some column ->
  List.length column = hr_len hr_data.
Proof.
  intros Hrows Hcol. apply lookup_In in Hcol.
  unfold has_n_rows in Hrows. rewrite Forall_forall in Hrows.
  exact (Hrows _ Hcol).
Qed.

(** X17. The head counts of the HR dashboard need the 'Status' column:
    without it the code raises [KeyError]. With it, on a frame with one
    value per row in every column, the employees counted as active or on
    leave and those counted as resigned are different rows (together at
    most all rows), the turnover rate is the share of resigned rows in
    percent, between 0 and 100, the retention rate is what is left to 100,
    and for a frame without rows the division is skipped and the
    turnover rate is 0. *)
Theorem hr_head_counts_bounds (hr_data : DataFrame) :
  has_n_rows (hr_len hr_data) hr_data ->
  (lookup "Status" hr_data = None ->
   hr_head_counts hr_data = Raise (KeyError "Status"))
  /\ (forall status,
        lookup "Status" hr_data = Some status ->
        exists counts,
          hr_head_counts hr_data = Ok counts
          /\ (total_employees counts + resigned_employees counts
              <= hr_len hr_data)%nat
          /\ (0 <= turnover_rate counts)%Q /\ (turnover_rate counts <= 100)%Q
          /\ (0 <= retention_rate counts)%Q /\ (retention_rate counts <= 100)%Q
          /\ (turnover_rate counts + retention_rate counts == 100)%Q
          /\ (hr_len hr_data = 0%nat -> turnover_rate counts = 0%Q)
          /\ (hr_len hr_data <> 0%nat ->
              (turnover_rate counts
               == inject_Z (Z.of_nat (resigned_employees counts))
                  / inject_Z (Z.of_nat (hr_len hr_data)) * 100)%Q)).
Proof.
  intros Hrows. split.
  - intros Hnone. unfold hr_head_counts, hr_getitem. now rewrite Hnone.
  - intros status Hcol.
    pose proof (hr_column_length hr_data "Status" status Hrows Hcol) as Hlen.
    unfold hr_head_counts, hr_getitem. rewrite Hcol. simpl rbind.
    set (total := count_rows (cell_isin ["Active"; "On Leave"]) status).
    set (resigned := count_rows (cell_is "Resigned") status).
    destruct (percent_of_spec resigned (hr_len hr_data)) as [r [Hr [Hr0 Hr1]]].
    rewrite Hr. simpl rbind. eexists. split; [reflexivity|].
    cbn [total_employees resigned_employees turnover_rate retention_rate].
    assert (Hsum : (total + resigned <= hr_len hr_data)%nat).
    { unfold total, resigned, count_rows. rewrite <- Hlen.
      apply count_disjoint. intros [t| |]; simpl; try discriminate.
      intros H. apply orb_true_iff in H. rewrite orb_false_r in H.
      destruct H as [H|H]; apply String.eqb_eq in H; subst; reflexivity. }
    assert (Hbounds : (0 <= r)%Q /\ (r <= 100)%Q).
    { destruct (Nat.eq_dec (hr_len hr_data) 0) as [E|E].
      - rewrite (Hr0 E). split; [lra | discriminate].
      - rewrite (Hr1 E). apply share_bounds; [lia | exact E]. }
    destruct Hbounds as [Hb0 Hb1].
    repeat split; auto; lra.
Qed.

Lemma hr_head_counts_bounds_witness :
  exists counts,
    hr_head_counts dummy_hr_data = Ok counts
    /\ (turnover_rate counts + retention_rate counts == 100)%Q.
Proof.
  destruct (proj2 (hr_head_counts_bounds dummy_hr_data
                     (proj2 dummy_hr_data_shape))
              (map Text ["Active"; "Active"; "On Leave"; "Resigned"]) eq_refl)
    as [counts [H1 [_ [_ [_ [_ [_ [H2 _]]]]]]]].
  exists counts. split; [exact H1 | exact H2].
Defined.

Example hr_head_counts_dummy :
  hr_head_counts dummy_hr_data
  = Ok (mkHeadCounts 3 1 (inject_Z 1 / inject_Z 4 * 100)%Q
                     (100 - inject_Z 1 / inject_Z 4 * 100)%Q).
Proof. reflexivity. Qed.

(** X18. The acceptance rate never divides by zero: it is 70 when the
    frame has no 'Application Status' column and 0 when no row is
    "Offered". Otherwise it is the number of "Accepted" rows over the number
    of "Offered" rows, in percent; the two counts are of different rows, so
    the rate is above 100 whenever more rows are "Accepted" than "Offered". *)
Theorem acceptance_rate_guarded (hr_data : DataFrame) :
  exists rate,
    acceptance_rate hr_data = Ok rate
    /\ (0 <= rate)%Q
    /\ (lookup "Application Status" hr_data = None -> rate = 70%Q)
    /\ (forall column,
          lookup "Application Status" hr_data = Some column ->
          let offers := count_rows (cell_is "Offered") column in
          let accepted := count_rows (cell_is "Accepted") column in
          (offers = 0%nat -> rate = 0%Q)
          /\ (offers <> 0%nat ->
              (rate == inject_Z (Z.of_nat accepted) / inject_Z (Z.of_nat offers) * 100)%Q)
          /\ ((0 < offers < accepted)%nat -> (100 < rate)%Q)).
Proof.
  unfold acceptance_rate.
  destruct (lookup "Application Status" hr_data) as [column|].
  - set (offers := count_rows (cell_is "Offered") column).
    set (accepted := count_rows (cell_is "Accepted") column).
    destruct (percent_of_spec accepted offers) as [r [Hr [Hr0 Hr1]]].
    exists r. split; [exact Hr|].
    assert (Hratio : offers <> 0%nat ->
              (0 < inject_Z (Z.of_nat offers))%Q
              /\ (0 <= inject_Z (Z.of_nat accepted))%Q).
    { intros E. split.
      - change 0%Q with (inject_Z 0). rewrite <- Zlt_Qlt. lia.
      - change 0%Q with (inject_Z 0). rewrite <- Zle_Qle. lia. }
    split; [|split; [discriminate|]].
    + destruct (Nat.eq_dec offers 0) as [E|E].
      * rewrite (Hr0 E). lra.
      * rewrite (Hr1 E). destruct (Hratio E) as [Ho Ha].
        assert (0 <= inject_Z (Z.of_nat accepted) / inject_Z (Z.of_nat offers))%Q
          by (apply Qle_shift_div_l; [exact Ho | lra]).
        lra.
    + intros column' Hc. injection Hc as <-. cbv zeta.
      fold offers. fold accepted. split; [exact Hr0|]. split; [exact Hr1|].
      intros [H0 Hlt]. rewrite Hr1 by lia.
      destruct (Hratio ltac:(lia)) as [Ho _].
      assert (inject_Z (Z.of_nat offers) < inject_Z (Z.of_nat accepted))%Q
        by (rewrite <- Zlt_Qlt; lia).
      assert (1 < inject_Z (Z.of_nat accepted) / inject_Z (Z.of_nat offers))%Q
        by (apply Qlt_shift_div_l; [exact Ho | lra]).
      lra.
  - exists 70%Q. repeat split; try discriminate.
Qed.

Example acceptance_rate_dummy :
  acceptance_rate dummy_hr_data = Ok (inject_Z 2 / inject_Z 1 * 100)%Q.
Proof. reflexivity. Qed.

(* ------------------------------------------------------------------ *)
(** ** The two model stores over a run and a rerun *)

Section Reruns.

Variable Model : Type.
Variable fit : Frame -> nat -> result Model.
Variable make_future_dataframe : Model -> Frame -> nat -> result Frame.
Variable predict : Model -> Frame -> result Forecast.
Variable format_exc : Exception -> string.
Variable parse_float : string -> float64.







End Reruns.


(* ------------------------------------------------------------------ *)
(** ** The dashboards on the generated data *)

Lemma apply_filters_rectangular (start_date end_date : Timestamp)
    (selected_region : string) (data : Table) :
  rectangular data ->
  rectangular (apply_filters start_date end_date selected_region data).
Proof.
  intros Hrect. unfold apply_filters, filter_by_region, filter_by_date.
  destruct (String.eqb selected_region "All");
    repeat apply select_rows_rectangular; exact Hrect.
Qed.

Lemma apply_filters_column (start_date end_date : Timestamp)
    (selected_region : string) (data : Table) (m : string)
    (column : list float64) :
  lookup m (metrics data) = Some column ->
  exists column',
    lookup m (metrics (apply_filters start_date end_date selected_region data))
    = Some column'
    /\ sublist column' column.
Proof.
  intros Hcol. unfold apply_filters, filter_by_region, filter_by_date.
  destruct (String.eqb selected_region "All").
  - rewrite lookup_select_rows, Hcol. eexists. split; [reflexivity|].
    apply select_sublist.
  - rewrite !lookup_select_rows, Hcol. eexists. split; [reflexivity|].
    eapply sublist_trans; apply select_sublist.
Qed.

Lemma in_range_number (kind : draw_kind) (x : float64) :
  in_range kind x -> exists q, x = Some q.
Proof.
  destruct kind; simpl; [intros [v [H _]] | intros [q [H _]]]; eauto.
Qed.

Lemma last_number (column : list float64) :
  column <> [] ->
  Forall (fun x => exists q, x = Some q) column ->
  exists front q, column = (front ++ [Some q])%list.
Proof.
  intros Hne Hall. destruct (exists_last Hne) as [front [x Hx]]. subst column.
  apply Forall_app in Hall. destruct Hall as [_ Hx]. inversion Hx; subst.
  destruct H1 as [q ->]. eauto.
Qed.

Lemma drawn_metric (items : list (string * string)) (metric label : string) :
  forallb (fun item => existsb (String.eqb (fst item)) (map fst metric_specs))
          items = true ->
  In (metric, label) items ->
  exists kind, In (metric, kind) metric_specs.
Proof.
  intros Hall Hin. rewrite forallb_forall in Hall. specialize (Hall _ Hin).
  apply existsb_exists in Hall. destruct Hall as [name [Hname Heq]].
  apply String.eqb_eq in Heq. simpl in Heq. subst name.
  apply in_map_iff in Hname. destruct Hname as [[name kind] [Hfst Hspec]].
  simpl in Hfst. subst name. eauto.
Qed.

Lemma first_card_raises (data : Table) (targets : list (string * Z)) (n i : nat)
    (metric label : string) (rest : list (string * string)) :
  lookup metric (metrics data) = Some [] ->
  metric_cards data targets n i ((metric, label) :: rest) = ([], Raise IndexError).
Proof.
  intros H. cbn [metric_cards].
  unfold display_metric_with_target, getitem. rewrite H. reflexivity.
Qed.

(** X20. On the table generated for 24 dates, whatever the generator gives
    and whatever the two sidebar filters select: when the filters keep at
    least one row, the Sales dashboard and the Executive dashboard go
    through, with all their metric cards; when they keep no row, each of the
    two shows its subheader and then raises [IndexError] at its first
    card. *)
Theorem dashboards_on_generated_data (dates : list Timestamp) (g : Rng)
    (start_date end_date : Timestamp) (selected_region section : string)
    (targets : list (string * Z)) :
  List.length dates = 24%nat ->
  exists data g',
    generate_data dates g = (Ok data, g')
    /\ (len (apply_filters start_date end_date selected_region data) <> 0%nat ->
        snd (sales_dashboard section
               (apply_filters start_date end_date selected_region data) targets)
        = Ok tt
        /\ List.length
             (cards_of (fst (sales_dashboard section
                (apply_filters start_date end_date selected_region data) targets)))
           = 14%nat
        /\ snd (executive_dashboard
                  (apply_filters start_date end_date selected_region data) targets)
           = Ok tt
        /\ List.length
             (cards_of (fst (executive_dashboard
                (apply_filters start_date end_date selected_region data) targets)))
           = 4%nat)
    /\ (len (apply_filters start_date end_date selected_region data) = 0%nat ->
        sales_dashboard section
          (apply_filters start_date end_date selected_region data) targets
        = ([Subheader ("🟦 " ++ section ++ " Metrics")], Raise IndexError)
        /\ executive_dashboard
             (apply_filters start_date end_date selected_region data) targets
           = ([Subheader "🟦 Executive KPIs"], Raise IndexError)).
Proof.
  intros Hlen.
  destruct (generate_data_table dates g Hlen)
    as [data [g' [Hgen [_ [Hrect [_ [_ Hcols]]]]]]].
  exists data, g'. split; [exact Hgen|].
  set (filtered := apply_filters start_date end_date selected_region data).
  assert (Hrect' : rectangular filtered)
    by now apply apply_filters_rectangular.
  assert (Hcolumn : forall (items : list (string * string)) (metric label : string),
             forallb (fun item => existsb (String.eqb (fst item))
                                          (map fst metric_specs)) items = true ->
             In (metric, label) items ->
             exists column,
               lookup metric (metrics filtered) = Some column
               /\ List.length column = len filtered
               /\ Forall (fun x => exists q, x = Some q) column).
  { intros items metric label Hall Hin.
    destruct (drawn_metric items metric label Hall Hin) as [kind Hkind].
    destruct (Hcols metric kind Hkind) as [column [Hcol Hrange]].
    destruct (apply_filters_column start_date end_date selected_region data
                metric column Hcol) as [column' [Hcol' Hsub]].
    exists column'. split; [exact Hcol'|]. split.
    - now apply rectangular_column with metric.
    - apply (sublist_Forall _ _ _ Hsub).
      eapply Forall_impl; [|exact Hrange]. intros x. apply in_range_number. }
  split.
  - intros Hrows.
    assert (Hlast : forall items : list (string * string),
               forallb (fun item => existsb (String.eqb (fst item))
                                            (map fst metric_specs)) items = true ->
               forall metric label,
                 In (metric, label) items ->
                 exists front q,
                   lookup metric (metrics filtered) = Some (front ++ [Some q])%list).
    { intros items Hall metric label Hin.
      destruct (Hcolumn items metric label Hall Hin) as [column [Hcol [Hl Hnum]]].
      destruct (last_number column) as [front [q ->]]; eauto.
      intros ->. simpl in Hl. congruence. }
    destruct (metric_cards_ok filtered targets 4 0 lead_sales Hrect'
                (Hlast lead_sales eq_refl)) as [lead [H1 [_ Hl1]]].
    destruct (metric_cards_ok filtered targets 3 0 lag_sales Hrect'
                (Hlast lag_sales eq_refl)) as [lag [H2 [_ Hl2]]].
    destruct (metric_cards_ok filtered targets 2 0 exec_metrics Hrect'
                (Hlast exec_metrics eq_refl)) as [cards [H3 [_ Hl3]]].
    assert (Hcards : forall items shown,
               Forall2 (fun (item : string * string) card =>
                          exists c alert value delta,
                            card = MetricCard c (snd item ++ " " ++ alert) value delta
                            /\ In alert alerts) items shown ->
               cards_of (map Shown shown) = shown).
    { intros items shown HF. induction HF as [|item card items shown Hc _ IH].
      - reflexivity.
      - destruct Hc as [c [alert [value [delta [-> _]]]]].
        unfold cards_of in *. cbn [map flat_map app]. now rewrite IH. }
    unfold sales_dashboard, executive_dashboard. rewrite H1, H2, H3.
    cbn [and_then fst snd app].
    repeat split.
    + unfold cards_of. cbn [flat_map app]. rewrite flat_map_app. cbn [flat_map app].
      fold (cards_of (map Shown lead)). fold (cards_of (map Shown lag)).
      rewrite (Hcards _ _ Hl1), (Hcards _ _ Hl2), length_app.
      rewrite <- (Forall2_length Hl1), <- (Forall2_length Hl2). reflexivity.
    + unfold cards_of. cbn [flat_map app]. fold (cards_of (map Shown cards)).
      rewrite (Hcards _ _ Hl3), <- (Forall2_length Hl3). reflexivity.
  - intros Hrows.
    assert (Hnone : forall (items : list (string * string)) (metric label : string),
               forallb (fun item => existsb (String.eqb (fst item))
                                            (map fst metric_specs)) items = true ->
               In (metric, label) items ->
               lookup metric (metrics filtered) = Some []).
    { intros items metric label Hall Hin.
      destruct (Hcolumn items metric label Hall Hin) as [column [Hcol [Hl _]]].
      rewrite Hrows in Hl. destruct column; [exact Hcol | discriminate]. }
    unfold sales_dashboard, executive_dashboard, lead_sales, exec_metrics.
    rewrite !first_card_raises.
    + split; reflexivity.
    + apply (Hnone exec_metrics _ "Strategic Projects Completed" eq_refl).
      now left.
    + apply (Hnone lead_sales _ "Number of New Leads/Prospects Added" eq_refl).
      now left.
Qed.

Lemma dashboards_on_generated_data_witness :
  exists data g',
    generate_data (date_range_W day_2023_01_01 24) (fun i => Z.of_nat i)
    = (Ok data, g')
    /\ sales_dashboard "Sales" (apply_filters 100 0 "All" data) []
       = ([Subheader ("🟦 " ++ "Sales" ++ " Metrics")], Raise IndexError).
Proof.
  destruct (dashboards_on_generated_data (date_range_W day_2023_01_01 24)
              (fun i => Z.of_nat i) 100 0 "All" "Sales" []
              (date_range_W_length _ _))
    as [data [g' [H1 [_ H2]]]].
  exists data, g'. split; [exact H1|].
  apply H2. unfold len. rewrite apply_filters_empty_window by lia. reflexivity.
Defined.

(* ------------------------------------------------------------------ *)
(** ** The series extractor over machine arithmetic (C7) *)

Lemma nansum_fold_right (values : list float64) :
  (nansum values
   == fold_right Qplus 0
        (map (fun v : float64 => match v with Some q => q | None => 0 end)
             values))%Q.
Proof.
  induction values as [|v values IH]; [reflexivity|].
  unfold nansum. simpl fold_left. rewrite fold_nanadd_shift, IH.
  simpl. destruct v; simpl; lra.
Qed.

Lemma nansum_cons (v : float64) (values : list float64) :
  (nansum (v :: values) == nanval v + nansum values)%Q.
Proof.
  unfold nansum. simpl fold_left. rewrite fold_nanadd_shift, nanadd_val.
  unfold nansum. lra.
Qed.

Lemma bucket_values_filter (k : Timestamp)
    (rows : list (option Timestamp * float64)) :
  bucket_values k rows
  = map snd (filter (fun row => match fst row with
                                | Some t => t =? k
                                | None => false
                                end) rows).
Proof. reflexivity. Qed.

Lemma groups_ds (n : nat) (groups : list (Timestamp * float64)) :
  map ds (map (fun ig : nat * (Timestamp * float64) =>
                 mkPoint (Z.of_nat (fst ig)) (Some (fst (snd ig)))
                         (Flt (snd (snd ig))))
              (combine (seq n (List.length groups)) groups))
  = map (fun g => Some (fst g)) groups.
Proof.
  revert n. induction groups as [|g rest IH]; intros n; simpl; [reflexivity|].
  f_equal. apply IH.
Qed.

Lemma groups_idx (n : nat) (groups : list (Timestamp * float64)) :
  map idx (map (fun ig : nat * (Timestamp * float64) =>
                  mkPoint (Z.of_nat (fst ig)) (Some (fst (snd ig)))
                          (Flt (snd (snd ig))))
               (combine (seq n (List.length groups)) groups))
  = map Z.of_nat (seq n (List.length groups)).
Proof.
  revert n. induction groups as [|g rest IH]; intros n; simpl; [reflexivity|].
  f_equal. apply IH.
Qed.

Lemma groups_rows (n : nat) (groups : list (Timestamp * float64)) (r : point) :
  In r (map (fun ig : nat * (Timestamp * float64) =>
               mkPoint (Z.of_nat (fst ig)) (Some (fst (snd ig)))
                       (Flt (snd (snd ig))))
            (combine (seq n (List.length groups)) groups)) ->
  exists k v, In (k, v) groups /\ ds r = Some k /\ y r = Flt v.
Proof.
  revert n. induction groups as [|[k v] rest IH]; intros n; simpl; [tauto|].
  intros [<-|H].
  - exists k, v. simpl. auto.
  - destruct (IH _ H) as [k' [v' [Hin Hr]]]. exists k', v'. auto.
Qed.

Lemma frame_of_groups_length (groups : list (Timestamp * float64)) :
  List.length (frame_of_groups groups) = List.length groups.
Proof.
  unfold frame_of_groups. rewrite length_map, length_combine, length_seq.
  apply Nat.min_id.
Qed.

(** What the extractor returns, for any sum of a group. *)
Lemma extracted_frame (group_sum : list float64 -> float64) (T : Table)
    (m : string) (column : list float64) :
  lookup m (metrics T) = Some column ->
  get_forecast_data_with group_sum T m
  = Ok (frame_of_groups (groupby_sum_with group_sum (combine (Week T) column)))
  /\ timestamps (frame_of_groups
                   (groupby_sum_with group_sum (combine (Week T) column)))
     = group_keys (map fst (combine (Week T) column))
  /\ map ds (frame_of_groups
               (groupby_sum_with group_sum (combine (Week T) column)))
     = map Some (group_keys (map fst (combine (Week T) column))).
Proof.
  intros Hcol. unfold get_forecast_data_with, groupby_getitem. rewrite Hcol.
  simpl rbind. split; [reflexivity|].
  assert (Hds : map ds (frame_of_groups
                          (groupby_sum_with group_sum (combine (Week T) column)))
                = map Some (group_keys (map fst (combine (Week T) column)))).
  { unfold frame_of_groups. rewrite groups_ds.
    unfold groupby_sum_with. rewrite map_map. reflexivity. }
  split; [|exact Hds]. now apply timestamps_of_ds.
Qed.

(** C7. For a table with the metric column, the extractor returns a frame
    with one row for each distinct non-null week of the table and no other:
    the rows are in strictly ascending order of [ds] (so no timestamp
    repeats), the index is 0, 1, 2, ..., and the value of a row is what
    pandas' sum returns for the metric values of exactly the table rows
    of that week, taken in row order. This holds whatever the sum of a
    group returns; when it is exact on the groups of the table, the value
    of a row is the sum of the metric over the rows of its week (NaN
    counting as nothing). *)
Theorem get_forecast_data_sorted_unique (group_sum : list float64 -> float64)
    (T : Table) (m : string) (column : list float64) :
  lookup m (metrics T) = Some column ->
  let bucket := fun k : Timestamp =>
    map snd (filter (fun row : option Timestamp * float64 =>
                       match fst row with
                       | Some t => t =? k
                       | None => false
                       end) (combine (Week T) column)) in
  let total := fun values : list float64 =>
    fold_right Qplus 0%Q
      (map (fun v : float64 => match v with Some q => q | None => 0%Q end)
           values) in
  exists fd : Frame,
    get_forecast_data_with group_sum T m = Ok fd
    /\ Forall has_timestamp fd
    /\ strictly_ascending fd
    /\ NoDup (map ds fd)
    /\ (forall k, In (Some k) (map ds fd)
                  <-> In (Some k) (map fst (combine (Week T) column)))
    /\ (forall r, In r fd ->
          exists k, ds r = Some k /\ y r = Flt (group_sum (bucket k)))
    /\ map idx fd = map Z.of_nat (seq 0 (List.length fd))
    /\ ((forall k, In (Some k) (map fst (combine (Week T) column)) ->
                   exists q, group_sum (bucket k) = Some q
                             /\ (q == total (bucket k))%Q) ->
        forall r, In r fd ->
          exists k q, ds r = Some k /\ y r = Flt (Some q)
                      /\ (q == total (bucket k))%Q).
Proof.
  intros Hcol bucket total.
  destruct (extracted_frame group_sum T m column Hcol) as [Hget [Hts Hds]].
  set (rows := combine (Week T) column) in *.
  set (fd := frame_of_groups (groupby_sum_with group_sum rows)) in *.
  assert (Hrows : forall r, In r fd ->
             exists k, ds r = Some k /\ y r = Flt (group_sum (bucket k))).
  { intros r Hr. unfold fd, frame_of_groups in Hr.
    destruct (groups_rows _ _ _ Hr) as [k [v [Hin [Hk Hy]]]].
    exists k. split; [exact Hk|]. rewrite Hy.
    unfold groupby_sum_with in Hin. apply in_map_iff in Hin.
    destruct Hin as [k' [Heq _]]. injection Heq as -> <-.
    now rewrite bucket_values_filter. }
  assert (Hkeys : forall k, In (Some k) (map ds fd) <-> In (Some k) (map fst rows)).
  { intros k. rewrite Hds. split.
    - intros H. apply in_map_iff in H. destruct H as [k' [Hk' Hin]].
      injection Hk' as ->. now apply group_keys_In.
    - intros H. apply in_map. now apply group_keys_In. }
  exists fd. split; [exact Hget|]. split; [|split; [|split; [|split; [|split; [|split]]]]].
  - apply Forall_forall. intros r Hr. destruct (Hrows r Hr) as [k [Hk _]].
    unfold has_timestamp. rewrite Hk. discriminate.
  - unfold strictly_ascending. rewrite Hts. apply group_keys_sorted.
  - rewrite Hds. apply NoDup_map_Some, StronglySorted_lt_NoDup, group_keys_sorted.
  - exact Hkeys.
  - exact Hrows.
  - unfold fd, frame_of_groups. rewrite groups_idx.
    fold (frame_of_groups (groupby_sum_with group_sum rows)).
    now rewrite frame_of_groups_length.
  - intros Hexact r Hr. destruct (Hrows r Hr) as [k [Hk Hy]].
    destruct (Hexact k) as [q [Hq Hsum]].
    { apply Hkeys. rewrite <- Hk. now apply in_map. }
    exists k, q. rewrite Hy, Hq. auto.
Qed.

(** Two regions over two weeks, the later week first, with exact sums: one
    row per week, the earlier week first, each with the sum over both
    regions. *)
Lemma get_forecast_data_sorted_unique_witness :
  exists fd : Frame,
    get_forecast_data_with exact_sum
      (mkTable [Some 14; Some 7; Some 14; Some 7] ["North"; "North"; "South"; "South"]
               [("New Leads", [Some 20%Q; Some 30%Q; Some 5%Q; Some 1%Q])])
      "New Leads" = Ok fd
    /\ strictly_ascending fd
    /\ forall r, In r fd ->
         exists k q, ds r = Some k /\ y r = Flt (Some q)
                     /\ (k = 7 /\ (q == 31)%Q \/ k = 14 /\ (q == 25)%Q).
Proof.
  destruct (get_forecast_data_sorted_unique exact_sum
              (mkTable [Some 14; Some 7; Some 14; Some 7]
                       ["North"; "North"; "South"; "South"]
                       [("New Leads", [Some 20%Q; Some 30%Q; Some 5%Q; Some 1%Q])])
              "New Leads" [Some 20%Q; Some 30%Q; Some 5%Q; Some 1%Q] eq_refl)
    as [fd [H1 [_ [H2 [_ [Hkeys [_ [_ Hsum]]]]]]]].
  exists fd. split; [exact H1|]. split; [exact H2|].
  intros r Hr.
  destruct (Hsum (fun k _ => ex_intro _ _ (conj eq_refl (nansum_fold_right _)))
                 r Hr) as [k [q [Hk [Hy Hq]]]].
  exists k, q. split; [exact Hk|]. split; [exact Hy|].
  assert (Hin : In (Some k) (map ds fd)) by (rewrite <- Hk; now apply in_map).
  apply Hkeys in Hin. simpl in Hin.
  destruct Hin as [E|[E|[E|[E|[]]]]]; injection E as <-;
    [right | left | right | left]; (split; [reflexivity|]);
    rewrite Hq; reflexivity.
Defined.

(** The extractor over exact sums is the extractor of the sections before. *)
Lemma get_forecast_data_exact (T : Table) (m : string) :
  get_forecast_data T m = get_forecast_data_with exact_sum T m.
Proof.
  unfold get_forecast_data, get_forecast_data_with.
  destruct (groupby_getitem T m) as [column|e]; [|reflexivity].
  simpl rbind. f_equal.
  unfold reset_index, numbered, frame_of_groups, groupby_sum, groupby_sum_with.
  rewrite !length_map.
  generalize (group_keys (map fst (combine (Week T) column))) as keys.
  intros keys. generalize 0%nat as n. 
  induction keys as [|k keys IH]; intros n; simpl; [reflexivity|].
  f_equal. apply IH.
Qed.

(** X4. Grouping counts every row with a week once: when the sum of each
    group is exact (as it is for whole numbers whose sums stay below 2^53
    in absolute value, in int64 and in float64 alike), the values of the
    series the extractor returns add up to the sum of the metric over the
    rows of the table that have a week (a NaN counts as nothing, a row
    without week is left out). *)
Theorem get_forecast_data_keeps_total (group_sum : list float64 -> float64)
    (T : Table) (m : string) (column : list float64) :
  lookup m (metrics T) = Some column ->
  let value := fun v : float64 => match v with Some q => q | None => 0%Q end in
  let total := fun values : list float64 =>
    fold_right Qplus 0%Q (map value values) in
  (forall k,
      In (Some k) (Week T) ->
      exists q,
        group_sum (map snd (filter (fun row : option Timestamp * float64 =>
                                      match fst row with
                                      | Some t => t =? k
                                      | None => false
                                      end) (combine (Week T) column)))
        = Some q
        /\ (q == total (map snd (filter (fun row : option Timestamp * float64 =>
                                           match fst row with
                                           | Some t => t =? k
                                           | None => false
                                           end) (combine (Week T) column))))%Q) ->
  exists fd : Frame,
    get_forecast_data_with group_sum T m = Ok fd
    /\ (total (map y_float fd)
        == total (map snd (filter (fun row : option Timestamp * float64 =>
                                     match fst row with
                                     | Some _ => true
                                     | None => false
                                     end) (combine (Week T) column))))%Q.
Proof.
  intros Hcol value total Hexact.
  destruct (extracted_frame group_sum T m column Hcol) as [Hget _].
  eexists. split; [exact Hget|].
  set (rows := combine (Week T) column) in *.
  assert (Htotal : forall vs, (total vs == nansum vs)%Q).
  { intros vs. symmetry. apply nansum_fold_right. }
  rewrite !Htotal.
  assert (Hdated : filter (fun row : option Timestamp * float64 =>
                             match fst row with
                             | Some _ => true
                             | None => false
                             end) rows = dated_rows rows).
  { unfold dated_rows. apply filter_ext. intros [[t|] v]; reflexivity. }
  rewrite Hdated, <- groupby_sum_total.
  unfold frame_of_groups, groupby_sum_with. rewrite length_map.
  assert (Hkeys : forall k, In k (group_keys (map fst rows)) ->
             exists q,
               group_sum (bucket_values k rows) = Some q
               /\ (q == nansum (bucket_values k rows))%Q).
  { intros k Hk. apply group_keys_In in Hk.
    destruct (Hexact k) as [q [Hq Hs]].
    { apply in_map_iff in Hk. destruct Hk as [[w v] [Hw Hin]].
      simpl in Hw. subst w. unfold rows in Hin.
      now apply in_combine_l in Hin. }
    exists q. rewrite bucket_values_filter. split; [exact Hq|].
    now rewrite Hs, Htotal. }
  revert Hkeys.
  generalize (group_keys (map fst rows)) as keys. intros keys Hkeys.
  generalize 0%nat as n.
  induction keys as [|k keys IH]; intros n; [reflexivity|].
  simpl map. simpl List.length. simpl seq. simpl combine. simpl map.
  destruct (Hkeys k (or_introl eq_refl)) as [q [Hq Hs]].
  specialize (IH (fun k' Hk' => Hkeys k' (or_intror Hk'))).
  unfold y_float at 1. simpl y. rewrite Hq.
  rewrite !nansum_cons, (IH (S n)). simpl nanval. lra.
Qed.

Lemma get_forecast_data_keeps_total_witness :
  exists fd : Frame,
    get_forecast_data_with exact_sum
      (mkTable [Some 14; Some 7; None; Some 7] ["North"; "North"; "South"; "South"]
               [("New Leads", [Some 20%Q; Some 30%Q; Some 5%Q; NaN])])
      "New Leads" = Ok fd
    /\ (fold_right Qplus 0
          (map (fun v : float64 => match v with Some q => q | None => 0 end)
               (map y_float fd)) == 50)%Q.
Proof.
  destruct (get_forecast_data_keeps_total exact_sum
              (mkTable [Some 14; Some 7; None; Some 7]
                       ["North"; "North"; "South"; "South"]
                       [("New Leads", [Some 20%Q; Some 30%Q; Some 5%Q; NaN])])
              "New Leads" [Some 20%Q; Some 30%Q; Some 5%Q; NaN] eq_refl
              (fun k _ => ex_intro _ _ (conj eq_refl (nansum_fold_right _))))
    as [fd [H1 H2]].
  exists fd. split; [exact H1|]. rewrite H2. reflexivity.
Defined.

(* ------------------------------------------------------------------ *)
(** ** The sanitising step over machine arithmetic (C4) *)

Section SanitizerFacts.

Variable to_float64 : Q -> Q.
Variable parse_float : string -> float64.

Let clean := sanitize_with to_float64 parse_float.

Lemma dropna_filter (fd : Frame) :
  dropna fd
  = filter (fun r : point => match ds r, y r with
                             | Some _, Flt None => false
                             | Some _, _ => true
                             | None, _ => false
                             end) fd.
Proof.
  unfold dropna. apply filter_ext. intros r.
  destruct (ds r); [|reflexivity]. destruct (y r) as [[q|]|s]; reflexivity.
Qed.

Lemma coerce_y_with_number (r : point) :
  coerce_y_with to_float64 parse_float r
  = mkPoint (idx r) (ds r)
      (Flt (Some (to_float64
                    match y r with
                    | Flt (Some q) => q
                    | Flt None => 0%Q
                    | Str s => match parse_float s with
                               | Some q => q
                               | None => 0%Q
                               end
                    end))).
Proof.
  unfold coerce_y_with. destruct (y r) as [[q|]|s]; reflexivity.
Qed.

Lemma timestamps_coerce_with (fd : Frame) :
  timestamps (map (coerce_y_with to_float64 parse_float) fd) = timestamps fd.
Proof.
  induction fd as [|r rest IH]; simpl; [reflexivity|]. now rewrite IH.
Qed.

Lemma sanitize_with_timestamps (fd : Frame) :
  sublist (timestamps (clean fd)) (timestamps fd).
Proof.
  unfold clean, sanitize_with. rewrite timestamps_coerce_with.
  apply timestamps_dropna.
Qed.

Lemma sanitize_with_id (fd : Frame) :
  Forall (fun r => ds r <> None
                   /\ exists q, y r = Flt (Some q) /\ to_float64 q = q) fd ->
  clean fd = fd.
Proof.
  intros H. unfold clean, sanitize_with. rewrite dropna_id_on_clean.
  - rewrite <- (map_id fd) at 2. apply map_ext_in. intros r Hr.
    rewrite Forall_forall in H. destruct (H r Hr) as [_ [q [Hy Hq]]].
    rewrite coerce_y_with_number, Hy, Hq. destruct r; simpl in *. now subst.
  - eapply Forall_impl; [|exact H]. intros r [Hd [q [Hy _]]].
    split; [exact Hd|]. now rewrite Hy.
Qed.

End SanitizerFacts.

Lemma debug_frame_timestamps (g : Rng) :
  timestamps (fst (debug_frame g))
  = map (fun i => day_2023_01_01 + 7 * microseconds_per_day * Z.of_nat i)
        (seq 0 24).
Proof.
  apply timestamps_of_ds. unfold debug_frame.
  destruct (randint 1000 5000 24 g) as [ys g'] eqn:E. simpl fst.
  unfold frame_of_columns. rewrite frame_of_columns_ds_from.
  - reflexivity.
  - rewrite date_range_W_length.
    replace ys with (fst (randint 1000 5000 24 g)) by now rewrite E.
    now rewrite randint_length.
Qed.

Lemma debug_frame_ascending (g : Rng) : strictly_ascending (fst (debug_frame g)).
Proof.
  unfold strictly_ascending. rewrite debug_frame_timestamps.
  vm_compute. repeat constructor.
Qed.

(** Every frame lines 626-632 hand to the sanitising step is in strictly
    ascending order of [ds]. *)
Lemma loaded_frame_ascending (group_sum : list float64 -> float64)
    (Model : Type) (data : Table) (metric : string) (s s1 : Session Model)
    (raw : Frame) :
  load_forecast_data_with group_sum Model data metric s = (Done raw, s1) ->
  strictly_ascending raw.
Proof.
  unfold load_forecast_data_with.
  destruct (String.eqb metric "DEBUG").
  - unfold np_random. destruct (debug_frame (rng s)) as [fd g'] eqn:E.
    intros H. injection H as <- _.
    replace fd with (fst (debug_frame (rng s))) by now rewrite E.
    apply debug_frame_ascending.
  - unfold lift.
    destruct (get_forecast_data_with group_sum data metric) as [fd|e] eqn:Hg;
      [|discriminate].
    intros H. injection H as <- _.
    unfold get_forecast_data_with, groupby_getitem in Hg.
    destruct (lookup metric (metrics data)) as [column|] eqn:Hcol;
      [|discriminate].
    destruct (extracted_frame group_sum data metric column Hcol) as [Hget [Hts _]].
    simpl rbind in Hg. injection Hg as <-.
    unfold strictly_ascending. rewrite Hts. apply group_keys_sorted.
Qed.

(** C4. The output of the sanitising step has no null timestamp and no
    null value. It holds exactly the rows of its input that have a
    timestamp and a value, in their order and with their index labels, each
    with its value converted to float: a number is converted as
    [astype(float)] converts it, a string as it parses, and a string that
    does not parse counts as 0 (so it comes out as 0.0, the conversion of 0
    being exact). The step itself does not sort: it keeps the order of its
    input. The frames it is given (the DEBUG series or the extractor's
    output, lines 626-632) are in strictly ascending order of timestamp, so
    its output always is, without a repeated timestamp. *)
Theorem sanitize_output_clean (group_sum : list float64 -> float64)
    (to_float64 : Q -> Q) (parse_float : string -> float64) :
  (forall S : Frame,
      let complete := fun r : point =>
        match ds r, y r with
        | Some _, Flt None => false
        | Some _, _ => true
        | None, _ => false
        end in
      let number := fun c : cell =>
        match c with
        | Flt (Some q) => q
        | Flt None => 0%Q
        | Str s => match parse_float s with
                   | Some q => q
                   | None => 0%Q
                   end
        end in
      Forall has_timestamp (sanitize_with to_float64 parse_float S)
      /\ Forall has_value (sanitize_with to_float64 parse_float S)
      /\ sanitize_with to_float64 parse_float S
         = map (fun r => mkPoint (idx r) (ds r)
                                 (Flt (Some (to_float64 (number (y r))))))
               (filter complete S)
      /\ (forall r, In r S -> ds r <> None -> y r <> Flt NaN ->
            In (mkPoint (idx r) (ds r) (Flt (Some (to_float64 (number (y r))))))
               (sanitize_with to_float64 parse_float S))
      /\ (forall r s, In r S -> ds r <> None -> y r = Str s ->
            parse_float s = NaN -> to_float64 0%Q = 0%Q ->
            In (mkPoint (idx r) (ds r) (Flt (Some 0%Q)))
               (sanitize_with to_float64 parse_float S))
      /\ (ascending S -> ascending (sanitize_with to_float64 parse_float S)))
  /\ (forall (Model : Type) (data : Table) (metric : string)
             (s s1 : Session Model) (raw : Frame),
        load_forecast_data_with group_sum Model data metric s = (Done raw, s1) ->
        strictly_ascending (sanitize_with to_float64 parse_float raw)
        /\ ascending (sanitize_with to_float64 parse_float raw)).
Proof.
  split.
  - intros S complete number.
    assert (Heq : sanitize_with to_float64 parse_float S
                  = map (fun r => mkPoint (idx r) (ds r)
                                    (Flt (Some (to_float64 (number (y r))))))
                        (filter complete S)).
    { unfold sanitize_with. rewrite dropna_filter. apply map_ext.
      intros r. apply coerce_y_with_number. }
    assert (Hin : forall r, In r S -> ds r <> None -> y r <> Flt NaN ->
              In (mkPoint (idx r) (ds r) (Flt (Some (to_float64 (number (y r))))))
                 (sanitize_with to_float64 parse_float S)).
    { intros r Hr Hd Hy. rewrite Heq. apply in_map_iff. exists r.
      split; [reflexivity|]. apply filter_In. split; [exact Hr|].
      unfold complete. destruct (ds r); [|contradiction].
      destruct (y r) as [[q|]|s]; [reflexivity | contradiction | reflexivity]. }
    split; [|split; [|split; [exact Heq|split; [exact Hin|split]]]].
    + rewrite Heq. apply Forall_map, Forall_forall. intros r Hr.
      apply filter_In in Hr. destruct Hr as [_ Hr]. unfold has_timestamp.
      simpl. unfold complete in Hr. destruct (ds r); [discriminate|discriminate Hr].
    + rewrite Heq. apply Forall_map, Forall_forall. intros r _.
      unfold has_value. simpl. eauto.
    + intros r s Hr Hd Hy Hp H0.
      specialize (Hin r Hr Hd). rewrite Hy in Hin. unfold number in Hin.
      rewrite Hp in Hin. unfold NaN in Hin. cbv beta iota in Hin.
      rewrite H0 in Hin. apply Hin. discriminate.
    + intros Hs. unfold ascending in *.
      eapply StronglySorted_sublist; [apply sanitize_with_timestamps | exact Hs].
  - intros Model data metric s s1 raw Hl.
    pose proof (loaded_frame_ascending group_sum Model data metric s s1 raw Hl)
      as Hraw.
    assert (Hout : strictly_ascending (sanitize_with to_float64 parse_float raw)).
    { unfold strictly_ascending in *.
      eapply StronglySorted_sublist; [apply sanitize_with_timestamps | exact Hraw]. }
    split; [exact Hout|].
    unfold ascending, strictly_ascending in *.
    revert Hout. generalize (timestamps (sanitize_with to_float64 parse_float raw)).
    induction 1 as [|a l Hs IH Hall]; constructor; [exact IH|].
    eapply Forall_impl; [|exact Hall]. intros b Hb. lia.
Qed.

(** The sanitising step over an exact conversion is the step of the
    sections before. *)
Lemma sanitize_exact (parse_float : string -> float64) (fd : Frame) :
  sanitize parse_float fd = sanitize_with (fun q => q) parse_float fd.
Proof.
  unfold sanitize, sanitize_with. apply map_ext. intros r.
  unfold coerce_y, coerce_y_with.
  destruct (to_numeric parse_float (y r)); reflexivity.
Qed.

(** X1. A series without a null timestamp whose values are numbers that
    [astype(float)] leaves as they are (every float64, and every integer
    that a float64 holds) goes through the sanitising step unchanged: same
    rows, order, index labels and values. *)
Theorem sanitize_fixes_clean_frames (to_float64 : Q -> Q)
    (parse_float : string -> float64) (S : Frame) :
  Forall (fun r => ds r <> None
                   /\ exists q, y r = Flt (Some q) /\ to_float64 q = q) S ->
  sanitize_with to_float64 parse_float S = S.
Proof. apply sanitize_with_id. Qed.

Lemma sanitize_fixes_clean_frames_witness :
  sanitize_with (fun q => q) (fun _ => NaN)
    [mkPoint 0 (Some 7) (Flt (Some 3%Q)); mkPoint 1 (Some 14) (Flt (Some 0%Q))]
  = [mkPoint 0 (Some 7) (Flt (Some 3%Q)); mkPoint 1 (Some 14) (Flt (Some 0%Q))].
Proof.
  apply sanitize_fixes_clean_frames.
  repeat constructor; simpl; try discriminate; eauto.
Defined.

(** X7. The sanitising step drops no row of a series that comes from the
    extractor, as long as every sum of a group is a number: the rows keep
    their order, index labels and timestamps, and each value is the
    conversion to float of the group's sum. Where that conversion changes
    no sum (float64 sums, and int64 sums that a float64 holds), the series
    comes out as it went in. *)
Theorem sanitize_keeps_extracted_series (group_sum : list float64 -> float64)
    (to_float64 : Q -> Q) (parse_float : string -> float64) (T : Table)
    (m : string) (fd : Frame) :
  get_forecast_data_with group_sum T m = Ok fd ->
  Forall (fun r => y r <> Flt NaN) fd ->
  map idx (sanitize_with to_float64 parse_float fd) = map idx fd
  /\ map ds (sanitize_with to_float64 parse_float fd) = map ds fd
  /\ Forall2 (fun r r' => exists q, y r = Flt (Some q)
                                    /\ y r' = Flt (Some (to_float64 q)))
             fd (sanitize_with to_float64 parse_float fd)
  /\ ((forall r q, In r fd -> y r = Flt (Some q) -> to_float64 q = q) ->
      sanitize_with to_float64 parse_float fd = fd).
Proof.
  intros Hg Hnum.
  assert (Hrows : Forall (fun r => ds r <> None /\ exists q, y r = Flt (Some q)) fd).
  { unfold get_forecast_data_with in Hg.
    destruct (groupby_getitem T m) as [column|e]; [|discriminate].
    simpl rbind in Hg. injection Hg as <-.
    apply Forall_forall. intros r Hr.
    rewrite Forall_forall in Hnum. specialize (Hnum r Hr).
    unfold frame_of_groups in Hr.
    destruct (groups_rows _ _ _ Hr) as [k [v [_ [Hk Hy]]]].
    split; [rewrite Hk; discriminate|].
    rewrite Hy in *. destruct v as [q|]; [eauto | contradiction]. }
  assert (Hdrop : dropna fd = fd).
  { apply dropna_id_on_clean. eapply Forall_impl; [|exact Hrows].
    intros r [Hd [q Hy]]. split; [exact Hd|]. now rewrite Hy. }
  unfold sanitize_with. rewrite Hdrop. rewrite !map_map.
  split; [reflexivity|]. split; [reflexivity|]. split.
  - clear Hdrop Hnum Hg. induction Hrows as [|r rest [_ [q Hy]] _ IH]; simpl;
      constructor; [|exact IH].
    exists q. split; [exact Hy|]. rewrite coerce_y_with_number, Hy. reflexivity.
  - intros Hexact. rewrite <- (map_id fd) at 2. apply map_ext_in.
    intros r Hr. rewrite Forall_forall in Hrows.
    destruct (Hrows r Hr) as [_ [q Hy]].
    rewrite coerce_y_with_number, Hy, (Hexact r q Hr Hy).
    destruct r; simpl in *. now subst.
Qed.

Lemma sanitize_keeps_extracted_series_witness :
  exists fd,
    get_forecast_data_with exact_sum
      (mkTable [Some 14; Some 7; None] ["North"; "North"; "South"]
               [("New Leads", [Some 20%Q; Some 30%Q; NaN])])
      "New Leads" = Ok fd
    /\ map ds (sanitize_with (fun q => q) (fun _ => NaN) fd) = [Some 7; Some 14].
Proof.
  eexists. split; [reflexivity|].
  apply (proj1 (proj2 (sanitize_keeps_extracted_series exact_sum (fun q => q)
                  (fun _ => NaN)
                  (mkTable [Some 14; Some 7; None] ["North"; "North"; "South"]
                           [("New Leads", [Some 20%Q; Some 30%Q; NaN])])
                  "New Leads" _ eq_refl
                  ltac:(repeat constructor; discriminate)))).
Defined.

(* ------------------------------------------------------------------ *)
(** ** The forecasting section over machine arithmetic (C3) *)

Section ValidationFacts.

Variable group_sum : list float64 -> float64.
Variable to_float64 : Q -> Q.
Variable series_sum : list float64 -> float64.
Variable parse_float : string -> float64.
Variable Model : Type.
Variable fit : Frame -> nat -> result Model.
Variable make_future_dataframe : Model -> Frame -> nat -> result Frame.
Variable predict : Model -> Frame -> result Forecast.
Variable format_exc : Exception -> string.

Let load := load_forecast_data_with group_sum Model.
Let clean := sanitize_with to_float64 parse_float.
Let check := validate_with series_sum Model.
Let run :=
  forecasting_section_with group_sum to_float64 series_sum parse_float Model
    fit make_future_dataframe predict format_exc.

(** The condition of lines 639, 661 and 692, spelled out. *)
Lemma no_usable_signal_with_true (fd : Frame) :
  no_usable_signal_with series_sum fd = true
  <-> fd = [] \/ exists total, series_sum (map y_float fd) = Some total
                               /\ (total == 0)%Q.
Proof.
  unfold no_usable_signal_with. rewrite orb_true_iff. split.
  - intros [He|Hs].
    + left. destruct fd; [reflexivity | discriminate].
    + right. destruct (series_sum (map y_float fd)) as [total|]; [|discriminate].
      exists total. split; [reflexivity|]. now apply Qeq_bool_iff.
  - intros [->|[total [Hs Hz]]].
    + now left.
    + right. rewrite Hs. now apply Qeq_bool_iff.
Qed.

Lemma validate_with_pass (fd : Frame) (msg : string) (s : Session Model) :
  no_usable_signal_with series_sum fd = false -> check fd msg s = (Done tt, s).
Proof. intros H. unfold check, validate_with. now rewrite H. Qed.

Lemma validate_with_halt (fd : Frame) (msg : string) (s : Session Model) :
  no_usable_signal_with series_sum fd = true ->
  check fd msg s
  = (Stopped, mkSession Model (ui s ++ [Warning msg]) (cache s) (fits s) (rng s)).
Proof. intros H. unfold check, validate_with. now rewrite H. Qed.

(** Loading the frame touches neither the page nor the stores; outside DEBUG
    it can only raise what the extractor raises. *)
Lemma load_with_cases (data : Table) (metric : string) (s : Session Model) :
  (exists raw s1, load data metric s = (Done raw, s1)
     /\ ui s1 = ui s /\ cache s1 = cache s /\ fits s1 = fits s)
  \/ (exists e, load data metric s = (Raised e, s)
        /\ metric <> "DEBUG"
        /\ get_forecast_data_with group_sum data metric = Raise e).
Proof.
  unfold load, load_forecast_data_with.
  destruct (String.eqb metric "DEBUG") eqn:E.
  - left. unfold np_random.
    destruct (debug_frame (rng s)) as [fd g] eqn:Hd.
    exists fd, (mkSession Model (ui s) (cache s) (fits s) g). simpl. auto.
  - apply String.eqb_neq in E. unfold lift.
    destruct (get_forecast_data_with group_sum data metric) as [fd|e] eqn:Hg.
    + left. exists fd, s. auto.
    + right. exists e. auto.
Qed.

(** The ways a run of the section can end: the extractor raised, a
    validation stopped the script before any training, or the section ran
    to its end, training on nothing but the frame that passed the
    validations. *)
Lemma forecasting_section_with_cases (data : Table) (metric chart : string)
    (s : Session Model) (out : outcome unit) (s' : Session Model) :
  run data metric chart s = (out, s') ->
  (exists e, out = Raised e /\ fits s' = fits s)
  \/ (out = Stopped /\ fits s' = fits s)
  \/ (out = Done tt
      /\ exists fd (trained : list Frame),
           no_usable_signal_with series_sum fd = false
           /\ fits s' = (fits s ++ trained)%list
           /\ Forall (eq fd) trained).
Proof.
  unfold run, forecasting_section_with. intros H.
  destruct (load_with_cases data metric s)
    as [[raw [s1 [Hl [_ [_ Hf1]]]]]|[e [Hl _]]].
  2: { rewrite (bind_Raised Model _ _ _ _ _ Hl) in H. inversion H; subst.
       left. exists e. auto. }
  rewrite (bind_Done Model _ _ _ _ _ Hl) in H.
  destruct (no_usable_signal_with series_sum (clean raw)) eqn:Hv.
  { rewrite (bind_Stopped Model _ _ _ _ (validate_with_halt _ _ _ Hv)) in H.
    inversion H; subst. right; left. simpl. auto. }
  rewrite (bind_Done Model _ _ _ _ _ (validate_with_pass _ _ _ Hv)) in H.
  destruct (load_with_cases data metric s1)
    as [[raw2 [s2 [Hl2 [_ [_ Hf2]]]]]|[e [Hl2 _]]].
  2: { rewrite (bind_Raised Model _ _ _ _ _ Hl2) in H. inversion H; subst.
       left. exists e. auto. }
  rewrite (bind_Done Model _ _ _ _ _ Hl2) in H. cbv zeta in H.
  rewrite (bind_Done Model _ _ _ _ _ (emit_run Model _ _)) in H.
  rewrite (bind_Done Model _ _ _ _ _ (emit_run Model _ _)) in H.
  destruct (no_usable_signal_with series_sum (clean raw2)) eqn:Hv2.
  { rewrite (bind_Stopped Model _ _ _ _ (validate_with_halt _ _ _ Hv2)) in H.
    inversion H; subst. right; left. simpl. split; [reflexivity | congruence]. }
  rewrite (bind_Done Model _ _ _ _ _ (validate_with_pass _ _ _ Hv2)) in H.
  match type of H with
  | context [bind Model (first_forecast _ _ _ _ _ _ _ ?fd) _ ?t] =>
      destruct (first_forecast_done Model fit make_future_dataframe predict
                  format_exc chart metric fd t) as [s3 [H3 [_ Hf3]]]
  end.
  simpl in Hf3.
  rewrite (bind_Done Model _ _ _ _ _ H3) in H.
  rewrite (bind_Done Model _ _ _ _ _ (validate_with_pass _ _ _ Hv2)) in H.
  destruct (second_forecast_done Model fit make_future_dataframe predict
              format_exc (clean raw2) s3) as [s4 [H4 [_ Hf4]]].
  unfold clean in H4. rewrite H4 in H. inversion H; subst.
  right; right. split; [reflexivity|].
  exists (sanitize_with to_float64 parse_float raw2).
  unfold clean in Hf4.
  destruct Hf3 as [Hf3|Hf3], Hf4 as [Hf4|Hf4]; rewrite Hf4, Hf3, Hf2, Hf1.
  - exists []. rewrite app_nil_r. auto.
  - exists [sanitize_with to_float64 parse_float raw2]. auto.
  - exists [sanitize_with to_float64 parse_float raw2]. auto.
  - exists [sanitize_with to_float64 parse_float raw2;
            sanitize_with to_float64 parse_float raw2].
    rewrite <- app_assoc. auto.
Qed.

End ValidationFacts.

(** C3. Whatever the sums and the conversion to float return: when the
    sanitised frame is empty or the sum of its values, as
    [forecast_data['y'].sum()] returns it, is equal to zero, the
    forecasting section stops the script right after one warning, whose
    text contains the metric's name, and [fit] is not called. In every run
    of the section, [fit] is called only on frames that are not empty and
    whose sum is not equal to zero. *)
Theorem no_usable_signal_halts (group_sum : list float64 -> float64)
    (to_float64 : Q -> Q) (series_sum : list float64 -> float64)
    (parse_float : string -> float64) (Model : Type)
    (fit : Frame -> nat -> result Model)
    (make_future_dataframe : Model -> Frame -> nat -> result Frame)
    (predict : Model -> Frame -> result Forecast)
    (format_exc : Exception -> string)
    (data : Table) (forecast_metric chart_type_forecast : string)
    (s : Session Model) :
  (forall raw s1,
      load_forecast_data_with group_sum Model data forecast_metric s
      = (Done raw, s1) ->
      (sanitize_with to_float64 parse_float raw = []
       \/ exists total,
            series_sum (map y_float (sanitize_with to_float64 parse_float raw))
            = Some total
            /\ (total == 0)%Q) ->
      forecasting_section_with group_sum to_float64 series_sum parse_float
        Model fit make_future_dataframe predict format_exc
        data forecast_metric chart_type_forecast s
      = (Stopped,
         mkSession Model (ui s ++ [Warning (warning_639 forecast_metric)])
                   (cache s) (fits s) (rng s1)))
  /\ (exists pre post : string,
        warning_639 forecast_metric = pre ++ forecast_metric ++ post)
  /\ (forall out s',
        forecasting_section_with group_sum to_float64 series_sum parse_float
          Model fit make_future_dataframe predict format_exc
          data forecast_metric chart_type_forecast s = (out, s') ->
        exists trained : list Frame,
          fits s' = (fits s ++ trained)%list
          /\ Forall (fun fd =>
                       fd <> []
                       /\ forall total,
                            series_sum (map y_float fd) = Some total ->
                            ~ (total == 0)%Q) trained).
Proof.
  split; [|split].
  - intros raw s1 Hl Hv.
    apply (no_usable_signal_with_true series_sum) in Hv.
    unfold forecasting_section_with.
    rewrite (bind_Done Model _ _ _ _ _ Hl).
    rewrite (bind_Stopped Model _ _ _ _
               (validate_with_halt series_sum Model _ _ _ Hv)).
    destruct (load_with_cases group_sum Model data forecast_metric s)
      as [[raw' [s1' [Hl' [Hu [Hc Hf]]]]]|[e [Hl' _]]];
      rewrite Hl' in Hl; inversion Hl; subst.
    now rewrite Hu, Hc, Hf.
  - destruct warning_639_names_metric as [pre [post H]]. now exists pre, post.
  - intros out s' H.
    destruct (forecasting_section_with_cases group_sum to_float64 series_sum
                parse_float Model fit make_future_dataframe predict format_exc
                data forecast_metric chart_type_forecast s out s' H)
      as [[e [_ Hf]]|[[_ Hf]|[_ [fd [trained [Hv [Hf Hall]]]]]]].
    + exists []. rewrite app_nil_r. auto.
    + exists []. rewrite app_nil_r. auto.
    + exists trained. split; [exact Hf|].
      eapply Forall_impl; [|exact Hall]. intros fd' <-.
      split.
      * intros ->. discriminate Hv.
      * intros total Hs Hz.
        assert (Ht : no_usable_signal_with series_sum fd = true).
        { apply no_usable_signal_with_true. right. eauto. }
        congruence.
Qed.

(** An empty table: the extractor returns an empty frame and the section
    stops with the warning. *)
Lemma no_usable_signal_halts_witness :
  let data := mkTable [] [] [("New Leads", [])] in
  let s := mkSession unit [] [] [] (fun _ => 0) in
  forecasting_section_with exact_sum (fun q => q) exact_sum (fun _ => NaN) unit
    (fun _ _ => Ok tt) (fun _ fd _ => Ok fd) (fun _ _ => Ok []) exc_msg
    data "New Leads" "Line Chart" s
  = (Stopped, mkSession unit [Warning (warning_639 "New Leads")] [] [] (fun _ => 0)).
Proof.
  intros data s.
  apply (proj1 (no_usable_signal_halts exact_sum (fun q => q) exact_sum
                  (fun _ => NaN) unit (fun _ _ => Ok tt) (fun _ fd _ => Ok fd)
                  (fun _ _ => Ok []) exc_msg data "New Leads" "Line Chart" s)
               [] s).
  - reflexivity.
  - left. reflexivity.
Defined.

(** The section over exact arithmetic is the section of the sections
    before. *)
Lemma forecasting_section_exact (Model : Type)
    (fit : Frame -> nat -> result Model)
    (make_future_dataframe : Model -> Frame -> nat -> result Frame)
    (predict : Model -> Frame -> result Forecast)
    (format_exc : Exception -> string) (parse_float : string -> float64)
    (data : Table) (metric chart : string) (s : Session Model) :
  forecasting_section Model fit make_future_dataframe predict format_exc
    parse_float data metric chart s
  = forecasting_section_with exact_sum (fun q => q) exact_sum parse_float Model
      fit make_future_dataframe predict format_exc data metric chart s.
Proof.
  assert (Hload : forall t,
             load_forecast_data Model data metric t
             = load_forecast_data_with exact_sum Model data metric t).
  { intros t. unfold load_forecast_data, load_forecast_data_with.
    destruct (String.eqb metric "DEBUG"); [reflexivity|].
    now rewrite get_forecast_data_exact. }
  assert (Hcheck : forall fd msg t,
             validate Model fd msg t = validate_with exact_sum Model fd msg t).
  { intros fd msg t. unfold validate, validate_with.
    replace (no_usable_signal_with exact_sum fd) with (no_usable_signal fd)
      by reflexivity.
    reflexivity. }
  unfold forecasting_section, forecasting_section_with, bind.
  rewrite Hload.
  destruct (load_forecast_data_with exact_sum Model data metric s)
    as [[raw| |e] s1]; [|reflexivity|reflexivity].
  rewrite <- sanitize_exact, Hcheck.
  destruct (validate_with exact_sum Model (sanitize parse_float raw)
              (warning_639 metric) s1) as [[[]| |e] s2];
    [|reflexivity|reflexivity].
  rewrite Hload.
  destruct (load_forecast_data_with exact_sum Model data metric s2)
    as [[raw2| |e] s3]; [|reflexivity|reflexivity].
  cbv zeta. rewrite <- sanitize_exact.
  destruct (emit Model (Written "🧪 Forecast Data Preview"
                          (WFrame (firstn 5 (sanitize parse_float raw2)))) s3)
    as [[[]| |e] s4]; [|reflexivity|reflexivity].
  destruct (emit Model (Written "📏 Shape:"
                          (WShape (List.length (sanitize parse_float raw2)) 2)) s4)
    as [[[]| |e] s5]; [|reflexivity|reflexivity].
  rewrite Hcheck.
  destruct (validate_with exact_sum Model (sanitize parse_float raw2)
              (warning_661 metric) s5) as [[[]| |e] s6];
    [|reflexivity|reflexivity].
  destruct (first_forecast Model fit make_future_dataframe predict format_exc
              chart metric (sanitize parse_float raw2) s6) as [[[]| |e] s7];
    [|reflexivity|reflexivity].
  rewrite Hcheck. reflexivity.
Qed.

(* ------------------------------------------------------------------ *)
(** ** The model cache (C2) *)









Section CacheFacts.

Variable Model : Type.
Variable fit : Frame -> nat -> result Model.



End CacheFacts.



(* ------------------------------------------------------------------ *)
(** ** The pipeline on int64 and float64 *)

(** [astype(float)] rounds an integer that no float64 holds: 2^53 + 1
    comes out of the sanitising step as 2^53. *)
Example astype_float_rounds :
  sanitize_with astype_float (fun _ => NaN)
    [mkPoint 0 (Some 7) (Flt (Some (inject_Z (2 ^ 53 + 1))))]
  = [mkPoint 0 (Some 7) (Flt (Some (inject_Z (2 ^ 53))))].
Proof. vm_compute. reflexivity. Qed.

(** A float64 sum can cancel where the exact sum does not, and the other
    way round. The values 1e16, 1, -1e16, -1 add up to 0, but their float64
    sum is -1: the section trains on them. The values 1e16, 1, -1e16 add up
    to 1, but their float64 sum is 0: the section stops. *)
Example float64_sum_decides :
  let week := fun n : Z => Some (to_datetime (7 * n)) in
  let four := mkTable [week 1; week 2; week 3; week 4]
                      ["North"; "North"; "North"; "North"]
                      [("Net", [Some (inject_Z (10 ^ 16)); Some 1%Q;
                                Some (inject_Z (- 10 ^ 16)); Some (-1)%Q])] in
  let three := mkTable [week 1; week 2; week 3] ["North"; "North"; "North"]
                       [("Net", [Some (inject_Z (10 ^ 16)); Some 1%Q;
                                 Some (inject_Z (- 10 ^ 16))])] in
  let run := fun data =>
    forecasting_section_with float64_sum astype_float float64_sum (fun _ => NaN)
      nat example_fit (fun _ fd _ => Ok fd) (fun _ _ => Ok []) exc_msg
      data "Net" "Line Chart" (mkSession nat [] [] [] (fun _ => 0)) in
  (fst (run four) = Done tt /\ List.length (fits (snd (run four))) = 2%nat)
  /\ (fst (run three) = Stopped /\ fits (snd (run three)) = []).
Proof. vm_compute. repeat split. Qed.

(** An int64 sum wraps: two rows of 2^62 in one week give the week the
    value -2^63. *)
Example int64_sum_wraps :
  get_forecast_data_with int64_sum
    (mkTable [Some (to_datetime 7); Some (to_datetime 7)] ["North"; "South"]
             [("Net", [Some (inject_Z (2 ^ 62)); Some (inject_Z (2 ^ 62))])])
    "Net"
  = Ok [mkPoint 0 (Some (to_datetime 7)) (Flt (Some (inject_Z (- 2 ^ 63))))].
Proof. vm_compute. reflexivity. Qed.

(** Beyond 2^52 the float64 quotient of line 248 can fall on a threshold
    that the exact quotient is above: for a previous value of 2^62 and a
    current value of 5/4 of it plus 1, the difference 2^60 + 1 is rounded
    to 2^60 and the quotient is 0.25. *)
Example float64_quotient_on_threshold :
  (exists q,
      number_of_float
        (SFdiv 53 1024 (float_of_number (inject_Z (5 * 2 ^ 60 + 1 - 2 ^ 62)))
                       (float_of_number (inject_Z (2 ^ 62))))
      = Some q
      /\ (q == 1 # 4)%Q)
  /\ alert_of (Some (inject_Z (5 * 2 ^ 60 + 1))) (Some (inject_Z (2 ^ 62)))
     = Ok "📍 Spike".
Proof.
  split; [|vm_compute; reflexivity].
  eexists. split; [vm_compute; reflexivity | reflexivity].
Qed.
